(** * hand-eye-test: the service core, embedded from the Go sources

    The development follows the Go package [handeyetest]:
    - [service.go]: the [handEyeTest] struct, [DoCommand] and its handlers;
    - the pick sequence ([executePick], [pickResult.toMap], [vecNorm]);
    - the detection wrapper ([detectObjects], [computeCenter]);
    - [move.go]: the incremental controller [handleMoveTo];
    - [config.go]: [Config.Validate] and its defaults;
    - the constructor [NewHandEyeTest], the command line ([runCLI], from
      the parsed flags on) and [main].

    Go's [float64] is kept abstract behind the class [Float64]; its instance
    is IEEE binary64 (Rocq's primitive floats: the arithmetic the program
    runs on, and executable).
    The arm, gripper, camera and motion service are external collaborators:
    they are a record of transition functions over an arbitrary world type. *)

From Stdlib Require Import ZArith Floats Lia.
From stdpp Require Import base strings list gmap.

Set Default Proof Using "Type".
#[local] Set Warnings "-register-all,-inexact-float".

(** ** float64 *)

Class Float64 (F : Type) : Type := {
  fzero : F;
  fone : F;
  fadd : F -> F -> F;
  fsub : F -> F -> F;
  fmul : F -> F -> F;
  fdiv : F -> F -> F;
  fsqrt : F -> F;                (* math.Sqrt *)
  fleb : F -> F -> bool;         (* a <= b *)
  fltb : F -> F -> bool;         (* a < b *)
  feqb : F -> F -> bool;         (* a == b *)
  ofZ : Z -> F;                  (* float64(n) *)
  toInt : F -> Z                 (* int(x), truncation toward zero *)
}.

Declare Scope f64_scope.
Delimit Scope f64_scope with f64.
Infix "+" := fadd : f64_scope.
Infix "-" := fsub : f64_scope.
Infix "*" := fmul : f64_scope.
Infix "/" := fdiv : f64_scope.
Infix "<=?" := fleb : f64_scope.
Infix "<?" := fltb : f64_scope.
Infix "=?" := feqb : f64_scope.

Definition minInt64 : Z := (- 2 ^ 63)%Z.

(** [float64(n)] on binary64. *)
Definition float_ofZ (z : Z) : float :=
  match z with
  | Z0 => 0%float
  | Zpos _ => PrimFloat.of_uint63 (Uint63.of_Z z)
  | Zneg p => PrimFloat.opp (PrimFloat.of_uint63 (Uint63.of_Z (Zpos p)))
  end.

(** [int(x)] on binary64: the fraction is discarded. For a value that does
    not fit (and for NaN and the infinities) Go leaves the result to the
    implementation; amd64 gives the least int64, which is what is used here. *)
Definition float_toInt (f : float) : Z :=
  match Prim2SF f with
  | S754_zero _ => 0%Z
  | S754_finite s m e =>
      let v := if (0 <=? e)%Z then Z.shiftl (Zpos m) e else Z.shiftr (Zpos m) (- e) in
      let v := if s then (- v)%Z else v in
      if ((minInt64 <=? v) && (v <? 2 ^ 63))%Z then v else minInt64
  | _ => minInt64
  end.

#[export] Instance float64_binary64 : Float64 float := {|
  fzero := 0%float;
  fone := 1%float;
  fadd := PrimFloat.add;
  fsub := PrimFloat.sub;
  fmul := PrimFloat.mul;
  fdiv := PrimFloat.div;
  fsqrt := PrimFloat.sqrt;
  fleb := PrimFloat.leb;
  fltb := PrimFloat.ltb;
  feqb := PrimFloat.eqb;
  ofZ := float_ofZ;
  toInt := float_toInt
|}.

(** ** Geometry: r3.Vector, spatialmath.Pose, referenceframe.PoseInFrame *)

Module r3.
Record Vector (F : Type) : Type := mk { X : F; Y : F; Z : F }.
Arguments mk {F} _ _ _.
Arguments X {F} _.
Arguments Y {F} _.
Arguments Z {F} _.
End r3.

Section Geometry.
Context {F : Type} `{Float64 F}.

(** [r3.Vector{}] *)
Definition zeroVector : r3.Vector F := r3.mk fzero fzero fzero.

(** [v.Add(w)] *)
Definition vecAdd (v w : r3.Vector F) : r3.Vector F :=
  r3.mk (r3.X v + r3.X w)%f64 (r3.Y v + r3.Y w)%f64 (r3.Z v + r3.Z w)%f64.

(** [a - b], component by component. *)
Definition vecSub (a b : r3.Vector F) : r3.Vector F :=
  r3.mk (r3.X a - r3.X b)%f64 (r3.Y a - r3.Y b)%f64 (r3.Z a - r3.Z b)%f64.

(** [v != (r3.Vector{})]: Go compares the struct field by field with [==]. *)
Definition vecIsZero (v : r3.Vector F) : bool :=
  (r3.X v =? fzero)%f64 && (r3.Y v =? fzero)%f64 && (r3.Z v =? fzero)%f64.

Definition vecNorm (v : r3.Vector F) : F :=
  fsqrt (r3.X v * r3.X v + r3.Y v * r3.Y v + r3.Z v * r3.Z v)%f64.

(** [spatialmath.OrientationVectorDegrees]; fields left out of a literal are zero. *)
Record OrientationVectorDegrees : Type := mkOVD { Theta : F; OX : F; OY : F; OZ : F }.

Record Pose : Type := NewPose { Point : r3.Vector F; Orientation : OrientationVectorDegrees }.

Definition NewPoseFromPoint (p : r3.Vector F) : Pose :=
  NewPose p (mkOVD fzero fzero fzero fone).

Record PoseInFrame : Type := NewPoseInFrame { Parent : string; PosePIF : Pose }.

End Geometry.

Arguments OrientationVectorDegrees F : clear implicits.
Arguments Pose F : clear implicits.
Arguments PoseInFrame F : clear implicits.

(** ** Values of [map[string]interface{}] *)

Inductive Value (F : Type) : Type :=
| VString (s : string)
| VFloat (x : F)
| VInt (n : Z)
| VBool (b : bool)
| VList (l : list (Value F))
| VMap (m : gmap string (Value F)).

Arguments VString {F} s.
Arguments VFloat {F} x.
Arguments VInt {F} n.
Arguments VBool {F} b.
Arguments VList {F} l.
Arguments VMap {F} m.

(** The [.(string)] and [.(float64)] type assertions of [DoCommand]. *)
Definition asString {F} (v : option (Value F)) : option string :=
  match v with Some (VString s) => Some s | _ => None end.

Definition asFloat64 {F} (v : option (Value F)) : option F :=
  match v with Some (VFloat x) => Some x | _ => None end.

(** ** Errors, replies and exits *)

(** One constructor per [fmt.Errorf] of the package, with the values that
    are formatted into the message; [External] is an error value handed
    back by a collaborator. *)
Inductive error : Type :=
| External (msg : string)
| ErrMissingCommand                                  (* "missing or invalid 'command' field" *)
| ErrUnknownCommand (command : string)               (* "unknown command: %s" *)
| ErrDetectionFailed (cause : error)                 (* "detection failed: %w" *)
| ErrIndexOutOfRange (objectIndex : Z) (detected : Z) (* "object_index %d out of range (detected %d objects)" *)
| ErrNoPreviousDetection                             (* "no previous detection; run 'detect' first" *)
| ErrInvalidSegmentationConfig (cause : error)       (* "invalid segmentation config: %w" *)
| ErrSegmentationFailed (cause : error)              (* "segmentation failed: %w" *)
| ErrOpenGripper (cause : error)                     (* "failed to open gripper: %w" *)
| ErrApproachMove (cause : error)                    (* "failed to move to approach position: %w" *)
| ErrApproachNoPath                                  (* "motion planner could not find path to approach position" *)
| ErrArmPosition (cause : error)                     (* "failed to get arm position: %w" *)
| ErrGraspMove (cause : error)                       (* "failed to move to grasp position: %w" *)
| ErrGrab (cause : error)                            (* "failed to grab: %w" *)
| ErrGetGripperPose (cause : error)                  (* "failed to get gripper pose: %w" *)
| ErrStepMoveFailed (step : Z) (cause : error)       (* "step %d move failed: %w" *)
| ErrStepNoPath (step : Z)                           (* "step %d: motion planner could not find path" *)
| ErrDidNotReach (maxSteps : Z).                     (* "did not reach target after %d steps" *)

(** What a collaborator hands back: Go's [(value, error)] pair. *)
Inductive reply (A : Type) : Type :=
| Returns (a : A)
| Fails (e : error).

Arguments Returns {A} a.
Arguments Fails {A} e.

(** A run-time panic of the Go runtime. *)
Inductive panic : Type :=
| IndexOutOfRange (index : Z) (len : Z).             (* "index out of range [%d] with length %d" *)

(** How a function of the service ends: [Ok a] is [return a, nil],
    [Err e] is [return nil, e], [Panic p] unwinds the goroutine. *)
Inductive outcome (A : Type) : Type :=
| Ok (a : A)
| Err (e : error)
| Panic (p : panic).

Arguments Ok {A} a.
Arguments Err {A} e.
Arguments Panic {A} p.

(** ** A state monad with early exit *)

Definition M (S A : Type) : Type := S -> outcome A * S.

Definition ret {S A} (a : A) : M S A := fun s => (Ok a, s).

Definition bind {S A B} (c : M S A) (k : A -> M S B) : M S B :=
  fun s =>
    match c s with
    | (Ok a, s') => k a s'
    | (Err e, s') => (Err e, s')
    | (Panic p, s') => (Panic p, s')
    end.

(** [return nil, e] *)
Definition raise {S A} (e : error) : M S A := fun s => (Err e, s).

Definition throw {S A} (p : panic) : M S A := fun s => (Panic p, s).

Definition get {S} : M S S := fun s => (Ok s, s).

Definition modify {S} (f : S -> S) : M S unit := fun s => (Ok tt, f s).

(** Run a computation on a component of the state. *)
Definition zoom {S T A} (proj : S -> T) (inj : T -> S -> S) (c : M T A) : M S A :=
  fun s => let '(o, t) := c (proj s) in (o, inj t s).

Declare Scope go_scope.
Delimit Scope go_scope with go.
Notation "x <- c ;; k" := (bind c (fun x => k))
  (at level 100, c at next level, right associativity) : go_scope.
Notation "c ;;; k" := (bind c (fun _ => k))
  (at level 100, right associativity) : go_scope.

(** Go slices that may be [nil]: [None] is the nil slice. *)
Definition slice (A : Type) : Type := option (list A).

Definition len {A} (s : slice A) : Z := Z.of_nat (length (default [] s)).

Definition append {A} (s : slice A) (x : A) : slice A := Some (default [] s ++ [x]).

(** [s[i]], which panics outside [0, len(s)). *)
Definition index {S A} (s : slice A) (i : Z) : M S A :=
  if (i <? 0)%Z then throw (IndexOutOfRange i (len s))
  else match default [] s !! Z.to_nat i with
       | Some x => ret x
       | None => throw (IndexOutOfRange i (len s))
       end.

(** ** Configuration (config.go) *)

Section Config.
Context {F : Type} `{Float64 F}.

(** The fields are those the service reads and the command line sets:
    [MaxDepthMm] and [MaxPointCount] are read by [detectObjects], and
    [DetectionFrame] by [executePick]. *)
Record SegmentationConfig : Type := {
  MinPtsInPlane : Z;
  MaxDistFromPlane : F;
  GroundNormal : list F;
  AngleTolerance : F;
  MinPtsInSegment : Z;
  ClusteringRadiusMm : F;
  MeanKFiltering : Z;
  MaxDepthMm : F;
  MaxPointCount : Z
}.

Definition groundNormalVec (sc : SegmentationConfig) : r3.Vector F :=
  match GroundNormal sc with
  | [x; y; z] => r3.mk x y z
  | _ => r3.mk fzero fzero fone
  end.

Record Config : Type := {
  Arm : string;
  Camera : string;
  Gripper : string;
  DetectionFrame : string;
  ApproachOffsetMm : F;
  GraspDepthOffsetMm : F;
  LiftHeightMm : F;
  Segmentation : SegmentationConfig
}.

(** [segmentation.RadiusClusteringConfig] of the robot library. *)
Record RadiusClusteringConfig : Type := {
  rcMinPtsInPlane : Z;
  rcMaxDistFromPlane : F;
  rcNormalVec : r3.Vector F;
  rcAngleTolerance : F;
  rcMinPtsInSegment : Z;
  rcClusteringRadiusMm : F;
  rcMeanKFiltering : Z
}.

(** A point cloud as the sequence of points [Iterate] visits; [Size] is
    their number. *)
Definition PointCloud : Type := list (r3.Vector F).

Definition Size (cloud : PointCloud) : Z := Z.of_nat (length cloud).

Record DetectedObject : Type := {
  Center : r3.Vector F;
  PointCount : Z
}.

End Config.

Arguments SegmentationConfig F : clear implicits.
Arguments Config F : clear implicits.
Arguments RadiusClusteringConfig F : clear implicits.
Arguments PointCloud F : clear implicits.
Arguments DetectedObject F : clear implicits.

(** ** The collaborators *)

(** The arm, the gripper, the motion service and the camera with its
    segmentation, as transitions of a world [W]. [Compose] is
    [spatialmath.Compose]. *)
Record Robot (F W : Type) : Type := {
  gripper_Open : W -> reply unit * W;
  gripper_Grab : W -> reply bool * W;
  gripper_IsHoldingSomething : W -> reply bool * W;
  arm_EndPosition : W -> reply (Pose F) * W;
  arm_MoveToPosition : Pose F -> W -> reply unit * W;
  motion_GetPose : string -> string -> W -> reply (Pose F) * W;
  motion_Move : string -> PoseInFrame F -> W -> reply bool * W;
  segmentation_CheckValid : RadiusClusteringConfig F -> reply unit;
  segmentation_RadiusClustering : RadiusClusteringConfig F -> W -> reply (list (PointCloud F)) * W;
  Compose : Pose F -> Pose F -> Pose F
}.

Arguments gripper_Open {F W} _ _.
Arguments gripper_Grab {F W} _ _.
Arguments gripper_IsHoldingSomething {F W} _ _.
Arguments arm_EndPosition {F W} _ _.
Arguments arm_MoveToPosition {F W} _ _ _.
Arguments motion_GetPose {F W} _ _ _ _.
Arguments motion_Move {F W} _ _ _ _.
Arguments segmentation_CheckValid {F W} _ _.
Arguments segmentation_RadiusClustering {F W} _ _ _.
Arguments Compose {F W} _ _ _.

(** The part of the service that issues a call: the handlers' own detection,
    the steps of the pick sequence that talk to a collaborator (numbered as
    in the comments of [executePick]), and the move loop. *)
Inductive Site : Type :=
| Detection
| Step1_OpenGripper
| Step2_ApproachPose
| Step3_Approach
| Step4_ReDetect
| Step5_GraspPosition
| Step6_WorldFrame
| Step7_Grab
| Step8_Lift
| Step9_Verify
| MoveLoop
| MoveFinal.

(** One call to a collaborator, with what it answered. *)
Inductive Call (F : Type) : Type :=
| GripperOpen (r : reply unit)
| GripperGrab (r : reply bool)
| GripperIsHoldingSomething (r : reply bool)
| ArmEndPosition (r : reply (Pose F))
| ArmMoveToPosition (p : Pose F) (r : reply unit)
| MotionGetPose (component frame : string) (r : reply (Pose F))
| MotionMove (component : string) (dest : PoseInFrame F) (r : reply bool)
| RadiusClustering (r : reply (list (PointCloud F))).

Arguments GripperOpen {F} r.
Arguments GripperGrab {F} r.
Arguments GripperIsHoldingSomething {F} r.
Arguments ArmEndPosition {F} r.
Arguments ArmMoveToPosition {F} p r.
Arguments MotionGetPose {F} component frame r.
Arguments MotionMove {F} component dest r.
Arguments RadiusClustering {F} r.

(** ** The service state (service.go) *)

(** The mutable fields of [handEyeTest] and its configuration. The mutex is
    not modelled: one command runs at a time here. *)
Record handEyeTest (F : Type) : Type := {
  cfg : Config F;
  lastDetection : slice (DetectedObject F);
  currentStatus : string;
  lastResult : option (gmap string (Value F))
}.

Arguments cfg {F} _.
Arguments lastDetection {F} _.
Arguments currentStatus {F} _.
Arguments lastResult {F} _.

(** Assignments to one field. *)
Definition withStatus {F} (status : string) (s : handEyeTest F) : handEyeTest F :=
  {| cfg := cfg s; lastDetection := lastDetection s;
     currentStatus := status; lastResult := lastResult s |}.

Definition withLastDetection {F} (objects : slice (DetectedObject F))
  (s : handEyeTest F) : handEyeTest F :=
  {| cfg := cfg s; lastDetection := objects;
     currentStatus := currentStatus s; lastResult := lastResult s |}.

Definition withLastResult {F} (r : option (gmap string (Value F)))
  (s : handEyeTest F) : handEyeTest F :=
  {| cfg := cfg s; lastDetection := lastDetection s;
     currentStatus := currentStatus s; lastResult := r |}.

(** The service, the world it acts on, and the calls made so far (oldest
    first). *)
Record St (F W : Type) : Type := {
  svc : handEyeTest F;
  world : W;
  trace : list (Site * Call F)
}.

Arguments svc {F W} _.
Arguments world {F W} _.
Arguments trace {F W} _.

(** ** The pick result and its map *)

Module pickResult.
Record t (F : Type) : Type := mk {
  Success : bool;
  IsHolding : bool;
  DetectedPosition : r3.Vector F;
  DetectionFrame : string;
  ObjectPositionWorldFrame : r3.Vector F;
  GripperPositionWorldFrame : r3.Vector F;
  ApproachOffsetMm : r3.Vector F;
  WorldFrameOffsetMm : r3.Vector F;
  StepsCompleted : list string
}.
Arguments mk {F} _ _ _ _ _ _ _ _ _.
Arguments Success {F} _.
Arguments IsHolding {F} _.
Arguments DetectedPosition {F} _.
Arguments DetectionFrame {F} _.
Arguments ObjectPositionWorldFrame {F} _.
Arguments GripperPositionWorldFrame {F} _.
Arguments ApproachOffsetMm {F} _.
Arguments WorldFrameOffsetMm {F} _.
Arguments StepsCompleted {F} _.

(** Assignments to one field. *)
Definition addStep {F} (name : string) (r : t F) : t F :=
  mk (Success r) (IsHolding r) (DetectedPosition r) (DetectionFrame r)
     (ObjectPositionWorldFrame r) (GripperPositionWorldFrame r)
     (ApproachOffsetMm r) (WorldFrameOffsetMm r) (StepsCompleted r ++ [name]).

Definition withSuccess {F} (b : bool) (r : t F) : t F :=
  mk b (IsHolding r) (DetectedPosition r) (DetectionFrame r)
     (ObjectPositionWorldFrame r) (GripperPositionWorldFrame r)
     (ApproachOffsetMm r) (WorldFrameOffsetMm r) (StepsCompleted r).

Definition withIsHolding {F} (b : bool) (r : t F) : t F :=
  mk (Success r) b (DetectedPosition r) (DetectionFrame r)
     (ObjectPositionWorldFrame r) (GripperPositionWorldFrame r)
     (ApproachOffsetMm r) (WorldFrameOffsetMm r) (StepsCompleted r).

Definition withObjectPositionWorldFrame {F} (v : r3.Vector F) (r : t F) : t F :=
  mk (Success r) (IsHolding r) (DetectedPosition r) (DetectionFrame r)
     v (GripperPositionWorldFrame r)
     (ApproachOffsetMm r) (WorldFrameOffsetMm r) (StepsCompleted r).

Definition withGripperPositionWorldFrame {F} (v : r3.Vector F) (r : t F) : t F :=
  mk (Success r) (IsHolding r) (DetectedPosition r) (DetectionFrame r)
     (ObjectPositionWorldFrame r) v
     (ApproachOffsetMm r) (WorldFrameOffsetMm r) (StepsCompleted r).

Definition withApproachOffsetMm {F} (v : r3.Vector F) (r : t F) : t F :=
  mk (Success r) (IsHolding r) (DetectedPosition r) (DetectionFrame r)
     (ObjectPositionWorldFrame r) (GripperPositionWorldFrame r)
     v (WorldFrameOffsetMm r) (StepsCompleted r).

Definition withWorldFrameOffsetMm {F} (v : r3.Vector F) (r : t F) : t F :=
  mk (Success r) (IsHolding r) (DetectedPosition r) (DetectionFrame r)
     (ObjectPositionWorldFrame r) (GripperPositionWorldFrame r)
     (ApproachOffsetMm r) v (StepsCompleted r).
End pickResult.

Section PickResult.
Context {F : Type} `{Float64 F}.

Definition position (v : r3.Vector F) (frame : string) : Value F :=
  VMap (<["x_mm" := VFloat (r3.X v)]> (<["y_mm" := VFloat (r3.Y v)]>
       (<["z_mm" := VFloat (r3.Z v)]> (<["frame" := VString frame]> ∅)))).

Definition offset (v : r3.Vector F) : Value F :=
  VMap (<["x" := VFloat (r3.X v)]> (<["y" := VFloat (r3.Y v)]>
       (<["z" := VFloat (r3.Z v)]> (<["total" := VFloat (vecNorm v)]> ∅)))).

Definition toMap (r : pickResult.t F) : gmap string (Value F) :=
  <["success" := VBool (pickResult.Success r)]>
  (<["is_holding" := VBool (pickResult.IsHolding r)]>
  (<["detected_position" :=
       position (pickResult.DetectedPosition r) (pickResult.DetectionFrame r)]>
  (<["object_position_world_frame" :=
       position (pickResult.ObjectPositionWorldFrame r) "world"]>
  (<["gripper_position_world_frame" :=
       position (pickResult.GripperPositionWorldFrame r) "world"]>
  (<["approach_offset_mm" := offset (pickResult.ApproachOffsetMm r)]>
  (<["world_frame_offset_mm" := offset (pickResult.WorldFrameOffsetMm r)]>
  (<["steps_completed" := VList (VString <$> pickResult.StepsCompleted r)]> ∅))))))).

End PickResult.

(** ** Talking to the collaborators *)

Section Service.
Context {F : Type} `{Float64 F} {W : Type} (robot : Robot F W).

#[local] Open Scope go_scope.

(** [if err != nil { return nil, fmt.Errorf(..., err) }] *)
Definition try {S A} (r : reply A) (wrap : error -> error) : M S A :=
  match r with
  | Returns a => ret a
  | Fails e => raise (wrap e)
  end.

(** [v, err := f(...)] for a function of the package, the error kept as a value. *)
Definition attempt {S A} (c : M S A) : M S (reply A) :=
  fun s =>
    match c s with
    | (Ok a, s') => (Ok (Returns a), s')
    | (Err e, s') => (Ok (Fails e), s')
    | (Panic p, s') => (Panic p, s')
    end.

(** A call moves the world and is recorded. *)
Definition call {A} (site : Site) (f : W -> reply A * W) (ev : reply A -> Call F)
  : M (St F W) (reply A) :=
  fun st =>
    let '(r, w) := f (world st) in
    (Ok r, {| svc := svc st; world := w; trace := trace st ++ [(site, ev r)] |}).

Definition gripperOpen (site : Site) : M (St F W) (reply unit) :=
  call site (gripper_Open robot) GripperOpen.

Definition gripperGrab (site : Site) : M (St F W) (reply bool) :=
  call site (gripper_Grab robot) GripperGrab.

Definition gripperIsHoldingSomething (site : Site) : M (St F W) (reply bool) :=
  call site (gripper_IsHoldingSomething robot) GripperIsHoldingSomething.

Definition armEndPosition (site : Site) : M (St F W) (reply (Pose F)) :=
  call site (arm_EndPosition robot) ArmEndPosition.

Definition armMoveToPosition (site : Site) (p : Pose F) : M (St F W) (reply unit) :=
  call site (arm_MoveToPosition robot p) (ArmMoveToPosition p).

Definition motionGetPose (site : Site) (component frame : string)
  : M (St F W) (reply (Pose F)) :=
  call site (motion_GetPose robot component frame) (MotionGetPose component frame).

Definition motionMove (site : Site) (component : string) (dest : PoseInFrame F)
  : M (St F W) (reply bool) :=
  call site (motion_Move robot component dest) (MotionMove component dest).

Definition radiusClustering (site : Site) (segCfg : RadiusClusteringConfig F)
  : M (St F W) (reply (list (PointCloud F))) :=
  call site (segmentation_RadiusClustering robot segCfg) RadiusClustering.

(** Writes to the fields of [handEyeTest]. *)
Definition withSvc (f : handEyeTest F -> handEyeTest F) : M (St F W) unit :=
  modify (fun st => {| svc := f (svc st); world := world st; trace := trace st |}).

Definition setCurrentStatus (status : string) : M (St F W) unit :=
  withSvc (withStatus status).

Definition setLastDetection (objects : slice (DetectedObject F)) : M (St F W) unit :=
  withSvc (withLastDetection objects).

Definition setLastResult (r : option (gmap string (Value F))) : M (St F W) unit :=
  withSvc (withLastResult r).

(** ** Detection *)

Definition computeCenter (cloud : PointCloud F) : r3.Vector F :=
  let '(sum, count) :=
    fold_left (fun '(sum, count) p => (vecAdd sum p, (count + 1)%Z)) cloud (zeroVector, 0%Z) in
  if (count =? 0)%Z then zeroVector
  else r3.mk (r3.X sum / ofZ count)%f64 (r3.Y sum / ofZ count)%f64 (r3.Z sum / ofZ count)%f64.

(** The loop of [detectObjects] over the clusters; [detected] starts nil. *)
Fixpoint keepDetected (sc : SegmentationConfig F) (objects : list (PointCloud F))
  (detected : slice (DetectedObject F)) : slice (DetectedObject F) :=
  match objects with
  | [] => detected
  | obj :: rest =>
      let center := computeCenter obj in
      if (fzero <? MaxDepthMm sc)%f64 && (MaxDepthMm sc <? r3.Z center)%f64
      then keepDetected sc rest detected
      else if (0 <? MaxPointCount sc)%Z && (MaxPointCount sc <? Size obj)%Z
      then keepDetected sc rest detected
      else keepDetected sc rest
             (append detected {| Center := center; PointCount := Size obj |})
  end.

(** The [segCfg] literal of [detectObjects]. *)
Definition segCfgOf (c : Config F) : RadiusClusteringConfig F := {|
  rcMinPtsInPlane := MinPtsInPlane (Segmentation c);
  rcMaxDistFromPlane := MaxDistFromPlane (Segmentation c);
  rcNormalVec := groundNormalVec (Segmentation c);
  rcAngleTolerance := AngleTolerance (Segmentation c);
  rcMinPtsInSegment := MinPtsInSegment (Segmentation c);
  rcClusteringRadiusMm := ClusteringRadiusMm (Segmentation c);
  rcMeanKFiltering := MeanKFiltering (Segmentation c)
|}.

(** What [detectObjects] returns for the clusters [objects]. *)
Definition detectedOf (c : Config F) (objects : list (PointCloud F))
  : slice (DetectedObject F) :=
  if (Z.of_nat (length objects) =? 0)%Z then None
  else keepDetected (Segmentation c) objects None.

Definition detectObjects (site : Site) (c : Config F)
  : M (St F W) (slice (DetectedObject F)) :=
  let segCfg := segCfgOf c in
  try (segmentation_CheckValid robot segCfg) ErrInvalidSegmentationConfig ;;;
  r <- radiusClustering site segCfg ;;
  objects <- try r ErrSegmentationFailed ;;
  ret (detectedOf c objects).

(** ** The pick sequence *)

(** [executePick] runs on the service state and on its local [result]. *)
Record PickSt : Type := {
  base : St F W;
  result : pickResult.t F
}.

Definition inService {A} (c : M (St F W) A) : M PickSt A :=
  zoom base (fun b s => {| base := b; result := result s |}) c.

Definition withResult (f : pickResult.t F -> pickResult.t F) : M PickSt unit :=
  modify (fun s => {| base := base s; result := f (result s) |}).

Definition getResult : M PickSt (pickResult.t F) :=
  s <- get ;; ret (result s).

(** [result.StepsCompleted = append(result.StepsCompleted, name)] *)
Definition completed (name : string) : M PickSt unit :=
  withResult (pickResult.addStep name).

Definition setSuccess (b : bool) : M PickSt unit :=
  withResult (pickResult.withSuccess b).

Definition setIsHolding (b : bool) : M PickSt unit :=
  withResult (pickResult.withIsHolding b).

Definition setObjectPositionWorldFrame (v : r3.Vector F) : M PickSt unit :=
  withResult (pickResult.withObjectPositionWorldFrame v).

Definition setGripperPositionWorldFrame (v : r3.Vector F) : M PickSt unit :=
  withResult (pickResult.withGripperPositionWorldFrame v).

Definition setApproachOffsetMm (v : r3.Vector F) : M PickSt unit :=
  withResult (pickResult.withApproachOffsetMm v).

Definition setWorldFrameOffsetMm (v : r3.Vector F) : M PickSt unit :=
  withResult (pickResult.withWorldFrameOffsetMm v).

(** Step 1: open the gripper. *)
Definition stepOpenGripper : M PickSt unit :=
  r <- inService (gripperOpen Step1_OpenGripper) ;;
  try r ErrOpenGripper ;;;
  completed "open_gripper".

(** Steps 2 and 3: the approach pose in the detection frame, and the planned
    move to it. *)
Definition stepApproach (c : Config F) (obj : DetectedObject F)
  (detectionFrame : string) (isWorldFrame : bool) : M PickSt unit :=
  let approachPoint :=
    if isWorldFrame
    then r3.mk (r3.X (Center obj)) (r3.Y (Center obj))
               (r3.Z (Center obj) + ApproachOffsetMm c)%f64
    else r3.mk (r3.X (Center obj)) (r3.Y (Center obj))
               (r3.Z (Center obj) - ApproachOffsetMm c)%f64 in
  approachOrientation <-
    (if isWorldFrame
     then r <- inService (motionGetPose Step2_ApproachPose (Gripper c) "world") ;;
          match r with
          | Fails _ => ret (mkOVD (ofZ 180) fzero fone fzero)
          | Returns gripperPose => ret (Orientation gripperPose)
          end
     else ret (mkOVD fzero fzero fzero fone)) ;;
  let approachPose := NewPose approachPoint approachOrientation in
  let approachDest := NewPoseInFrame detectionFrame approachPose in
  r <- inService (motionMove Step3_Approach (Gripper c) approachDest) ;;
  success <- try r ErrApproachMove ;;
  if negb success then raise ErrApproachNoPath
  else completed "approach".

(** Step 4: detect again from the approach position; never fatal. *)
Definition stepReDetect (c : Config F) (obj : DetectedObject F) : M PickSt unit :=
  r <- attempt (inService (detectObjects Step4_ReDetect c)) ;;
  match r with
  | Fails _ => ret tt
  | Returns redetectedObjects =>
      if (0 <? len redetectedObjects)%Z
      then redetected <- index redetectedObjects 0 ;;
           setApproachOffsetMm (vecSub (Center redetected) (Center obj))
      else ret tt
  end ;;;
  completed "re_detect".

(** Step 5: a direct Cartesian move of the arm down to the grasp position. *)
Definition stepGraspPosition (c : Config F) : M PickSt unit :=
  r <- inService (armEndPosition Step5_GraspPosition) ;;
  currentPose <- try r ErrArmPosition ;;
  let graspDelta := (ApproachOffsetMm c - GraspDepthOffsetMm c)%f64 in
  let graspPoint :=
    r3.mk (r3.X (Point currentPose)) (r3.Y (Point currentPose))
          (r3.Z (Point currentPose) - graspDelta)%f64 in
  let graspPose := NewPose graspPoint (Orientation currentPose) in
  r <- inService (armMoveToPosition Step5_GraspPosition graspPose) ;;
  try r ErrGraspMove ;;;
  completed "grasp_position".

(** Step 6: the world-frame comparison; never fatal, and it leaves no name
    in [StepsCompleted]. *)
Definition stepWorldFrame (c : Config F) (obj : DetectedObject F) (isWorldFrame : bool)
  : M PickSt unit :=
  r <- inService (motionGetPose Step6_WorldFrame (Gripper c) "world") ;;
  match r with
  | Fails _ => ret tt
  | Returns gripperWorldPose =>
      let gripperPos := Point gripperWorldPose in
      setGripperPositionWorldFrame gripperPos ;;;
      (if isWorldFrame
       then setObjectPositionWorldFrame (Center obj)
       else r <- inService (motionGetPose Step6_WorldFrame (Camera c) "world") ;;
            match r with
            | Fails _ => ret tt
            | Returns cameraPose =>
                let objectInWorld := Compose robot cameraPose (NewPoseFromPoint (Center obj)) in
                setObjectPositionWorldFrame (Point objectInWorld)
            end) ;;;
      res <- getResult ;;
      if negb (vecIsZero (pickResult.ObjectPositionWorldFrame res))
      then setWorldFrameOffsetMm
             (vecSub gripperPos (pickResult.ObjectPositionWorldFrame res))
      else ret tt
  end.

(** Step 7: grab. The reported flag is only logged. *)
Definition stepGrab : M PickSt unit :=
  r <- inService (gripperGrab Step7_Grab) ;;
  try r ErrGrab ;;;
  completed "grab".

(** Step 8: lift by a direct Cartesian move; never fatal. *)
Definition stepLift (c : Config F) : M PickSt unit :=
  r <- inService (armEndPosition Step8_Lift) ;;
  match r with
  | Fails _ => ret tt
  | Returns currentPose =>
      let liftPoint :=
        r3.mk (r3.X (Point currentPose)) (r3.Y (Point currentPose))
              (r3.Z (Point currentPose) + LiftHeightMm c)%f64 in
      let liftPose := NewPose liftPoint (Orientation currentPose) in
      inService (armMoveToPosition Step8_Lift liftPose) ;;;
      ret tt
  end ;;;
  completed "lift".

(** Step 9: ask the gripper whether it holds something; never fatal. *)
Definition stepVerify : M PickSt unit :=
  r <- inService (gripperIsHoldingSomething Step9_Verify) ;;
  match r with
  | Fails _ => ret tt
  | Returns holdingStatus => setIsHolding holdingStatus
  end ;;;
  completed "verify".

(** The steps in their order; a fatal step that fails ends the sequence. *)
Definition pickSteps (c : Config F) (obj : DetectedObject F)
  (detectionFrame : string) (isWorldFrame : bool) : M PickSt unit :=
  stepOpenGripper ;;;
  stepApproach c obj detectionFrame isWorldFrame ;;;
  stepReDetect c obj ;;;
  stepGraspPosition c ;;;
  stepWorldFrame c obj isWorldFrame ;;;
  stepGrab ;;;
  stepLift c ;;;
  stepVerify.

(** [detectionFrame] and [isWorldFrame] of [executePick]. *)
Definition detectionFrameOf (c : Config F) : string :=
  if String.eqb (DetectionFrame c) "" then Camera c else DetectionFrame c.

Definition isWorldFrameOf (c : Config F) : bool :=
  String.eqb (detectionFrameOf c) "world".

(** [&pickResult{DetectedPosition: obj.Center, DetectionFrame: detectionFrame}] *)
Definition newResult (c : Config F) (obj : DetectedObject F) : pickResult.t F :=
  pickResult.mk false false (Center obj) (detectionFrameOf c)
    zeroVector zeroVector zeroVector zeroVector [].

(** The body of [executePick], on the local [result]. *)
Definition pickSequence (obj : DetectedObject F) : M PickSt (gmap string (Value F)) :=
  inService (setCurrentStatus "picking") ;;;
  s <- get ;;
  let c := cfg (svc (base s)) in
  withResult (fun _ => newResult c obj) ;;;
  pickSteps c obj (detectionFrameOf c) (isWorldFrameOf c) ;;;
  res <- getResult ;;
  setSuccess (pickResult.IsHolding res) ;;;
  res <- getResult ;;
  ret (toMap res).

(** The zero value of [pickResult]. *)
Definition noResult : pickResult.t F :=
  pickResult.mk false false zeroVector "" zeroVector zeroVector zeroVector zeroVector [].

Definition executePick (obj : DetectedObject F) : M (St F W) (gmap string (Value F)) :=
  fun st =>
    let '(o, s) := pickSequence obj {| base := st; result := noResult |} in
    (o, base s).

(** ** The handlers (service.go) *)

Definition detectedToValue (i : nat) (obj : DetectedObject F) : Value F :=
  VMap (<["index" := VInt (Z.of_nat i)]>
       (<["point_count" := VInt (PointCount obj)]>
       (<["center_x_mm" := VFloat (r3.X (Center obj))]>
       (<["center_y_mm" := VFloat (r3.Y (Center obj))]>
       (<["center_z_mm" := VFloat (r3.Z (Center obj))]> ∅))))).

Definition handleDetect : M (St F W) (gmap string (Value F)) :=
  setCurrentStatus "detecting" ;;;
  s <- get ;;
  r <- attempt (detectObjects Detection (cfg (svc s))) ;;
  match r with
  | Fails err =>
      setCurrentStatus "idle" ;;;
      raise (ErrDetectionFailed err)
  | Returns objects =>
      setLastDetection objects ;;;
      setCurrentStatus "idle" ;;;
      let objList := imap detectedToValue (default [] objects) in
      ret (<["objects" := VList objList]> (<["count" := VInt (len objects)]> ∅))
  end.

(** [result, err := s.executePick(...)], then [s.lastResult = result] and
    [return result, err]: on an error [result] is the nil map. *)
Definition recordPick (r : reply (gmap string (Value F)))
  : M (St F W) (gmap string (Value F)) :=
  setCurrentStatus "idle" ;;;
  setLastResult (match r with Returns m => Some m | Fails _ => None end) ;;;
  match r with
  | Returns m => ret m
  | Fails err => raise err
  end.

Definition handlePick (objectIndex : Z) : M (St F W) (gmap string (Value F)) :=
  setCurrentStatus "detecting" ;;;
  s <- get ;;
  r <- attempt (detectObjects Detection (cfg (svc s))) ;;
  match r with
  | Fails err =>
      setCurrentStatus "idle" ;;;
      raise (ErrDetectionFailed err)
  | Returns objects =>
      setLastDetection objects ;;;
      if (len objects <=? objectIndex)%Z
      then setCurrentStatus "idle" ;;;
           raise (ErrIndexOutOfRange objectIndex (len objects))
      else obj <- index objects objectIndex ;;
           r <- attempt (executePick obj) ;;
           recordPick r
  end.

Definition handlePickDetected (objectIndex : Z) : M (St F W) (gmap string (Value F)) :=
  s <- get ;;
  let objects := lastDetection (svc s) in
  match objects with
  | None => raise ErrNoPreviousDetection
  | Some _ =>
      if (len objects <=? objectIndex)%Z
      then raise (ErrIndexOutOfRange objectIndex (len objects))
      else obj <- index objects objectIndex ;;
           r <- attempt (executePick obj) ;;
           recordPick r
  end.

Definition handleStatus : M (St F W) (gmap string (Value F)) :=
  s <- get ;;
  let result := <["status" := VString (currentStatus (svc s))]> ∅ in
  let result :=
    match lastResult (svc s) with
    | Some m => <["last_result" := VMap m]> result
    | None => result
    end in
  let result :=
    match lastDetection (svc s) with
    | Some _ => <["detected_objects" := VInt (len (lastDetection (svc s)))]> result
    | None => result
    end in
  ret result.

(** [object_index] of a command, 0 unless it is a float64. *)
Definition objectIndexOf (cmd : gmap string (Value F)) : Z :=
  match asFloat64 (cmd !! "object_index") with
  | Some idx => toInt idx
  | None => 0%Z
  end.

Definition DoCommand (cmd : gmap string (Value F)) : M (St F W) (gmap string (Value F)) :=
  match asString (cmd !! "command") with
  | None => raise ErrMissingCommand
  | Some command =>
      match command with
      | "detect" => handleDetect
      | "pick" => handlePick (objectIndexOf cmd)
      | "pick_detected" => handlePickDetected (objectIndexOf cmd)
      | "status" => handleStatus
      | _ => raise (ErrUnknownCommand command)
      end
  end.

(** ** The move loop (move.go) *)

Definition maxSteps : Z := 200.

(** [defer]: [d] runs when [c] is left, whichever way. *)
Definition defer {S A} (d : M S unit) (c : M S A) : M S A :=
  fun s => let '(o, s') := c s in (o, snd (d s')).

(** The waypoint of one iteration. *)
Definition nextWaypoint (target currentPos : r3.Vector F) (stepSize : F) : r3.Vector F :=
  let diff := vecSub target currentPos in
  let dist := vecNorm diff in
  if (dist <=? stepSize)%f64 then target
  else
    let direction := r3.mk (r3.X diff / dist)%f64 (r3.Y diff / dist)%f64 (r3.Z diff / dist)%f64 in
    r3.mk (r3.X currentPos + r3.X direction * stepSize)%f64
          (r3.Y currentPos + r3.Y direction * stepSize)%f64
          (r3.Z currentPos + r3.Z direction * stepSize)%f64.

(** [for steps = 0; steps < maxSteps; steps++ { ... }], entered with
    [remaining = maxSteps - steps]; the value is [steps] when the loop is
    left by [break] or by its test. *)
Fixpoint moveLoop (remaining : nat) (steps : Z) (c : Config F)
  (target : r3.Vector F) (stepSize : F) : M (St F W) Z :=
  match remaining with
  | O => ret steps
  | S remaining' =>
      r <- motionGetPose MoveLoop (Gripper c) "world" ;;
      gripperPose <- try r ErrGetGripperPose ;;
      let currentPos := Point gripperPose in
      let currentOri := Orientation gripperPose in
      let dist := vecNorm (vecSub target currentPos) in
      if (dist <=? fone)%f64 then ret steps
      else
        let nextPoint := nextWaypoint target currentPos stepSize in
        let dest := NewPoseInFrame "world" (NewPose nextPoint currentOri) in
        r <- motionMove MoveLoop (Gripper c) dest ;;
        success <- try r (ErrStepMoveFailed steps) ;;
        if negb success then raise (ErrStepNoPath steps)
        else moveLoop remaining' (steps + 1)%Z c target stepSize
  end.

Definition vectorToValue (v : r3.Vector F) : Value F :=
  VMap (<["x_mm" := VFloat (r3.X v)]> (<["y_mm" := VFloat (r3.Y v)]>
       (<["z_mm" := VFloat (r3.Z v)]> ∅))).

Definition handleMoveTo (target : r3.Vector F) (stepSize : F)
  : M (St F W) (gmap string (Value F)) :=
  setCurrentStatus "moving" ;;;
  defer (setCurrentStatus "idle")
    (s <- get ;;
     let c := cfg (svc s) in
     steps <- moveLoop (Z.to_nat maxSteps) 0%Z c target stepSize ;;
     if (maxSteps <=? steps)%Z then raise (ErrDidNotReach maxSteps)
     else
       r <- motionGetPose MoveFinal (Gripper c) "world" ;;
       let finalPos :=
         match r with
         | Returns finalPose => Point finalPose
         | Fails _ => zeroVector
         end in
       ret (<["success" := VBool true]>
           (<["steps" := VInt steps]>
           (<["final_position" := vectorToValue finalPos]>
           (<["target" := vectorToValue target]> ∅))))).

End Service.

Arguments PickSt F W : clear implicits.

(** * The shape of a pick run

    What one step of the pick sequence can do, read off its code: how it
    ends, the calls it makes, and what it does to the local [result]. *)

Section Shapes.
Context {F : Type} `{Float64 F} {W : Type} (robot : Robot F W).

(** Nothing is assigned. *)
Definition unchanged : pickResult.t F -> pickResult.t F := fun r => r.

Definition Shape : Type :=
  outcome unit -> list (Site * Call F) -> (pickResult.t F -> pickResult.t F) -> Prop.

Inductive OpenShape : Shape :=
| open_ok :
    OpenShape (Ok tt) [(Step1_OpenGripper, GripperOpen (Returns tt))]
      (pickResult.addStep "open_gripper")
| open_failed e :
    OpenShape (Err (ErrOpenGripper e)) [(Step1_OpenGripper, GripperOpen (Fails e))] unchanged.

Inductive ApproachShape (c : Config F) : Shape :=
| approach_ok pre dest :
    Forall (fun ev => fst ev = Step2_ApproachPose) pre ->
    ApproachShape c (Ok tt)
      (pre ++ [(Step3_Approach, MotionMove (Gripper c) dest (Returns true))])
      (pickResult.addStep "approach")
| approach_no_path pre dest :
    Forall (fun ev => fst ev = Step2_ApproachPose) pre ->
    ApproachShape c (Err ErrApproachNoPath)
      (pre ++ [(Step3_Approach, MotionMove (Gripper c) dest (Returns false))]) unchanged
| approach_failed pre dest e :
    Forall (fun ev => fst ev = Step2_ApproachPose) pre ->
    ApproachShape c (Err (ErrApproachMove e))
      (pre ++ [(Step3_Approach, MotionMove (Gripper c) dest (Fails e))]) unchanged.

(** The assignment to [result.ApproachOffsetMm] of step 4. *)
Definition approachOffsetFrom (obj : DetectedObject F)
  (redetectedObjects : slice (DetectedObject F)) : pickResult.t F -> pickResult.t F :=
  match redetectedObjects with
  | Some (redetected :: _) =>
      pickResult.withApproachOffsetMm (vecSub (Center redetected) (Center obj))
  | _ => unchanged
  end.

Inductive ReDetectShape (c : Config F) (obj : DetectedObject F) : Shape :=
| redetect_invalid_config e :
    segmentation_CheckValid robot (segCfgOf c) = Fails e ->
    ReDetectShape c obj (Ok tt) [] (pickResult.addStep "re_detect")
| redetect_failed e :
    ReDetectShape c obj (Ok tt) [(Step4_ReDetect, RadiusClustering (Fails e))]
      (pickResult.addStep "re_detect")
| redetect_ok clouds :
    ReDetectShape c obj (Ok tt) [(Step4_ReDetect, RadiusClustering (Returns clouds))]
      (pickResult.addStep "re_detect" ∘ approachOffsetFrom obj (detectedOf c clouds)).

Inductive GraspShape : Shape :=
| grasp_no_pose e :
    GraspShape (Err (ErrArmPosition e))
      [(Step5_GraspPosition, ArmEndPosition (Fails e))] unchanged
| grasp_failed p graspPose e :
    GraspShape (Err (ErrGraspMove e))
      [(Step5_GraspPosition, ArmEndPosition (Returns p));
       (Step5_GraspPosition, ArmMoveToPosition graspPose (Fails e))] unchanged
| grasp_ok p graspPose :
    GraspShape (Ok tt)
      [(Step5_GraspPosition, ArmEndPosition (Returns p));
       (Step5_GraspPosition, ArmMoveToPosition graspPose (Returns tt))]
      (pickResult.addStep "grasp_position").

(** The guarded assignment to [result.WorldFrameOffsetMm] of step 6. *)
Definition worldFrameOffsetFrom (gripperPos : r3.Vector F) (r : pickResult.t F)
  : pickResult.t F :=
  if negb (vecIsZero (pickResult.ObjectPositionWorldFrame r))
  then pickResult.withWorldFrameOffsetMm
         (vecSub gripperPos (pickResult.ObjectPositionWorldFrame r)) r
  else r.

Inductive WorldFrameShape (c : Config F) (obj : DetectedObject F) (isWorldFrame : bool)
  : Shape :=
| world_no_gripper_pose e :
    WorldFrameShape c obj isWorldFrame (Ok tt)
      [(Step6_WorldFrame, MotionGetPose (Gripper c) "world" (Fails e))] unchanged
| world_in_world_frame gp :
    isWorldFrame = true ->
    WorldFrameShape c obj isWorldFrame (Ok tt)
      [(Step6_WorldFrame, MotionGetPose (Gripper c) "world" (Returns gp))]
      (worldFrameOffsetFrom (Point gp)
         ∘ pickResult.withObjectPositionWorldFrame (Center obj)
         ∘ pickResult.withGripperPositionWorldFrame (Point gp))
| world_no_camera_pose gp e :
    isWorldFrame = false ->
    WorldFrameShape c obj isWorldFrame (Ok tt)
      [(Step6_WorldFrame, MotionGetPose (Gripper c) "world" (Returns gp));
       (Step6_WorldFrame, MotionGetPose (Camera c) "world" (Fails e))]
      (worldFrameOffsetFrom (Point gp)
         ∘ pickResult.withGripperPositionWorldFrame (Point gp))
| world_through_camera gp cameraPose :
    isWorldFrame = false ->
    WorldFrameShape c obj isWorldFrame (Ok tt)
      [(Step6_WorldFrame, MotionGetPose (Gripper c) "world" (Returns gp));
       (Step6_WorldFrame, MotionGetPose (Camera c) "world" (Returns cameraPose))]
      (worldFrameOffsetFrom (Point gp)
         ∘ pickResult.withObjectPositionWorldFrame
             (Point (Compose robot cameraPose (NewPoseFromPoint (Center obj))))
         ∘ pickResult.withGripperPositionWorldFrame (Point gp)).

Inductive GrabShape : Shape :=
| grab_ok grabbed :
    GrabShape (Ok tt) [(Step7_Grab, GripperGrab (Returns grabbed))]
      (pickResult.addStep "grab")
| grab_failed e :
    GrabShape (Err (ErrGrab e)) [(Step7_Grab, GripperGrab (Fails e))] unchanged.

Inductive LiftShape : Shape :=
| lift_no_pose e :
    LiftShape (Ok tt) [(Step8_Lift, ArmEndPosition (Fails e))]
      (pickResult.addStep "lift")
| lift_moved p liftPose r :
    LiftShape (Ok tt)
      [(Step8_Lift, ArmEndPosition (Returns p));
       (Step8_Lift, ArmMoveToPosition liftPose r)]
      (pickResult.addStep "lift").

Inductive VerifyShape : Shape :=
| verify_unknown e :
    VerifyShape (Ok tt) [(Step9_Verify, GripperIsHoldingSomething (Fails e))]
      (pickResult.addStep "verify")
| verify_answered holding :
    VerifyShape (Ok tt) [(Step9_Verify, GripperIsHoldingSomething (Returns holding))]
      (pickResult.addStep "verify" ∘ pickResult.withIsHolding holding).

(** One step after another; an error or a panic ends the sequence. *)
Inductive seqShape (P Q : Shape) : Shape :=
| seq_ok e1 f1 o e2 f2 :
    P (Ok tt) e1 f1 -> Q o e2 f2 -> seqShape P Q o (e1 ++ e2) (f2 ∘ f1)
| seq_err e e1 f1 :
    P (Err e) e1 f1 -> seqShape P Q (Err e) e1 f1
| seq_panic p e1 f1 :
    P (Panic p) e1 f1 -> seqShape P Q (Panic p) e1 f1.

Definition PickShape (c : Config F) (obj : DetectedObject F) (isWorldFrame : bool)
  : Shape :=
  seqShape OpenShape
    (seqShape (ApproachShape c)
      (seqShape (ReDetectShape c obj)
        (seqShape GraspShape
          (seqShape (WorldFrameShape c obj isWorldFrame)
            (seqShape GrabShape
              (seqShape LiftShape VerifyShape)))))).

(** A run from [s] to [s'] that made the calls [evs] and changed the local
    result by [f]; the fields of the service are not touched. *)
Definition stepped (s s' : PickSt F W) (evs : list (Site * Call F))
  (f : pickResult.t F -> pickResult.t F) : Prop :=
  svc (base s') = svc (base s) /\
  trace (base s') = trace (base s) ++ evs /\
  result s' = f (result s).

Definition satisfies (c : M (PickSt F W) unit) (P : Shape) : Prop :=
  forall s, exists o evs f,
    fst (c s) = o /\ stepped s (snd (c s)) evs f /\ P o evs f.

End Shapes.

(** * What the statements speak of *)

#[export] Instance Site_eq_dec : EqDecision Site.
Proof. solve_decision. Defined.

Section Observations.
Context {F : Type} `{Float64 F} {W : Type}.

(** The calls made while [c] runs from [st]. *)
Definition callsDuring {A} (c : M (St F W) A) (st : St F W) : list (Site * Call F) :=
  drop (length (trace st)) (trace (snd (c st))).

(** The same for the pick sequence on its local state. *)
Definition pickCalls {A} (c : M (PickSt F W) A) (s : PickSt F W) : list (Site * Call F) :=
  drop (length (trace (base s))) (trace (base (snd (c s)))).

(** The calls of one step, in their order. *)
Definition callsAt (site : Site) (evs : list (Site * Call F)) : list (Site * Call F) :=
  filter (fun ev => fst ev = site) evs.

Definition replyFailed {A} (r : reply A) : bool :=
  match r with
  | Returns _ => false
  | Fails _ => true
  end.

(** A call that did not do what was asked: it handed back an error, or the
    planner found no path. *)
Definition callFailed (call : Call F) : bool :=
  match call with
  | GripperOpen r => replyFailed r
  | GripperGrab r => replyFailed r
  | GripperIsHoldingSomething r => replyFailed r
  | ArmEndPosition r => replyFailed r
  | ArmMoveToPosition _ r => replyFailed r
  | MotionGetPose _ _ r => replyFailed r
  | MotionMove _ _ (Returns success) => negb success
  | MotionMove _ _ (Fails _) => true
  | RadiusClustering r => replyFailed r
  end.

(** The steps on whose failure [executePick] returns an error. *)
Definition fatalSite (site : Site) : bool :=
  match site with
  | Step1_OpenGripper | Step3_Approach | Step5_GraspPosition | Step7_Grab => true
  | _ => false
  end.

Definition fatalFailure (ev : Site * Call F) : bool :=
  fatalSite (fst ev) && callFailed (snd ev).

(** The name a step appends to [StepsCompleted], for the steps that have one. *)
Definition stepName (site : Site) : option string :=
  match site with
  | Step1_OpenGripper => Some "open_gripper"
  | Step3_Approach => Some "approach"
  | Step4_ReDetect => Some "re_detect"
  | Step5_GraspPosition => Some "grasp_position"
  | Step7_Grab => Some "grab"
  | Step8_Lift => Some "lift"
  | Step9_Verify => Some "verify"
  | _ => None
  end.

(** The names [executePick] appends, in its order. *)
Definition stepNames : list string :=
  ["open_gripper"; "approach"; "re_detect"; "grasp_position"; "grab"; "lift"; "verify"].

(** [steps_completed] of a returned map. *)
Definition stepsCompletedOf (m : gmap string (Value F)) : option (list (Value F)) :=
  match m !! "steps_completed" with
  | Some (VList l) => Some l
  | _ => None
  end.

End Observations.

Section PickStatements.
Context {F : Type} `{Float64 F} {W : Type} (robot : Robot F W).

(** [result.Success = result.IsHolding], the last assignment of [executePick]. *)
Definition finish (r : pickResult.t F) : pickResult.t F :=
  pickResult.withSuccess (pickResult.IsHolding r) r.

(** A pick in which no fatal step fails and the hold check answers true
    returns a result with [success] and [is_holding] true and [n] names in
    [steps_completed]. *)
Definition pickReports (n : nat) (obj : DetectedObject F) (st : St F W) : Prop :=
  let evs := callsDuring (executePick robot obj) st in
  Forall (fun ev => fatalFailure ev = false) evs ->
  In (Step9_Verify, GripperIsHoldingSomething (Returns true)) evs ->
  exists m names,
    fst (executePick robot obj st) = Ok m /\
    m !! "success" = Some (VBool true) /\
    m !! "is_holding" = Some (VBool true) /\
    stepsCompletedOf m = Some names /\
    length names = n.

(** No step whose call failed has its name in [steps]. *)
Definition namesOnlyOnSuccess (steps : list string) (evs : list (Site * Call F)) : Prop :=
  forall site name call,
    stepName site = Some name -> In (site, call) evs -> callFailed call = true ->
    ~ In name steps.



End PickStatements.

(** * Collaborators to run the service on

    A bench on binary64: every reply is fixed in advance and the world has
    no state. *)

Definition benchPose (x y z : float) : Pose float :=
  NewPose (r3.mk x y z) (mkOVD 0%float 0%float 0%float 1%float).

Definition benchRobot (open : reply unit) (clusters : reply (list (PointCloud float)))
  (pose : reply (Pose float)) (holding : reply bool) : Robot float unit := {|
  gripper_Open := fun w => (open, w);
  gripper_Grab := fun w => (Returns true, w);
  gripper_IsHoldingSomething := fun w => (holding, w);
  arm_EndPosition := fun w => (pose, w);
  arm_MoveToPosition := fun _ w => (Returns tt, w);
  motion_GetPose := fun _ _ w => (pose, w);
  motion_Move := fun _ _ w => (Returns true, w);
  segmentation_CheckValid := fun _ => Returns tt;
  segmentation_RadiusClustering := fun _ w => (clusters, w);
  Compose := fun a b => NewPose (vecAdd (Point a) (Point b)) (Orientation a)
|}.

Definition benchSegmentation : SegmentationConfig float := {|
  MinPtsInPlane := 1500;
  MaxDistFromPlane := 5%float;
  GroundNormal := [0%float; 0%float; 1%float];
  AngleTolerance := 20%float;
  MinPtsInSegment := 100;
  ClusteringRadiusMm := 5%float;
  MeanKFiltering := 50;
  MaxDepthMm := 0%float;
  MaxPointCount := 0
|}.

Definition benchConfig (frame : string) : Config float := {|
  Arm := "arm";
  Camera := "camera";
  Gripper := "gripper";
  DetectionFrame := frame;
  ApproachOffsetMm := 100%float;
  GraspDepthOffsetMm := 0%float;
  LiftHeightMm := 50%float;
  Segmentation := benchSegmentation
|}.

(** The service as [NewHandEyeTest] leaves it. *)
Definition benchService (frame : string) : handEyeTest float := {|
  cfg := benchConfig frame;
  lastDetection := None;
  currentStatus := "idle";
  lastResult := None
|}.

Definition benchStart (frame : string) : St float unit :=
  {| svc := benchService frame; world := tt; trace := [] |}.

(** One cluster of a single point, and an object first seen elsewhere. *)
Definition benchCluster : PointCloud float := [r3.mk 121.3%float (-45.5)%float 311.2%float].

Definition benchObject : DetectedObject float :=
  {| Center := r3.mk 120.5%float (-45.2)%float 310%float; PointCount := 342 |}.


(** Everything answers. *)
Definition benchHappy : Robot float unit :=
  benchRobot (Returns tt) (Returns [benchCluster]) (Returns (benchPose 1 2 3)) (Returns true).

(** The camera is gone when the pick detects again. *)
Definition benchBlind : Robot float unit :=
  benchRobot (Returns tt) (Fails (External "camera offline"))
    (Returns (benchPose 1 2 3)) (Returns true).

(** The gripper does not open. *)
Definition benchJammed : Robot float unit :=
  benchRobot (Fails (External "gripper jammed")) (Returns [benchCluster])
    (Returns (benchPose 1 2 3)) (Returns true).

(** Segmentation finds no cluster. *)
Definition benchEmpty : Robot float unit :=
  benchRobot (Returns tt) (Returns []) (Returns (benchPose 1 2 3)) (Returns true).

(** ** The move loop *)

Section MoveStatements.
Context {F : Type} `{Float64 F} {W : Type} (robot : Robot F W).

(** The two calls of one iteration of the loop that is not the last: the
    pose query, and the move that was accepted. *)
Definition iterationCalls (c : Config F) (it : Pose F * PoseInFrame F)
  : list (Site * Call F) :=
  [(MoveLoop, MotionGetPose (Gripper c) "world" (Returns (fst it)));
   (MoveLoop, MotionMove (Gripper c) (snd it) (Returns true))].

(** A call of the loop in a run that stays away from [target]: a pose query
    answers with a pose farther than 1mm, a move is accepted. *)
Definition keepsAway (target : r3.Vector F) (ev : Site * Call F) : bool :=
  match ev with
  | (MoveLoop, MotionGetPose _ _ (Returns p)) =>
      negb (vecNorm (vecSub target (Point p)) <=? fone)%f64
  | (MoveLoop, MotionMove _ _ (Returns success)) => success
  | (MoveLoop, _) => false
  | _ => true
  end.






(** [n] is the ceiling of [x]. *)
Definition isCeilOf (n : Z) (x : F) : bool :=
  (ofZ (n - 1) <? x)%f64 && (x <=? ofZ n)%f64.


End MoveStatements.

(** A gripper that goes exactly where it is sent; the world is its pose. *)
Definition idealRobot {F : Type} `{Float64 F} : Robot F (Pose F) := {|
  gripper_Open := fun w => (Returns tt, w);
  gripper_Grab := fun w => (Returns true, w);
  gripper_IsHoldingSomething := fun w => (Returns true, w);
  arm_EndPosition := fun w => (Returns w, w);
  arm_MoveToPosition := fun p _ => (Returns tt, p);
  motion_GetPose := fun _ _ w => (Returns w, w);
  motion_Move := fun _ dest _ => (Returns true, PosePIF dest);
  segmentation_CheckValid := fun _ => Returns tt;
  segmentation_RadiusClustering := fun _ w => (Returns [], w);
  Compose := fun a b => NewPose (vecAdd (Point a) (Point b)) (Orientation a)
|}.

(** The bench service with the ideal gripper at the origin. *)
Definition idealStart : St float (Pose float) :=
  {| svc := benchService ""; world := benchPose 0 0 0; trace := [] |}.

(** A gripper that accepts every move and stays where it is. *)
Definition benchStuck : Robot float unit :=
  benchRobot (Returns tt) (Returns []) (Returns (benchPose 0 0 0)) (Returns true).

(** ** States the handlers pass through *)

Section HandlerStates.
Context {F : Type} {W : Type}.

(** [st] with the service fields [s], the world [w] and the calls [evs] added. *)
Definition after (st : St F W) (s : handEyeTest F) (w : W) (evs : list (Site * Call F))
  : St F W :=
  {| svc := s; world := w; trace := trace st ++ evs |}.

(** [handlePick] once its detection has answered with [clouds]. *)
Definition detected `{Float64 F} (st : St F W) (clouds : list (PointCloud F)) (w' : W)
  : St F W :=
  after st
    (withLastDetection (detectedOf (cfg (svc st)) clouds)
       (withStatus "detecting" (svc st)))
    w' [(Detection, RadiusClustering (Returns clouds))].

Definition idle (st : St F W) : St F W :=
  {| svc := withStatus "idle" (svc st); world := world st; trace := trace st |}.

Definition moving (st : St F W) : St F W :=
  {| svc := withStatus "moving" (svc st); world := world st; trace := trace st |}.

(** The entry [key] of what a command returned. *)
Definition returned (key : string) (o : outcome (gmap string (Value F)))
  : option (Value F) :=
  match o with
  | Ok m => m !! key
  | _ => None
  end.

(** The entry [key] of a nested map. *)
Definition entry (key : string) (v : option (Value F)) : option (Value F) :=
  match v with
  | Some (VMap m) => m !! key
  | _ => None
  end.

End HandlerStates.

(** The pick sequence on the bench, from a fresh local result. *)
Definition benchPickStart : PickSt float unit :=
  {| base := benchStart ""; result := noResult |}.

(** The object kept from [benchCluster]. *)
Definition benchRedetected : DetectedObject float :=
  {| Center := r3.mk 121.3%float (-45.5)%float 311.2%float; PointCount := 1 |}.

(** A service that has detected and picked before. *)
Definition benchRecorded : St float unit :=
  {| svc := {| cfg := benchConfig "";
               lastDetection := Some [benchRedetected];
               currentStatus := "idle";
               lastResult := Some (<["success" := VBool true]> ∅) |};
     world := tt;
     trace := [] |}.

(** Whether a run returned a value. *)
Definition isOk {A} (o : outcome A) : bool :=
  match o with
  | Ok _ => true
  | _ => false
  end.

(** * The rest of the package

    What the statements above do not touch: how a run of the move loop
    ends, the filter of [detectObjects], [Config.Validate], the constructor
    and the command line. *)

(** ** Runs of the move loop *)

Section MoveRuns.
Context {F : Type} `{Float64 F}.

(** The pose [p] is farther than 1mm from [target]: the loop goes on. *)
Definition awayFrom (target : r3.Vector F) (p : Pose F) : bool :=
  negb (vecNorm (vecSub target (Point p)) <=? fone)%f64.

(** The destination of the iteration that found the gripper at [p]. *)
Definition waypointFrom (target : r3.Vector F) (stepSize : F) (p : Pose F) : PoseInFrame F :=
  NewPoseInFrame "world" (NewPose (nextWaypoint target (Point p) stepSize) (Orientation p)).

(** A complete iteration: the gripper was away from the target, and the
    move to the waypoint computed from its pose was accepted. *)
Definition iterated (target : r3.Vector F) (stepSize : F) (it : Pose F * PoseInFrame F)
  : Prop :=
  awayFrom target (fst it) = true /\ snd it = waypointFrom target stepSize (fst it).

(** How the loop is left before its test fails, after [steps] complete
    iterations: the value of the loop and the calls of the iteration that
    was cut short. *)
Inductive LoopExit (c : Config F) (target : r3.Vector F) (stepSize : F) (steps : Z)
  : outcome Z -> list (Site * Call F) -> Prop :=
| exit_reached p :
    awayFrom target p = false ->
    LoopExit c target stepSize steps (Ok steps)
      [(MoveLoop, MotionGetPose (Gripper c) "world" (Returns p))]
| exit_no_pose e :
    LoopExit c target stepSize steps (Err (ErrGetGripperPose e))
      [(MoveLoop, MotionGetPose (Gripper c) "world" (Fails e))]
| exit_move_failed p e :
    awayFrom target p = true ->
    LoopExit c target stepSize steps (Err (ErrStepMoveFailed steps e))
      [(MoveLoop, MotionGetPose (Gripper c) "world" (Returns p));
       (MoveLoop, MotionMove (Gripper c) (waypointFrom target stepSize p) (Fails e))]
| exit_no_path p :
    awayFrom target p = true ->
    LoopExit c target stepSize steps (Err (ErrStepNoPath steps))
      [(MoveLoop, MotionGetPose (Gripper c) "world" (Returns p));
       (MoveLoop, MotionMove (Gripper c) (waypointFrom target stepSize p) (Returns false))].

End MoveRuns.

(** ** The filter of [detectObjects], said in one piece *)

Section DetectionFilter.
Context {F : Type} `{Float64 F}.

(** A cluster that passes the two limits of [detectObjects]; a limit that is
    not positive is no limit. *)
Definition withinLimits (sc : SegmentationConfig F) (cloud : PointCloud F) : bool :=
  negb ((fzero <? MaxDepthMm sc)%f64 &&
        (MaxDepthMm sc <? r3.Z (computeCenter cloud))%f64) &&
  negb ((0 <? MaxPointCount sc)%Z && (MaxPointCount sc <? Size cloud)%Z).

(** The object reported for a cluster. *)
Definition objectOf (cloud : PointCloud F) : DetectedObject F :=
  {| Center := computeCenter cloud; PointCount := Size cloud |}.

End DetectionFilter.

(** ** Validation of the configuration (config.go) *)

(** The errors of [Validate], with the path that is formatted into them. *)
Inductive configError : Type :=
| ErrArmRequired (path : string)                     (* "%s: arm is required" *)
| ErrCameraRequired (path : string)                  (* "%s: camera is required" *)
| ErrGripperRequired (path : string).                (* "%s: gripper is required" *)

(** What [Validate] returns: the required and the optional dependencies, or
    an error. *)
Inductive validation : Type :=
| Valid (required optional : slice string)
| Invalid (e : configError).

Section Validation.
Context {F : Type} `{Float64 F}.

(** Assignments to one field of the configuration. *)
Definition withApproachOffset (x : F) (c : Config F) : Config F :=
  {| Arm := Arm c; Camera := Camera c; Gripper := Gripper c;
     DetectionFrame := DetectionFrame c; ApproachOffsetMm := x;
     GraspDepthOffsetMm := GraspDepthOffsetMm c; LiftHeightMm := LiftHeightMm c;
     Segmentation := Segmentation c |}.

Definition withLiftHeight (x : F) (c : Config F) : Config F :=
  {| Arm := Arm c; Camera := Camera c; Gripper := Gripper c;
     DetectionFrame := DetectionFrame c; ApproachOffsetMm := ApproachOffsetMm c;
     GraspDepthOffsetMm := GraspDepthOffsetMm c; LiftHeightMm := x;
     Segmentation := Segmentation c |}.

Definition withSegmentation (sc : SegmentationConfig F) (c : Config F) : Config F :=
  {| Arm := Arm c; Camera := Camera c; Gripper := Gripper c;
     DetectionFrame := DetectionFrame c; ApproachOffsetMm := ApproachOffsetMm c;
     GraspDepthOffsetMm := GraspDepthOffsetMm c; LiftHeightMm := LiftHeightMm c;
     Segmentation := sc |}.

Definition withMinPtsInPlane (n : Z) (sc : SegmentationConfig F) : SegmentationConfig F :=
  {| MinPtsInPlane := n; MaxDistFromPlane := MaxDistFromPlane sc;
     GroundNormal := GroundNormal sc; AngleTolerance := AngleTolerance sc;
     MinPtsInSegment := MinPtsInSegment sc; ClusteringRadiusMm := ClusteringRadiusMm sc;
     MeanKFiltering := MeanKFiltering sc; MaxDepthMm := MaxDepthMm sc;
     MaxPointCount := MaxPointCount sc |}.

Definition withMaxDistFromPlane (x : F) (sc : SegmentationConfig F) : SegmentationConfig F :=
  {| MinPtsInPlane := MinPtsInPlane sc; MaxDistFromPlane := x;
     GroundNormal := GroundNormal sc; AngleTolerance := AngleTolerance sc;
     MinPtsInSegment := MinPtsInSegment sc; ClusteringRadiusMm := ClusteringRadiusMm sc;
     MeanKFiltering := MeanKFiltering sc; MaxDepthMm := MaxDepthMm sc;
     MaxPointCount := MaxPointCount sc |}.

Definition withAngleTolerance (x : F) (sc : SegmentationConfig F) : SegmentationConfig F :=
  {| MinPtsInPlane := MinPtsInPlane sc; MaxDistFromPlane := MaxDistFromPlane sc;
     GroundNormal := GroundNormal sc; AngleTolerance := x;
     MinPtsInSegment := MinPtsInSegment sc; ClusteringRadiusMm := ClusteringRadiusMm sc;
     MeanKFiltering := MeanKFiltering sc; MaxDepthMm := MaxDepthMm sc;
     MaxPointCount := MaxPointCount sc |}.

Definition withMinPtsInSegment (n : Z) (sc : SegmentationConfig F) : SegmentationConfig F :=
  {| MinPtsInPlane := MinPtsInPlane sc; MaxDistFromPlane := MaxDistFromPlane sc;
     GroundNormal := GroundNormal sc; AngleTolerance := AngleTolerance sc;
     MinPtsInSegment := n; ClusteringRadiusMm := ClusteringRadiusMm sc;
     MeanKFiltering := MeanKFiltering sc; MaxDepthMm := MaxDepthMm sc;
     MaxPointCount := MaxPointCount sc |}.

Definition withClusteringRadius (x : F) (sc : SegmentationConfig F) : SegmentationConfig F :=
  {| MinPtsInPlane := MinPtsInPlane sc; MaxDistFromPlane := MaxDistFromPlane sc;
     GroundNormal := GroundNormal sc; AngleTolerance := AngleTolerance sc;
     MinPtsInSegment := MinPtsInSegment sc; ClusteringRadiusMm := x;
     MeanKFiltering := MeanKFiltering sc; MaxDepthMm := MaxDepthMm sc;
     MaxPointCount := MaxPointCount sc |}.

Definition withMeanKFiltering (n : Z) (sc : SegmentationConfig F) : SegmentationConfig F :=
  {| MinPtsInPlane := MinPtsInPlane sc; MaxDistFromPlane := MaxDistFromPlane sc;
     GroundNormal := GroundNormal sc; AngleTolerance := AngleTolerance sc;
     MinPtsInSegment := MinPtsInSegment sc; ClusteringRadiusMm := ClusteringRadiusMm sc;
     MeanKFiltering := n; MaxDepthMm := MaxDepthMm sc;
     MaxPointCount := MaxPointCount sc |}.

(** [if cond { cfg.field = value }] *)
Definition when (cond : bool) (assign : Config F -> Config F) (c : Config F) : Config F :=
  if cond then assign c else c.

(** The defaults of [Validate], one [if] after the other; 5.0 is [ofZ 5]. *)
Definition applyDefaults (c : Config F) : Config F :=
  let c := when (ApproachOffsetMm c =? fzero)%f64 (withApproachOffset (ofZ 100)) c in
  let c := when (LiftHeightMm c =? fzero)%f64 (withLiftHeight (ofZ 50)) c in
  let c := when (MinPtsInPlane (Segmentation c) =? 0)%Z
             (fun c => withSegmentation (withMinPtsInPlane 1500 (Segmentation c)) c) c in
  let c := when (MaxDistFromPlane (Segmentation c) =? fzero)%f64
             (fun c => withSegmentation (withMaxDistFromPlane (ofZ 5) (Segmentation c)) c) c in
  let c := when (AngleTolerance (Segmentation c) =? fzero)%f64
             (fun c => withSegmentation (withAngleTolerance (ofZ 20) (Segmentation c)) c) c in
  let c := when (MinPtsInSegment (Segmentation c) =? 0)%Z
             (fun c => withSegmentation (withMinPtsInSegment 100 (Segmentation c)) c) c in
  let c := when (ClusteringRadiusMm (Segmentation c) =? fzero)%f64
             (fun c => withSegmentation (withClusteringRadius (ofZ 5) (Segmentation c)) c) c in
  let c := when (MeanKFiltering (Segmentation c) =? 0)%Z
             (fun c => withSegmentation (withMeanKFiltering 50 (Segmentation c)) c) c in
  c.

(** [func (cfg *Config) Validate(path string)]: what it returns, and the
    configuration it leaves behind the pointer. *)
Definition Validate (path : string) (c : Config F) : validation * Config F :=
  if String.eqb (Arm c) "" then (Invalid (ErrArmRequired path), c)
  else if String.eqb (Camera c) "" then (Invalid (ErrCameraRequired path), c)
  else if String.eqb (Gripper c) "" then (Invalid (ErrGripperRequired path), c)
  else
    let c := applyDefaults c in
    let deps := Some [Arm c; Camera c; Gripper c] in
    (Valid deps None, c).

(** A field after its [if]: the default when it was zero. *)
Definition orDefault (x d : F) : F := if (x =? fzero)%f64 then d else x.

End Validation.

Definition orDefaultZ (n d : Z) : Z := if (n =? 0)%Z then d else n.

(** ** The constructor and the command line *)

(** The errors of [NewHandEyeTest], with the name that is formatted into
    them. *)
Inductive setupError : Type :=
| ErrGettingArm (name : string) (cause : error)      (* "getting arm %q: %w" *)
| ErrGettingCamera (name : string) (cause : error)   (* "getting camera %q: %w" *)
| ErrGettingGripper (name : string) (cause : error)  (* "getting gripper %q: %w" *)
| ErrGettingMotion (cause : error).                  (* "getting motion service: %w" *)

(** [resource.Dependencies], through the four lookups made on it. *)
Record Dependencies : Type := {
  arm_FromDependencies : string -> reply unit;
  camera_FromDependencies : string -> reply unit;
  gripper_FromDependencies : string -> reply unit;
  motion_FromDependencies : string -> reply unit
}.

(** The errors of [runCLI]. *)
Inductive cliError : Type :=
| ErrUnknownSubcommand (subcommand : string)         (* "unknown subcommand: %s" *)
| ErrHostRequired                                    (* "--host is required" *)
| ErrConnect (cause : error)                         (* "failed to connect: %w" *)
| ErrGetDependencies (cause : error)                 (* "failed to get dependencies: %w" *)
| ErrCreateService (cause : setupError)              (* "failed to create service: %w" *)
| ErrCommand (e : error)                             (* [return err] after [DoCommand] *)
| ErrMarshal (cause : error).                        (* "failed to marshal result: %w" *)

(** How [runCLI] ends: the text it printed, the error it returned, or the
    panic that unwound it. *)
Inductive cliExit : Type :=
| Printed (output : string)
| Failed (e : cliError)
| Panicked (p : panic).

(** What [main] does with the arguments of the process. *)
Inductive Mode : Type :=
| CLIMode (subcommand : string) (args : list string)  (* [RunCLI(os.Args[1], os.Args[2:])] *)
| UsageMode                                           (* [printUsage()] *)
| ModuleMode.                                         (* [module.ModularMain(...)] *)

(** [main], on [os.Args]. *)
Definition main (osArgs : list string) : Mode :=
  match osArgs with
  | _ :: subcommand :: args =>
      match subcommand with
      | "detect" | "pick" | "move-to" | "status" => CLIMode subcommand args
      | "--help" | "-help" | "-h" | "help" => UsageMode
      | _ => ModuleMode
      end
  | _ => ModuleMode
  end.

Section CommandLine.
Context {F : Type} `{Float64 F}.

(** The values of the flags once [fs.Parse] has read the arguments, each
    under the name of its flag: a flag that was not given has its default,
    a flag the subcommand does not define is not read. *)
Record Flags : Type := {
  flag_host : string;
  flag_debug : bool;
  flag_arm : string;
  flag_camera : string;
  flag_gripper : string;
  flag_detection_frame : string;
  flag_min_plane_pts : Z;
  flag_max_dist_from_plane : F;
  flag_angle_tolerance : F;
  flag_min_pts : Z;
  flag_clustering_radius : F;
  flag_mean_k : Z;
  flag_max_depth : F;
  flag_max_pts : Z;
  flag_object : Z;
  flag_approach_offset : F;
  flag_grasp_offset : F;
  flag_lift_height : F;
  flag_x : F;
  flag_y : F;
  flag_z : F;
  flag_step_size : F
}.

(** [segmentationFlags.toConfig] *)
Definition toConfig (fl : Flags) : SegmentationConfig F := {|
  MinPtsInPlane := flag_min_plane_pts fl;
  MaxDistFromPlane := flag_max_dist_from_plane fl;
  GroundNormal := [fzero; fzero; fone];
  AngleTolerance := flag_angle_tolerance fl;
  MinPtsInSegment := flag_min_pts fl;
  ClusteringRadiusMm := flag_clustering_radius fl;
  MeanKFiltering := flag_mean_k fl;
  MaxDepthMm := flag_max_depth fl;
  MaxPointCount := flag_max_pts fl
|}.

(** [SegmentationConfig{}] *)
Definition noSegmentation : SegmentationConfig F := {|
  MinPtsInPlane := 0;
  MaxDistFromPlane := fzero;
  GroundNormal := [];
  AngleTolerance := fzero;
  MinPtsInSegment := 0;
  ClusteringRadiusMm := fzero;
  MeanKFiltering := 0;
  MaxDepthMm := fzero;
  MaxPointCount := 0
|}.

(** [Config{Arm: *armName, Camera: *cameraName, Gripper: *gripperName}] *)
Definition componentsOnly (fl : Flags) : Config F := {|
  Arm := flag_arm fl;
  Camera := flag_camera fl;
  Gripper := flag_gripper fl;
  DetectionFrame := "";
  ApproachOffsetMm := fzero;
  GraspDepthOffsetMm := fzero;
  LiftHeightMm := fzero;
  Segmentation := noSegmentation
|}.

(** The [cfg] and the [cmdMap] the switch of [runCLI] builds. *)
Definition commandOf (subcommand : string) (fl : Flags)
  : option (Config F * gmap string (Value F)) :=
  match subcommand with
  | "detect" =>
      Some ({| Arm := flag_arm fl; Camera := flag_camera fl; Gripper := flag_gripper fl;
               DetectionFrame := flag_detection_frame fl;
               ApproachOffsetMm := fzero; GraspDepthOffsetMm := fzero;
               LiftHeightMm := fzero;
               Segmentation := toConfig fl |},
            <["command" := VString "detect"]> ∅)
  | "pick" =>
      Some ({| Arm := flag_arm fl; Camera := flag_camera fl; Gripper := flag_gripper fl;
               DetectionFrame := flag_detection_frame fl;
               ApproachOffsetMm := flag_approach_offset fl;
               GraspDepthOffsetMm := flag_grasp_offset fl;
               LiftHeightMm := flag_lift_height fl;
               Segmentation := toConfig fl |},
            <["command" := VString "pick"]>
            (<["object_index" := VFloat (ofZ (flag_object fl))]> ∅))
  | "move-to" =>
      Some (componentsOnly fl,
            <["command" := VString "move_to"]>
            (<["x" := VFloat (flag_x fl)]>
            (<["y" := VFloat (flag_y fl)]>
            (<["z" := VFloat (flag_z fl)]>
            (<["step_size" := VFloat (flag_step_size fl)]> ∅)))))
  | "status" =>
      Some (componentsOnly fl, <["command" := VString "status"]> ∅)
  | _ => None
  end.

(** The service [NewHandEyeTest] builds. *)
Definition newService (c : Config F) : handEyeTest F :=
  {| cfg := c; lastDetection := None; currentStatus := "idle"; lastResult := None |}.

(** [NewHandEyeTest]: the four lookups in their order, then the service. *)
Definition NewHandEyeTest (deps : Dependencies) (c : Config F)
  : setupError + handEyeTest F :=
  match arm_FromDependencies deps (Arm c) with
  | Fails err => inl (ErrGettingArm (Arm c) err)
  | Returns _ =>
  match camera_FromDependencies deps (Camera c) with
  | Fails err => inl (ErrGettingCamera (Camera c) err)
  | Returns _ =>
  match gripper_FromDependencies deps (Gripper c) with
  | Fails err => inl (ErrGettingGripper (Gripper c) err)
  | Returns _ =>
  match motion_FromDependencies deps "builtin" with
  | Fails err => inl (ErrGettingMotion err)
  | Returns _ => inr (newService c)
  end end end end.

Context {W : Type} (robot : Robot F W).

(** What the command line relies on besides the service: the connection to
    the machine at a host (the world its components act on), the
    dependencies read off the machine, and the JSON encoder. *)
Record Platform : Type := {
  ConnectToHostFromCLIToken : string -> reply W;
  MachineToDependencies : W -> reply Dependencies;
  MarshalIndent : gmap string (Value F) -> reply string
}.

Context (platform : Platform).

(** [runCLI], from the parsed flags on: how it ends, and the calls the
    service made on the machine. The deferred [Close] calls and the logger
    are left out. *)
Definition runCLI (subcommand : string) (fl : Flags) : cliExit * list (Site * Call F) :=
  match commandOf subcommand fl with
  | None => (Failed (ErrUnknownSubcommand subcommand), [])
  | Some (c, cmdMap) =>
      if String.eqb (flag_host fl) "" then (Failed ErrHostRequired, [])
      else
        match ConnectToHostFromCLIToken platform (flag_host fl) with
        | Fails err => (Failed (ErrConnect err), [])
        | Returns machine =>
        match MachineToDependencies platform machine with
        | Fails err => (Failed (ErrGetDependencies err), [])
        | Returns deps =>
        match NewHandEyeTest deps c with
        | inl err => (Failed (ErrCreateService err), [])
        | inr s =>
            let '(o, st) :=
              DoCommand robot cmdMap {| svc := s; world := machine; trace := [] |} in
            match o with
            | Err err => (Failed (ErrCommand err), trace st)
            | Panic p => (Panicked p, trace st)
            | Ok result =>
                match MarshalIndent platform result with
                | Fails err => (Failed (ErrMarshal err), trace st)
                | Returns output => (Printed output, trace st)
                end
            end
        end end end
  end.

(** The setup of [runCLI] went through: a host was given, the machine
    answered, and the constructor found its four dependencies. *)
Definition connected (fl : Flags) (c : Config F) (machine : W) : Prop :=
  flag_host fl <> "" /\
  ConnectToHostFromCLIToken platform (flag_host fl) = Returns machine /\
  exists deps,
    MachineToDependencies platform machine = Returns deps /\
    NewHandEyeTest deps c = inr (newService c).

End CommandLine.

Arguments Flags F : clear implicits.
Arguments Platform F W : clear implicits.

(** ** More collaborators for the bench *)

(** The gripper closes on nothing. *)
Definition benchSlippery : Robot float unit :=
  benchRobot (Returns tt) (Returns [benchCluster]) (Returns (benchPose 1 2 3)) (Returns false).

(** The motion service answers a pose query for [known] only, and finds a
    path when [path] says so; the arm and the gripper do as asked. *)
Definition benchMotion (known : string -> bool) (path : bool) : Robot float unit := {|
  gripper_Open := fun w => (Returns tt, w);
  gripper_Grab := fun w => (Returns true, w);
  gripper_IsHoldingSomething := fun w => (Returns true, w);
  arm_EndPosition := fun w => (Returns (benchPose 1 2 3), w);
  arm_MoveToPosition := fun _ w => (Returns tt, w);
  motion_GetPose := fun component _ w =>
    (if known component then Returns (benchPose 1 2 3)
     else Fails (External "no such frame"), w);
  motion_Move := fun _ _ w => (Returns path, w);
  segmentation_CheckValid := fun _ => Returns tt;
  segmentation_RadiusClustering := fun _ w => (Returns [benchCluster], w);
  Compose := fun a b => NewPose (vecAdd (Point a) (Point b)) (Orientation a)
|}.

(** The frame system knows no component. *)
Definition benchNoFrames : Robot float unit := benchMotion (fun _ => false) true.

(** The frame system knows the gripper, not the camera. *)
Definition benchNoCamera : Robot float unit :=
  benchMotion (fun component => String.eqb component "gripper") true.

(** The planner finds no path. *)
Definition benchBlocked : Robot float unit := benchMotion (fun _ => true) false.

(** A machine that answers at every host and has every dependency; the
    encoder prints the keys of the map. *)
Definition benchDependencies : Dependencies := {|
  arm_FromDependencies := fun _ => Returns tt;
  camera_FromDependencies := fun _ => Returns tt;
  gripper_FromDependencies := fun _ => Returns tt;
  motion_FromDependencies := fun _ => Returns tt
|}.

Definition benchPlatform : Platform float unit := {|
  ConnectToHostFromCLIToken := fun _ => Returns tt;
  MachineToDependencies := fun _ => Returns benchDependencies;
  MarshalIndent := fun m => Returns (String.concat "," (fst <$> map_to_list m))
|}.

(** The flags of a run with [--host] alone: every other flag at its default. *)
Definition benchFlags : Flags float := {|
  flag_host := "my-robot.viam.cloud";
  flag_debug := false;
  flag_arm := "arm";
  flag_camera := "camera";
  flag_gripper := "gripper";
  flag_detection_frame := "";
  flag_min_plane_pts := 1500;
  flag_max_dist_from_plane := 5%float;
  flag_angle_tolerance := 20%float;
  flag_min_pts := 100;
  flag_clustering_radius := 5%float;
  flag_mean_k := 50;
  flag_max_depth := 0%float;
  flag_max_pts := 0;
  flag_object := 0;
  flag_approach_offset := 100%float;
  flag_grasp_offset := 0%float;
  flag_lift_height := 50%float;
  flag_x := 0%float;
  flag_y := 0%float;
  flag_z := 0%float;
  flag_step_size := 20%float
|}.

(** The entry [handleDetect] lists for the one object of the bench. *)
Definition benchReported : gmap string (Value float) :=
  <["index" := VInt 0]>
  (<["point_count" := VInt 1]>
  (<["center_x_mm" := VFloat 121.3%float]>
  (<["center_y_mm" := VFloat (-45.5)%float]>
  (<["center_z_mm" := VFloat 311.2%float]> ∅)))).

(** * Reasoning about runs *)

(** ** The monad *)

Section MonadFacts.
Context {S A B : Type}.

Lemma bind_Ok (c : M S A) (k : A -> M S B) s a s1 :
  c s = (Ok a, s1) -> bind c k s = k a s1.
Proof. intros Hc. unfold bind. now rewrite Hc. Qed.

Lemma bind_Err (c : M S A) (k : A -> M S B) s e s1 :
  c s = (Err e, s1) -> bind c k s = (Err e, s1).
Proof. intros Hc. unfold bind. now rewrite Hc. Qed.

Lemma bind_Panic (c : M S A) (k : A -> M S B) s p s1 :
  c s = (Panic p, s1) -> bind c k s = (Panic p, s1).
Proof. intros Hc. unfold bind. now rewrite Hc. Qed.

End MonadFacts.

(** ** Matches on string literals *)

(* A match on string literals is taken apart down to its branches. *)
Ltac case_literal :=
  repeat match goal with
  | |- context [match ?x with EmptyString => _ | String _ _ => _ end] =>
      is_var x; destruct x
  | |- context [match ?x with Ascii.Ascii _ _ _ _ _ _ _ _ => _ end] =>
      is_var x; destruct x
  | |- context [if ?x then _ else _] => is_var x; destruct x
  end.

(** The switch of [DoCommand], one comparison after the other. *)
Lemma dispatch {A} (command : string) (a b c d : A) (e : string -> A) :
  match command with
  | "detect" => a
  | "pick" => b
  | "pick_detected" => c
  | "status" => d
  | _ => e command
  end =
  if String.eqb command "detect" then a
  else if String.eqb command "pick" then b
  else if String.eqb command "pick_detected" then c
  else if String.eqb command "status" then d
  else e command.
Proof. case_literal; reflexivity. Qed.

(** The subcommands [main] hands to [RunCLI], taken from [os.Args]. *)
Lemma main_subcommand (osArgs : list string) (subcommand : string) (args : list string) :
  main osArgs = CLIMode subcommand args ->
  In subcommand ["detect"; "pick"; "move-to"; "status"] /\
  exists program, osArgs = program :: subcommand :: args.
Proof.
  destruct osArgs as [|program [|sub rest]]; try discriminate.
  unfold main. revert subcommand.
  case_literal; intros subcommand Hmode; try discriminate Hmode;
    injection Hmode as <- <-; (split; [simpl; tauto|now exists program]).
Qed.

(** ** Slices *)

Lemma len_nonneg {A} (s : slice A) : (0 <= len s)%Z.
Proof. unfold len. lia. Qed.

Lemma len_append {A} (s : slice A) (x : A) : len (append s x) = (len s + 1)%Z.
Proof. unfold len, append. simpl. rewrite length_app. simpl. lia. Qed.

(** Inside its bounds an index expression is the element. *)
Lemma index_in_range {S A} (s : slice A) (i : Z) (x : A) (st : S) :
  (0 <= i)%Z -> default [] s !! Z.to_nat i = Some x ->
  index s i st = (Ok x, st).
Proof.
  intros Hi Hx. unfold index.
  destruct (Z.ltb_spec i 0) as [Hneg|_]; [lia|].
  now rewrite Hx.
Qed.

(** Below zero it panics, whatever the slice. *)
Lemma index_negative {S A} (s : slice A) (i : Z) (st : S) :
  (i < 0)%Z -> index s i st = (Panic (IndexOutOfRange i (len s)), st).
Proof.
  intros Hi. unfold index.
  destruct (Z.ltb_spec i 0) as [_|Hpos]; [reflexivity|lia].
Qed.

(** At or beyond the length it panics. *)
Lemma index_beyond {S A} (s : slice A) (i : Z) (st : S) :
  (len s <= i)%Z -> index s i st = (Panic (IndexOutOfRange i (len s)), st).
Proof.
  intros Hi. unfold index.
  destruct (Z.ltb_spec i 0) as [_|Hpos]; [reflexivity|].
  assert (Hnone : default [] s !! Z.to_nat i = None).
  { apply lookup_ge_None. unfold len in Hi. lia. }
  now rewrite Hnone.
Qed.

(** ** Detection returns nil or a non-empty slice *)

Section DetectionFacts.
Context {F : Type} `{Float64 F}.

Lemma keepDetected_nonempty (sc : SegmentationConfig F) (objects : list (PointCloud F))
  (x : DetectedObject F) (xs : list (DetectedObject F)) :
  exists y ys, keepDetected sc objects (Some (x :: xs)) = Some (y :: ys).
Proof.
  revert x xs. induction objects as [|obj rest IH]; intros x xs; simpl.
  - eauto.
  - destruct (_ && _); [apply IH|].
    destruct (_ && _); [apply IH|].
    unfold append. simpl. apply IH.
Qed.

Lemma keepDetected_nil_or_nonempty (sc : SegmentationConfig F)
  (objects : list (PointCloud F)) :
  keepDetected sc objects None = None \/
  exists y ys, keepDetected sc objects None = Some (y :: ys).
Proof.
  induction objects as [|obj rest IH]; simpl.
  - now left.
  - destruct (_ && _); [exact IH|].
    destruct (_ && _); [exact IH|].
    right. unfold append. simpl. apply keepDetected_nonempty.
Qed.

Lemma detectedOf_nil_or_nonempty (c : Config F) (objects : list (PointCloud F)) :
  detectedOf c objects = None \/ exists y ys, detectedOf c objects = Some (y :: ys).
Proof.
  unfold detectedOf. destruct (_ =? _)%Z; [now left|].
  apply keepDetected_nil_or_nonempty.
Qed.

Lemma detectedOf_len_zero (c : Config F) (objects : list (PointCloud F)) :
  len (detectedOf c objects) = 0%Z -> detectedOf c objects = None.
Proof.
  destruct (detectedOf_nil_or_nonempty c objects) as [Hnil|(y & ys & Hsome)];
    [trivial|].
  rewrite Hsome. unfold len. simpl. lia.
Qed.

(** The loop of [detectObjects] keeps the clusters within the limits, in
    their order, after what it had. *)
Lemma keepDetected_filter (sc : SegmentationConfig F) (objects : list (PointCloud F))
  (detected : slice (DetectedObject F)) :
  keepDetected sc objects detected =
  match List.filter (withinLimits sc) objects with
  | [] => detected
  | kept => Some (default [] detected ++ (objectOf <$> kept))
  end.
Proof.
  revert detected. induction objects as [|obj rest IH]; intros detected; [reflexivity|].
  cbn [keepDetected List.filter]. unfold withinLimits at 1.
  destruct (_ && _)%bool; [apply IH|].
  destruct (_ && _)%bool; [apply IH|].
  cbn [negb andb]. rewrite IH. unfold append. cbn [default].
  destruct (List.filter (withinLimits sc) rest) as [|obj' kept].
  - reflexivity.
  - unfold Datatypes.id. rewrite <- app_assoc. reflexivity.
Qed.

(** X16. What [detectObjects] reports for the clusters the segmentation
    found is exactly the clusters within the depth and point-count limits,
    in the order the segmentation gave them, each with the mean of its
    points as centre and its size as point count; the result is the nil
    slice exactly when no cluster is within the limits. *)
Theorem detectedOf_filter (c : Config F) (clouds : list (PointCloud F)) :
  let kept := List.filter (withinLimits (Segmentation c)) clouds in
  default [] (detectedOf c clouds) = objectOf <$> kept /\
  (detectedOf c clouds = None <-> kept = []).
Proof.
  intros kept. subst kept. unfold detectedOf.
  destruct clouds as [|cloud clouds]; [now split|].
  change (Z.of_nat (length (cloud :: clouds)) =? 0)%Z with false.
  cbv iota. rewrite keepDetected_filter.
  destruct (List.filter _ _) as [|obj kept]; [now split|].
  split; [reflexivity|]. split; discriminate.
Qed.

(** X17. A limit that is not positive is no limit: when [MaxDepthMm] is not
    above zero and [MaxPointCount] is at most zero, every cluster of a
    non-empty segmentation result is reported, in its order. *)
Theorem detectedOf_without_limits (c : Config F) (clouds : list (PointCloud F)) :
  (fzero <? MaxDepthMm (Segmentation c))%f64 = false ->
  (MaxPointCount (Segmentation c) <= 0)%Z ->
  clouds <> [] ->
  detectedOf c clouds = Some (objectOf <$> clouds).
Proof.
  intros Hdepth Hcount Hclouds.
  assert (Hall : List.filter (withinLimits (Segmentation c)) clouds = clouds).
  { clear Hclouds. induction clouds as [|cloud clouds IH]; [reflexivity|].
    cbn [List.filter]. unfold withinLimits at 1. rewrite Hdepth.
    destruct (Z.ltb_spec 0 (MaxPointCount (Segmentation c))) as [Hpos|_]; [lia|].
    cbn [andb negb]. now rewrite IH. }
  unfold detectedOf.
  destruct clouds as [|cloud clouds]; [contradiction|].
  change (Z.of_nat (length (cloud :: clouds)) =? 0)%Z with false.
  cbv iota. rewrite keepDetected_filter, Hall. reflexivity.
Qed.

End DetectionFacts.

(** ** Validation *)

Section ValidationFacts.
Context {F : Type} `{Float64 F}.

Ltac reduce_defaults :=
  cbn [when withApproachOffset withLiftHeight withSegmentation withMinPtsInPlane
       withMaxDistFromPlane withAngleTolerance withMinPtsInSegment withClusteringRadius
       withMeanKFiltering Arm Camera Gripper DetectionFrame ApproachOffsetMm
       GraspDepthOffsetMm LiftHeightMm Segmentation MinPtsInPlane MaxDistFromPlane
       GroundNormal AngleTolerance MinPtsInSegment ClusteringRadiusMm MeanKFiltering
       MaxDepthMm MaxPointCount].

Ltac next_default :=
  reduce_defaults;
  match goal with
  | |- context [when (?x =? ?y)%f64] => is_var x; destruct (x =? y)%f64
  | |- context [when (?x =? ?y)%Z] => is_var x; destruct (x =? y)%Z
  end.

(** The defaults touch one field each, and read no other. *)
Lemma applyDefaults_fields (c : Config F) :
  applyDefaults c =
  {| Arm := Arm c; Camera := Camera c; Gripper := Gripper c;
     DetectionFrame := DetectionFrame c;
     ApproachOffsetMm := orDefault (ApproachOffsetMm c) (ofZ 100);
     GraspDepthOffsetMm := GraspDepthOffsetMm c;
     LiftHeightMm := orDefault (LiftHeightMm c) (ofZ 50);
     Segmentation :=
       {| MinPtsInPlane := orDefaultZ (MinPtsInPlane (Segmentation c)) 1500;
          MaxDistFromPlane := orDefault (MaxDistFromPlane (Segmentation c)) (ofZ 5);
          GroundNormal := GroundNormal (Segmentation c);
          AngleTolerance := orDefault (AngleTolerance (Segmentation c)) (ofZ 20);
          MinPtsInSegment := orDefaultZ (MinPtsInSegment (Segmentation c)) 100;
          ClusteringRadiusMm := orDefault (ClusteringRadiusMm (Segmentation c)) (ofZ 5);
          MeanKFiltering := orDefaultZ (MeanKFiltering (Segmentation c)) 50;
          MaxDepthMm := MaxDepthMm (Segmentation c);
          MaxPointCount := MaxPointCount (Segmentation c) |} |}.
Proof.
  destruct c as [arm camera gripper frame approach grasp lift
                 [minPlane maxDist normal tolerance minSegment radius meanK depth points]].
  unfold applyDefaults, orDefault, orDefaultZ.
  repeat next_default; reduce_defaults; reflexivity.
Qed.

(** X19. [Validate] fails exactly when the arm, camera or gripper name is
    empty, with the error of the first one missing in that order, and then
    it has changed nothing. Otherwise the required dependencies are the
    three names, in the order arm, camera, gripper, there are no optional
    ones, and the names, the detection frame, the grasp depth offset and
    the ground normal are what they were. *)
Theorem Validate_outcome (path : string) (c : Config F) :
  let c' := snd (Validate path c) in
  match fst (Validate path c) with
  | Invalid e =>
      c' = c /\
      ((Arm c = "" /\ e = ErrArmRequired path) \/
       (Arm c <> "" /\ Camera c = "" /\ e = ErrCameraRequired path) \/
       (Arm c <> "" /\ Camera c <> "" /\ Gripper c = "" /\
        e = ErrGripperRequired path))
  | Valid required optional =>
      Arm c <> "" /\ Camera c <> "" /\ Gripper c <> "" /\
      required = Some [Arm c; Camera c; Gripper c] /\
      optional = None /\
      Arm c' = Arm c /\ Camera c' = Camera c /\ Gripper c' = Gripper c /\
      DetectionFrame c' = DetectionFrame c /\
      GraspDepthOffsetMm c' = GraspDepthOffsetMm c /\
      GroundNormal (Segmentation c') = GroundNormal (Segmentation c)
  end.
Proof.
  intros c'. subst c'. unfold Validate.
  destruct (String.eqb_spec (Arm c) "") as [Harm|Harm].
  { split; [reflexivity|]. left. now split. }
  destruct (String.eqb_spec (Camera c) "") as [Hcamera|Hcamera].
  { split; [reflexivity|]. right. left. now split. }
  destruct (String.eqb_spec (Gripper c) "") as [Hgripper|Hgripper].
  { split; [reflexivity|]. right. right. now repeat split. }
  cbv zeta. cbn [fst snd].
  rewrite applyDefaults_fields. now repeat split.
Qed.

Lemma orDefault_idempotent (x d : F) :
  (d =? fzero)%f64 = false -> orDefault (orDefault x d) d = orDefault x d.
Proof.
  intros Hd. unfold orDefault.
  destruct (x =? fzero)%f64 eqn:Hx; [now rewrite Hd|now rewrite Hx].
Qed.

Lemma orDefault_nonzero (x d : F) :
  (d =? fzero)%f64 = false -> (orDefault x d =? fzero)%f64 = false.
Proof.
  intros Hd. unfold orDefault. now destruct (x =? fzero)%f64 eqn:Hx.
Qed.

Lemma orDefaultZ_idempotent (n d : Z) :
  d <> 0%Z -> orDefaultZ (orDefaultZ n d) d = orDefaultZ n d.
Proof.
  intros Hd. unfold orDefaultZ.
  destruct (Z.eqb_spec n 0) as [Hn|Hn].
  - now destruct (Z.eqb_spec d 0).
  - now destruct (Z.eqb_spec n 0).
Qed.

Lemma orDefaultZ_nonzero (n d : Z) : d <> 0%Z -> (orDefaultZ n d =? 0)%Z = false.
Proof.
  intros Hd. unfold orDefaultZ. apply Z.eqb_neq. now destruct (Z.eqb_spec n 0).
Qed.

End ValidationFacts.

(** The defaults of [Validate] on binary64: none is zero. *)
Lemma defaults_nonzero :
  ((ofZ 100 : float) =? fzero)%f64 = false /\ ((ofZ 50 : float) =? fzero)%f64 = false /\
  ((ofZ 5 : float) =? fzero)%f64 = false /\ ((ofZ 20 : float) =? fzero)%f64 = false.
Proof. vm_compute. now repeat split. Qed.

(** X20. On binary64, validating a configuration that [Validate] has left
    gives the same answer and changes nothing more; and in a configuration
    it accepted none of the eight fields that have a default is zero. *)
Theorem Validate_settles (path : string) (c : Config float) :
  let c' := snd (Validate path c) in
  Validate path c' = (fst (Validate path c), c') /\
  match fst (Validate path c) with
  | Invalid _ => True
  | Valid _ _ =>
      (ApproachOffsetMm c' =? fzero)%f64 = false /\
      (LiftHeightMm c' =? fzero)%f64 = false /\
      (MinPtsInPlane (Segmentation c') =? 0)%Z = false /\
      (MaxDistFromPlane (Segmentation c') =? fzero)%f64 = false /\
      (AngleTolerance (Segmentation c') =? fzero)%f64 = false /\
      (MinPtsInSegment (Segmentation c') =? 0)%Z = false /\
      (ClusteringRadiusMm (Segmentation c') =? fzero)%f64 = false /\
      (MeanKFiltering (Segmentation c') =? 0)%Z = false
  end.
Proof.
  destruct defaults_nonzero as (H100 & H50 & H5 & H20).
  intros c'. subst c'. unfold Validate.
  destruct (String.eqb (Arm c) "") eqn:Harm.
  { cbn [fst snd]. now rewrite Harm. }
  destruct (String.eqb (Camera c) "") eqn:Hcamera.
  { cbn [fst snd]. now rewrite Harm, Hcamera. }
  destruct (String.eqb (Gripper c) "") eqn:Hgripper.
  { cbn [fst snd]. now rewrite Harm, Hcamera, Hgripper. }
  cbv zeta. cbn [fst snd].
  rewrite (applyDefaults_fields (applyDefaults c)).
  rewrite (applyDefaults_fields c).
  cbn [Arm Camera Gripper DetectionFrame ApproachOffsetMm
       GraspDepthOffsetMm LiftHeightMm Segmentation MinPtsInPlane MaxDistFromPlane
       GroundNormal AngleTolerance MinPtsInSegment ClusteringRadiusMm MeanKFiltering
       MaxDepthMm MaxPointCount].
  rewrite Harm, Hcamera, Hgripper.
  rewrite !orDefault_idempotent by assumption.
  rewrite !orDefaultZ_idempotent by discriminate.
  split; [reflexivity|].
  rewrite !orDefault_nonzero by assumption.
  rewrite !orDefaultZ_nonzero by discriminate.
  repeat split.
Qed.


(** ** Each step of the pick sequence has its shape *)

Section StepShapes.
Context {F : Type} `{Float64 F} {W : Type} (robot : Robot F W).

Ltac unfold_step :=
  unfold stepOpenGripper, stepApproach, stepReDetect, stepGraspPosition,
    stepWorldFrame, stepGrab, stepLift, stepVerify, completed, setIsHolding,
    setApproachOffsetMm, setWorldFrameOffsetMm, setGripperPositionWorldFrame,
    setObjectPositionWorldFrame, getResult, withResult, inService, zoom,
    gripperOpen, gripperGrab, gripperIsHoldingSomething, armEndPosition,
    armMoveToPosition, motionGetPose, motionMove, detectObjects, radiusClustering,
    call, attempt, try, bind, ret, raise, modify, get.

Ltac case_reply :=
  match goal with
  | |- context [gripper_Open ?r ?w] => destruct (gripper_Open r w) as [[[]|?] ?]
  | |- context [gripper_Grab ?r ?w] => destruct (gripper_Grab r w) as [[?|?] ?]
  | |- context [gripper_IsHoldingSomething ?r ?w] =>
      destruct (gripper_IsHoldingSomething r w) as [[?|?] ?]
  | |- context [arm_EndPosition ?r ?w] => destruct (arm_EndPosition r w) as [[?|?] ?]
  | |- context [arm_MoveToPosition ?r ?p ?w] =>
      destruct (arm_MoveToPosition r p w) as [[[]|?] ?]
  | |- context [motion_GetPose ?r ?c ?f ?w] =>
      destruct (motion_GetPose r c f w) as [[?|?] ?]
  | |- context [motion_Move ?r ?c ?d ?w] =>
      destruct (motion_Move r c d w) as [[[]|?] ?]
  | |- context [segmentation_RadiusClustering ?r ?c ?w] =>
      destruct (segmentation_RadiusClustering r c w) as [[?|?] ?]
  end; simpl.

Ltac close_shape :=
  eexists _, _, _; split; [reflexivity|]; split;
  [ repeat split; simpl; rewrite <- ?app_assoc; reflexivity
  | try (econstructor; eauto; fail) ].

Ltac shape_by tac :=
  eexists _, _, _; split; [reflexivity|]; split; cycle 1;
  [ tac | repeat split; simpl; rewrite <- ?app_assoc, ?app_nil_r; try reflexivity ].

Lemma stepOpenGripper_shape : satisfies (stepOpenGripper robot) OpenShape.
Proof.
  intros s. unfold_step. simpl. case_reply; shape_by constructor.
Qed.

Lemma stepApproach_shape c obj detectionFrame isWorldFrame :
  satisfies (stepApproach robot c obj detectionFrame isWorldFrame) (ApproachShape c).
Proof.
  intros s. unfold_step. simpl. destruct isWorldFrame; simpl.
  - case_reply; case_reply.
    + shape_by ltac:(eapply (approach_ok c [(Step2_ApproachPose, _)]); repeat constructor).
    + shape_by ltac:(eapply (approach_no_path c [(Step2_ApproachPose, _)]); repeat constructor).
    + shape_by ltac:(eapply (approach_failed c [(Step2_ApproachPose, _)]); repeat constructor).
    + shape_by ltac:(eapply (approach_ok c [(Step2_ApproachPose, _)]); repeat constructor).
    + shape_by ltac:(eapply (approach_no_path c [(Step2_ApproachPose, _)]); repeat constructor).
    + shape_by ltac:(eapply (approach_failed c [(Step2_ApproachPose, _)]); repeat constructor).
  - case_reply.
    + shape_by ltac:(eapply (approach_ok c []); constructor).
    + shape_by ltac:(eapply (approach_no_path c []); constructor).
    + shape_by ltac:(eapply (approach_failed c []); constructor).
Qed.

Lemma stepReDetect_shape c obj :
  satisfies (stepReDetect robot c obj) (ReDetectShape robot c obj).
Proof.
  intros s. unfold_step. simpl.
  destruct (segmentation_CheckValid robot (segCfgOf c)) as [[]|e] eqn:Hvalid; simpl.
  - case_reply.
    + destruct (detectedOf_nil_or_nonempty c a) as [Hnil|(y & ys & Hsome)].
      * rewrite Hnil. simpl. shape_by ltac:(apply redetect_ok).
        unfold approachOffsetFrom. now rewrite Hnil.
      * rewrite Hsome. simpl. shape_by ltac:(apply redetect_ok).
        unfold approachOffsetFrom. now rewrite Hsome.
    + shape_by ltac:(apply redetect_failed).
  - shape_by ltac:(eapply redetect_invalid_config; eauto).
Qed.

Lemma stepGraspPosition_shape c : satisfies (stepGraspPosition robot c) GraspShape.
Proof.
  intros s. unfold_step. simpl. case_reply; [case_reply|]; shape_by constructor.
Qed.

Lemma stepWorldFrame_shape c obj isWorldFrame :
  satisfies (stepWorldFrame robot c obj isWorldFrame)
    (WorldFrameShape robot c obj isWorldFrame).
Proof.
  intros s. unfold_step. simpl. case_reply.
  - destruct isWorldFrame; simpl.
    + destruct (vecIsZero (Center obj)) eqn:Hzero; simpl;
        shape_by ltac:(apply world_in_world_frame; reflexivity);
        unfold worldFrameOffsetFrom; simpl; now rewrite Hzero.
    + case_reply.
      * destruct (vecIsZero _) eqn:Hzero; simpl;
          shape_by ltac:(apply world_through_camera; reflexivity);
          unfold worldFrameOffsetFrom; simpl; now rewrite Hzero.
      * destruct (vecIsZero _) eqn:Hzero; simpl;
          shape_by ltac:(apply world_no_camera_pose; reflexivity);
          unfold worldFrameOffsetFrom; simpl; now rewrite Hzero.
  - shape_by constructor.
Qed.

Lemma stepGrab_shape : satisfies (stepGrab robot) GrabShape.
Proof.
  intros s. unfold_step. simpl. case_reply; shape_by constructor.
Qed.

Lemma stepLift_shape c : satisfies (stepLift robot c) LiftShape.
Proof.
  intros s. unfold_step. simpl. case_reply.
  - case_reply; shape_by ltac:(apply lift_moved).
  - shape_by ltac:(apply lift_no_pose).
Qed.

Lemma stepVerify_shape : satisfies (stepVerify robot) VerifyShape.
Proof.
  intros s. unfold_step. simpl. case_reply.
  - shape_by ltac:(apply verify_answered).
  - shape_by ltac:(apply verify_unknown).
Qed.

Lemma satisfies_seq (c k : M (PickSt F W) unit) (P Q : Shape) :
  satisfies c P -> satisfies k Q -> satisfies (bind c (fun _ => k)) (seqShape P Q).
Proof.
  intros Hc Hk s.
  destruct (Hc s) as (o1 & e1 & f1 & Ho1 & (Hsvc1 & Htr1 & Hres1) & HP).
  unfold bind. destruct (c s) as [o s1]. simpl in *. subst o1.
  destruct o as [[]|e|p].
  - destruct (Hk s1) as (o2 & e2 & f2 & Ho2 & (Hsvc2 & Htr2 & Hres2) & HQ).
    exists o2, (e1 ++ e2), (f2 ∘ f1). split; [exact Ho2|]. split.
    + repeat split.
      * now rewrite Hsvc2.
      * now rewrite Htr2, Htr1, app_assoc.
      * now rewrite Hres2, Hres1.
    + now apply seq_ok.
  - exists (Err e), e1, f1. repeat split; trivial. now apply seq_err.
  - exists (Panic p), e1, f1. repeat split; trivial. now apply seq_panic.
Qed.

Lemma pickSteps_shape c obj detectionFrame isWorldFrame :
  satisfies (pickSteps robot c obj detectionFrame isWorldFrame)
    (PickShape robot c obj isWorldFrame).
Proof.
  unfold pickSteps, PickShape. repeat apply satisfies_seq;
    auto using stepOpenGripper_shape, stepApproach_shape, stepReDetect_shape,
      stepGraspPosition_shape, stepWorldFrame_shape, stepGrab_shape,
      stepLift_shape, stepVerify_shape.
Qed.

End StepShapes.

(** ** The runs of the pick sequence *)

Section PickRuns.
Context {F : Type} `{Float64 F} {W : Type} (robot : Robot F W).

(** Every run of [pickSequence] has the shape of its steps: the calls it
    made, the local result they left, and how it ended. It never panics. *)
Lemma pickSequence_run (obj : DetectedObject F) (s : PickSt F W) :
  let c := cfg (svc (base s)) in
  exists o evs f,
    PickShape robot c obj (isWorldFrameOf c) o evs f /\
    trace (base (snd (pickSequence robot obj s))) = trace (base s) ++ evs /\
    svc (base (snd (pickSequence robot obj s))) = withStatus "picking" (svc (base s)) /\
    match o with
    | Ok _ =>
        pickSequence robot obj s =
          (Ok (toMap (finish (f (newResult c obj)))),
           snd (pickSequence robot obj s)) /\
        result (snd (pickSequence robot obj s)) = finish (f (newResult c obj))
    | Err e =>
        fst (pickSequence robot obj s) = Err e /\
        result (snd (pickSequence robot obj s)) = f (newResult c obj)
    | Panic p => False
    end.
Proof.
  intros c.
  set (s1 := {| base := {| svc := withStatus "picking" (svc (base s));
                           world := world (base s); trace := trace (base s) |};
                result := newResult c obj |}).
  assert (Hseq : pickSequence robot obj s =
    match pickSteps robot c obj (detectionFrameOf c) (isWorldFrameOf c) s1 with
    | (Ok _, s2) => (Ok (toMap (finish (result s2))),
                     {| base := base s2; result := finish (result s2) |})
    | (Err e, s2) => (Err e, s2)
    | (Panic p, s2) => (Panic p, s2)
    end).
  { unfold pickSequence, bind. simpl. fold c. fold s1.
    now destruct (pickSteps robot c obj _ _ s1) as [[[]|e|p] s2]. }
  destruct (pickSteps_shape robot c obj (detectionFrameOf c) (isWorldFrameOf c) s1)
    as (o & evs & f & Ho & (Hsvc & Htr & Hres) & Hshape).
  exists o, evs, f. split; [exact Hshape|].
  rewrite Hseq.
  destruct (pickSteps robot c obj (detectionFrameOf c) (isWorldFrameOf c) s1)
    as [o' s2] eqn:Hrun.
  simpl in *. subst o'.
  destruct o as [[]|e|p]; simpl.
  - rewrite Htr, Hsvc, Hres. repeat split.
  - rewrite Htr, Hsvc, Hres. repeat split.
  - exfalso. clear - Hshape. unfold PickShape in Hshape.
    repeat match goal with
    | Hs : seqShape _ _ (Panic _) _ _ |- _ => inversion Hs; subst; clear Hs
    | Hs : seqShape _ _ (Ok _) _ _ |- _ => inversion Hs; subst; clear Hs
    | Hs : _ (Panic _) _ _ |- _ => now inversion Hs
    end.
Qed.

Lemma executePick_run (obj : DetectedObject F) (st : St F W) :
  let c := cfg (svc st) in
  exists o evs f,
    PickShape robot c obj (isWorldFrameOf c) o evs f /\
    trace (snd (executePick robot obj st)) = trace st ++ evs /\
    svc (snd (executePick robot obj st)) = withStatus "picking" (svc st) /\
    match o with
    | Ok _ => fst (executePick robot obj st) = Ok (toMap (finish (f (newResult c obj))))
    | Err e => fst (executePick robot obj st) = Err e
    | Panic p => False
    end.
Proof.
  intros c.
  destruct (pickSequence_run obj {| base := st; result := noResult |})
    as (o & evs & f & Hshape & Htr & Hsvc & Hout).
  exists o, evs, f. split; [exact Hshape|].
  unfold executePick.
  destruct (pickSequence robot obj _) as [out s'] eqn:Hrun. simpl in *.
  repeat split; trivial.
  destruct o as [[]|e|p]; trivial.
  - destruct Hout as [Hout _]. now inversion Hout.
  - now destruct Hout.
Qed.

Lemma callsDuring_app {A} (c : M (St F W) A) (st : St F W) evs :
  trace (snd (c st)) = trace st ++ evs -> callsDuring c st = evs.
Proof. intros Htr. unfold callsDuring. rewrite Htr. apply drop_app_length. Qed.

Ltac invert_shapes :=
  repeat match goal with
  | Hs : PickShape _ _ _ _ _ _ _ |- _ => unfold PickShape in Hs
  | Hs : seqShape _ _ _ _ _ |- _ => inversion Hs; subst; clear Hs
  end;
  repeat match goal with
  | Hs : OpenShape _ _ _ |- _ => inversion Hs; subst; clear Hs
  | Hs : ApproachShape _ _ _ _ |- _ => inversion Hs; subst; clear Hs
  | Hs : ReDetectShape _ _ _ _ _ _ |- _ => inversion Hs; subst; clear Hs
  | Hs : GraspShape _ _ _ |- _ => inversion Hs; subst; clear Hs
  | Hs : WorldFrameShape _ _ _ _ _ _ _ |- _ => inversion Hs; subst; clear Hs
  | Hs : GrabShape _ _ _ |- _ => inversion Hs; subst; clear Hs
  | Hs : LiftShape _ _ _ |- _ => inversion Hs; subst; clear Hs
  | Hs : VerifyShape _ _ _ |- _ => inversion Hs; subst; clear Hs
  end.

Lemma in_approach_pose (ev : Site * Call F) pre :
  Forall (fun ev => fst ev = Step2_ApproachPose) pre -> In ev pre ->
  fst ev = Step2_ApproachPose.
Proof. intros Hpre Hin. rewrite Forall_forall in Hpre. apply Hpre. now apply list_elem_of_In. Qed.

Lemma toMap_success (r : pickResult.t F) :
  toMap r !! "success" = Some (VBool (pickResult.Success r)).
Proof. reflexivity. Qed.

Lemma toMap_is_holding (r : pickResult.t F) :
  toMap r !! "is_holding" = Some (VBool (pickResult.IsHolding r)).
Proof. reflexivity. Qed.

Lemma toMap_steps_completed (r : pickResult.t F) :
  toMap r !! "steps_completed" = Some (VList (VString <$> pickResult.StepsCompleted r)).
Proof. reflexivity. Qed.


Lemma toMap_world_frame_offset (r : pickResult.t F) :
  toMap r !! "world_frame_offset_mm" = Some (offset (pickResult.WorldFrameOffsetMm r)).
Proof. reflexivity. Qed.

(** What the two guarded assignments leave alone. *)
Lemma worldFrameOffsetFrom_steps gp (r : pickResult.t F) :
  pickResult.StepsCompleted (worldFrameOffsetFrom gp r) = pickResult.StepsCompleted r.
Proof. unfold worldFrameOffsetFrom. now destruct (negb _). Qed.

Lemma worldFrameOffsetFrom_holding gp (r : pickResult.t F) :
  pickResult.IsHolding (worldFrameOffsetFrom gp r) = pickResult.IsHolding r.
Proof. unfold worldFrameOffsetFrom. now destruct (negb _). Qed.

Lemma worldFrameOffsetFrom_approach gp (r : pickResult.t F) :
  pickResult.ApproachOffsetMm (worldFrameOffsetFrom gp r) = pickResult.ApproachOffsetMm r.
Proof. unfold worldFrameOffsetFrom. now destruct (negb _). Qed.

Lemma approachOffsetFrom_steps obj objs (r : pickResult.t F) :
  pickResult.StepsCompleted (approachOffsetFrom obj objs r) = pickResult.StepsCompleted r.
Proof. unfold approachOffsetFrom. now destruct objs as [[|? ?]|]. Qed.

Lemma approachOffsetFrom_holding obj objs (r : pickResult.t F) :
  pickResult.IsHolding (approachOffsetFrom obj objs r) = pickResult.IsHolding r.
Proof. unfold approachOffsetFrom. now destruct objs as [[|? ?]|]. Qed.

Lemma approachOffsetFrom_object obj objs (r : pickResult.t F) :
  pickResult.ObjectPositionWorldFrame (approachOffsetFrom obj objs r) =
  pickResult.ObjectPositionWorldFrame r.
Proof. unfold approachOffsetFrom. now destruct objs as [[|? ?]|]. Qed.

Ltac simpl_result :=
  unfold finish, compose, unchanged; simpl;
  rewrite ?worldFrameOffsetFrom_steps, ?worldFrameOffsetFrom_holding,
    ?worldFrameOffsetFrom_approach; simpl;
  rewrite ?approachOffsetFrom_steps, ?approachOffsetFrom_holding,
    ?approachOffsetFrom_object; simpl.

Ltac split_calls Hin :=
  lazymatch type of Hin with
  | _ \/ _ => destruct Hin as [Hin|Hin]; split_calls Hin
  | In _ (_ ++ _) => apply in_app_or in Hin; destruct Hin as [Hin|Hin]; split_calls Hin
  | In _ (_ :: _) => apply in_inv in Hin; destruct Hin as [Hin|Hin]; split_calls Hin
  | In _ [] => contradiction
  | False => contradiction
  | In _ ?pre =>
      try (match goal with
           | Hpre : Forall _ pre |- _ =>
               apply (in_approach_pose _ _ Hpre) in Hin; discriminate
           end)
  | _ = _ => try discriminate
  end.

(* An error exit comes right after the call that failed. *)
Ltac no_fatal Hfatal :=
  repeat (apply Forall_app in Hfatal; destruct Hfatal as [_ Hfatal]);
  repeat (let Hev := fresh "Hev" in
          apply Forall_cons in Hfatal; destruct Hfatal as [Hev Hfatal];
          try discriminate Hev).

Ltac by_exit Hout tac_err tac_ok :=
  match type of Hout with
  | _ = Err _ => tac_err
  | _ => tac_ok
  end.

(** C2, as amended. A pick in which no call of a fatal step fails and the hold
    check answers true returns a result with [success] and [is_holding] true,
    and [steps_completed] holds the seven names the sequence appends, in its
    order: open_gripper, approach, re_detect, grasp_position, grab, lift,
    verify. *)
Theorem executePick_success (obj : DetectedObject F) (st : St F W) :
  let evs := callsDuring (executePick robot obj) st in
  Forall (fun ev => fatalFailure ev = false) evs ->
  In (Step9_Verify, GripperIsHoldingSomething (Returns true)) evs ->
  exists m, fst (executePick robot obj st) = Ok m /\
    m !! "success" = Some (VBool true) /\
    m !! "is_holding" = Some (VBool true) /\
    m !! "steps_completed" = Some (VList (VString <$> stepNames)).
Proof.
  intros evs Hfatal Hverify. subst evs.
  destruct (executePick_run obj st) as (o & evs & f & Hshape & Htr & _ & Hout).
  rewrite (callsDuring_app _ _ _ Htr) in Hfatal, Hverify. clear Htr.
  invert_shapes;
    by_exit Hout ltac:(exfalso; no_fatal Hfatal) ltac:(split_calls Hverify);
    inversion Hverify; subst;
    (eexists; split; [exact Hout|]);
    rewrite toMap_success, toMap_is_holding, toMap_steps_completed;
    simpl_result; repeat split.
Qed.

Lemma pickCalls_app {A} (c : M (PickSt F W) A) (s : PickSt F W) evs :
  trace (base (snd (c s))) = trace (base s) ++ evs -> pickCalls c s = evs.
Proof. intros Htr. unfold pickCalls. rewrite Htr. apply drop_app_length. Qed.

Ltac find_in :=
  lazymatch goal with
  | |- _ = _ \/ _ => first [left; reflexivity | right; find_in]
  | |- In _ (_ ++ _) => apply in_or_app; first [left; find_in | right; find_in]
  | |- In _ (_ :: _) => first [apply in_eq | apply in_cons; find_in]
  end.

(** C3, as amended. In every run of the pick sequence, whether it returns a
    result or stops at an error: the name of a fatal step (open_gripper,
    approach, grasp_position, grab) is in [StepsCompleted] only if the step
    made its calls and none of them failed; the name of an advisory step
    (re_detect, lift, verify) is in [StepsCompleted] as soon as the step made
    a call, whether that call failed or not. *)
Theorem pick_names (obj : DetectedObject F) (s : PickSt F W) :
  let steps := pickResult.StepsCompleted (result (snd (pickSequence robot obj s))) in
  let evs := pickCalls (pickSequence robot obj) s in
  forall site name, stepName site = Some name ->
    if fatalSite site
    then In name steps ->
         (exists call, In (site, call) evs) /\
         (forall call, In (site, call) evs -> callFailed call = false)
    else (exists call, In (site, call) evs) -> In name steps.
Proof.
  intros steps evs site name Hname. subst steps evs.
  destruct (pickSequence_run obj s) as (o & evs & f & Hshape & Htr & _ & Hout).
  rewrite (pickCalls_app _ _ _ Htr). clear Htr.
  assert (Hres : pickResult.StepsCompleted (result (snd (pickSequence robot obj s))) =
                 pickResult.StepsCompleted (f (newResult (cfg (svc (base s))) obj))).
  { destruct o as [[]|e|p]; [| |contradiction]; destruct Hout as [_ Hres];
      now rewrite Hres. }
  rewrite Hres. clear Hres Hout.
  invert_shapes; simpl_result.
  all: destruct site; try discriminate Hname; injection Hname as <-; simpl.
  all: lazymatch goal with
    | |- (exists _, _) -> _ =>
        first [ solve [intros _; find_in]
              | intros [call Hin]; exfalso; split_calls Hin ]
    | |- _ -> _ /\ _ =>
        first [ solve [intros Hin; exfalso; simpl in Hin; intuition discriminate]
              | intros _; split;
                [ eexists; find_in
                | intros call Hin; split_calls Hin; injection Hin as <-; reflexivity ] ]
    end.
Qed.
Lemma callsAt_app site (a b : list (Site * Call F)) :
  callsAt site (a ++ b) = callsAt site a ++ callsAt site b.
Proof. apply filter_app. Qed.

Lemma callsAt_elsewhere site site' (pre : list (Site * Call F)) :
  site <> site' -> Forall (fun ev => fst ev = site') pre -> callsAt site pre = [].
Proof.
  intros Hne Hpre. unfold callsAt. induction Hpre as [|ev pre Hev _ IH]; [reflexivity|].
  rewrite filter_cons. destruct (decide (ev.1 = site)) as [Heq|_]; [congruence|exact IH].
Qed.



Ltac calls_at Hposes :=
  unfold callsAt in Hposes; repeat rewrite filter_app in Hposes;
  match goal with
  | Hpre : Forall _ ?pre |- _ =>
      change (filter (fun ev => fst ev = Step6_WorldFrame) pre)
        with (callsAt Step6_WorldFrame pre) in Hposes;
      rewrite (callsAt_elsewhere Step6_WorldFrame Step2_ApproachPose pre) in Hposes
        by (discriminate || exact Hpre)
  end;
  simpl in Hposes.


(** *** Where a pick stops, and what a returned result always says *)

Lemma approach_pose_not_fatal (pre : list (Site * Call F)) :
  Forall (fun ev => fst ev = Step2_ApproachPose) pre ->
  Forall (fun ev => fatalFailure ev = false) pre.
Proof.
  intros Hpre. eapply Forall_impl; [exact Hpre|].
  intros [site call] Hsite. simpl in Hsite. subst site. reflexivity.
Qed.

(* Every call of the list is shown not to be a fatal failure. *)
Ltac all_sound :=
  repeat first
    [ apply Forall_nil_2
    | apply Forall_app_2
    | apply Forall_cons_2; [reflexivity|]
    | apply approach_pose_not_fatal; assumption ].

(* The calls are split at the last one. *)
Ltac last_call :=
  rewrite ?app_assoc;
  lazymatch goal with
  | |- ?l ++ [?a; ?b] = _ => change (l ++ [a; b]) with (l ++ [a] ++ [b]); rewrite ?app_assoc
  | |- [?a; ?b] = _ => change [a; b] with ([a] ++ [b])
  | |- [?a] = _ => change [a] with ([] ++ [a])
  | _ => idtac
  end;
  reflexivity.

(** X1. [executePick] never panics. When it returns a result, no call of a
    fatal step (open gripper, approach move, grasp move, grab) has failed;
    when it returns an error, the last call it made is a failed call of a
    fatal step and no earlier one is: nothing is asked of the robot after
    the failure. *)
Theorem executePick_stops_at_failure (obj : DetectedObject F) (st : St F W) :
  let evs := callsDuring (executePick robot obj) st in
  match fst (executePick robot obj st) with
  | Ok _ => Forall (fun ev => fatalFailure ev = false) evs
  | Err _ =>
      exists before failed,
        evs = before ++ [failed] /\
        fatalFailure failed = true /\
        Forall (fun ev => fatalFailure ev = false) before
  | Panic _ => False
  end.
Proof.
  intros evs. subst evs.
  destruct (executePick_run obj st) as (o & evs & f & Hshape & Htr & _ & Hout).
  rewrite (callsDuring_app _ _ _ Htr). clear Htr.
  invert_shapes; rewrite Hout; clear Hout.
  all: try solve [all_sound].
  all: eexists _, _; split; [last_call|]; split; [reflexivity|]; all_sound.
Qed.

(** X2. Every result [executePick] returns has all seven step names in
    [steps_completed], in the order of the sequence, whether the pick held
    the object or not; [success] and [is_holding] are the same flag, and it
    is true exactly when the hold check of step 9 answered true. *)
Theorem executePick_verdict (obj : DetectedObject F) (st : St F W) m :
  fst (executePick robot obj st) = Ok m ->
  let evs := callsDuring (executePick robot obj) st in
  m !! "steps_completed" = Some (VList (VString <$> stepNames)) /\
  exists holding : bool,
    m !! "success" = Some (VBool holding) /\
    m !! "is_holding" = Some (VBool holding) /\
    (holding = true <->
     In (Step9_Verify, GripperIsHoldingSomething (Returns true)) evs).
Proof.
  intros Hm evs. subst evs.
  destruct (executePick_run obj st) as (o & evs & f & Hshape & Htr & _ & Hout).
  rewrite (callsDuring_app _ _ _ Htr). clear Htr.
  invert_shapes; rewrite Hout in Hm; try discriminate Hm; injection Hm as <-;
    rewrite toMap_success, toMap_is_holding, toMap_steps_completed;
    simpl_result; (split; [reflexivity|]);
    eexists; (split; [reflexivity|]); (split; [reflexivity|]);
    (split; [try discriminate; intros ->; find_in
            |intros Hin; split_calls Hin; now injection Hin]).
Qed.

Lemma toMap_detected_position (r : pickResult.t F) :
  toMap r !! "detected_position" =
  Some (position (pickResult.DetectedPosition r) (pickResult.DetectionFrame r)).
Proof. reflexivity. Qed.

Lemma toMap_gripper_position (r : pickResult.t F) :
  toMap r !! "gripper_position_world_frame" =
  Some (position (pickResult.GripperPositionWorldFrame r) "world").
Proof. reflexivity. Qed.

Lemma toMap_object_position (r : pickResult.t F) :
  toMap r !! "object_position_world_frame" =
  Some (position (pickResult.ObjectPositionWorldFrame r) "world").
Proof. reflexivity. Qed.

Lemma worldFrameOffsetFrom_detected gp (r : pickResult.t F) :
  pickResult.DetectedPosition (worldFrameOffsetFrom gp r) = pickResult.DetectedPosition r.
Proof. unfold worldFrameOffsetFrom. now destruct (negb _). Qed.

Lemma worldFrameOffsetFrom_frame gp (r : pickResult.t F) :
  pickResult.DetectionFrame (worldFrameOffsetFrom gp r) = pickResult.DetectionFrame r.
Proof. unfold worldFrameOffsetFrom. now destruct (negb _). Qed.

Lemma worldFrameOffsetFrom_gripper gp (r : pickResult.t F) :
  pickResult.GripperPositionWorldFrame (worldFrameOffsetFrom gp r) =
  pickResult.GripperPositionWorldFrame r.
Proof. unfold worldFrameOffsetFrom. now destruct (negb _). Qed.

Lemma worldFrameOffsetFrom_object gp (r : pickResult.t F) :
  pickResult.ObjectPositionWorldFrame (worldFrameOffsetFrom gp r) =
  pickResult.ObjectPositionWorldFrame r.
Proof. unfold worldFrameOffsetFrom. now destruct (negb _). Qed.

Lemma worldFrameOffsetFrom_zero gp (r : pickResult.t F) :
  vecIsZero (pickResult.ObjectPositionWorldFrame r) = true ->
  pickResult.WorldFrameOffsetMm (worldFrameOffsetFrom gp r) = pickResult.WorldFrameOffsetMm r.
Proof. intros Hz. unfold worldFrameOffsetFrom. now rewrite Hz. Qed.

Lemma approachOffsetFrom_detected obj objs (r : pickResult.t F) :
  pickResult.DetectedPosition (approachOffsetFrom obj objs r) = pickResult.DetectedPosition r.
Proof. unfold approachOffsetFrom. now destruct objs as [[|? ?]|]. Qed.

Lemma approachOffsetFrom_frame obj objs (r : pickResult.t F) :
  pickResult.DetectionFrame (approachOffsetFrom obj objs r) = pickResult.DetectionFrame r.
Proof. unfold approachOffsetFrom. now destruct objs as [[|? ?]|]. Qed.

Lemma approachOffsetFrom_gripper obj objs (r : pickResult.t F) :
  pickResult.GripperPositionWorldFrame (approachOffsetFrom obj objs r) =
  pickResult.GripperPositionWorldFrame r.
Proof. unfold approachOffsetFrom. now destruct objs as [[|? ?]|]. Qed.

Lemma approachOffsetFrom_world_offset obj objs (r : pickResult.t F) :
  pickResult.WorldFrameOffsetMm (approachOffsetFrom obj objs r) =
  pickResult.WorldFrameOffsetMm r.
Proof. unfold approachOffsetFrom. now destruct objs as [[|? ?]|]. Qed.

Ltac simpl_positions :=
  unfold finish, compose, unchanged; simpl;
  rewrite ?worldFrameOffsetFrom_detected, ?worldFrameOffsetFrom_frame,
    ?worldFrameOffsetFrom_gripper, ?worldFrameOffsetFrom_object; simpl;
  rewrite ?approachOffsetFrom_detected, ?approachOffsetFrom_frame,
    ?approachOffsetFrom_gripper, ?approachOffsetFrom_object,
    ?approachOffsetFrom_world_offset; simpl.

(** The detected position of a returned result is the one the pick was
    given, in the detection frame. *)
Lemma executePick_detected_position (obj : DetectedObject F) (st : St F W) m :
  fst (executePick robot obj st) = Ok m ->
  m !! "detected_position" =
  Some (position (Center obj) (detectionFrameOf (cfg (svc st)))).
Proof.
  intros Hm.
  destruct (executePick_run obj st) as (o & evs & f & Hshape & _ & _ & Hout).
  invert_shapes; rewrite Hout in Hm; try discriminate Hm; injection Hm as <-;
    rewrite toMap_detected_position; simpl_positions; reflexivity.
Qed.

(** X3. A returned result repeats the position the pick was given, in the
    detection frame (the camera's name when none is configured). When the
    gripper pose query of step 6 fails, the pick goes on and the result
    reports the zero vector for the gripper position, the object position
    and the world-frame offset; when that query answers and the camera pose
    query fails, the gripper position is reported and the other two are the
    zero vector (zero comparing equal to itself, as on binary64). *)
Theorem executePick_positions (obj : DetectedObject F) (st : St F W) m :
  fst (executePick robot obj st) = Ok m ->
  let c := cfg (svc st) in
  let calls := callsAt Step6_WorldFrame (callsDuring (executePick robot obj) st) in
  m !! "detected_position" =
    Some (position (Center obj)
            (if String.eqb (DetectionFrame c) "" then Camera c else DetectionFrame c)) /\
  (forall e,
     calls = [(Step6_WorldFrame, MotionGetPose (Gripper c) "world" (Fails e))] ->
     m !! "gripper_position_world_frame" = Some (position zeroVector "world") /\
     m !! "object_position_world_frame" = Some (position zeroVector "world") /\
     m !! "world_frame_offset_mm" = Some (offset zeroVector)) /\
  (forall gp e,
     calls = [(Step6_WorldFrame, MotionGetPose (Gripper c) "world" (Returns gp));
              (Step6_WorldFrame, MotionGetPose (Camera c) "world" (Fails e))] ->
     vecIsZero (zeroVector : r3.Vector F) = true ->
     m !! "gripper_position_world_frame" = Some (position (Point gp) "world") /\
     m !! "object_position_world_frame" = Some (position zeroVector "world") /\
     m !! "world_frame_offset_mm" = Some (offset zeroVector)).
Proof.
  intros Hm c calls. subst c calls.
  split; [now apply executePick_detected_position|].
  destruct (executePick_run obj st) as (o & evs & f & Hshape & Htr & _ & Hout).
  rewrite (callsDuring_app _ _ _ Htr). clear Htr.
  split.
  - intros e Hcalls.
    invert_shapes; rewrite Hout in Hm; try discriminate Hm; injection Hm as <-;
      calls_at Hcalls; try discriminate Hcalls;
      rewrite toMap_gripper_position, toMap_object_position, toMap_world_frame_offset;
      simpl_positions; repeat split.
  - intros gp e Hcalls Hzero.
    invert_shapes; rewrite Hout in Hm; try discriminate Hm; injection Hm as <-;
      calls_at Hcalls; try discriminate Hcalls;
      injection Hcalls as -> _;
      rewrite toMap_gripper_position, toMap_object_position, toMap_world_frame_offset;
      unfold finish, compose, unchanged; simpl;
      rewrite worldFrameOffsetFrom_gripper, worldFrameOffsetFrom_object,
        worldFrameOffsetFrom_zero;
      simpl; rewrite ?approachOffsetFrom_object, ?approachOffsetFrom_world_offset;
      simpl; try exact Hzero; repeat split.
Qed.

End PickRuns.

(** ** The handlers *)

Section Handlers.
Context {F : Type} `{Float64 F} {W : Type} (robot : Robot F W).

Lemma detectObjects_ok site c (st : St F W) clouds w' :
  segmentation_CheckValid robot (segCfgOf c) = Returns tt ->
  segmentation_RadiusClustering robot (segCfgOf c) (world st) = (Returns clouds, w') ->
  detectObjects robot site c st =
    (Ok (detectedOf c clouds),
     after st (svc st) w' [(site, RadiusClustering (Returns clouds))]).
Proof.
  intros Hvalid Hclusters.
  unfold detectObjects, radiusClustering, call, try, bind, ret.
  now rewrite Hvalid, Hclusters.
Qed.

(** C1. [DoCommand] has no case for "move_to": a command map with that
    command and numeric x, y, z and step_size falls to the default case, and
    what comes back is the unknown-command error; the state is untouched and
    [handleMoveTo] is not run. *)
Theorem DoCommand_move_to (x y z step_size : F) (st : St F W) :
  DoCommand robot
    (<["command" := VString "move_to"]> (<["x" := VFloat x]> (<["y" := VFloat y]>
    (<["z" := VFloat z]> (<["step_size" := VFloat step_size]> ∅))))) st =
  (Err (ErrUnknownCommand "move_to"), st).
Proof. reflexivity. Qed.

(** [handlePick] once its detection has answered. *)
Lemma handlePick_after_detection (objectIndex : Z) (st : St F W) clouds w' :
  let c := cfg (svc st) in
  let objects := detectedOf c clouds in
  segmentation_CheckValid robot (segCfgOf c) = Returns tt ->
  segmentation_RadiusClustering robot (segCfgOf c) (world st) = (Returns clouds, w') ->
  handlePick robot objectIndex st =
    if (len objects <=? objectIndex)%Z
    then (Err (ErrIndexOutOfRange objectIndex (len objects)), idle (detected st clouds w'))
    else bind (index objects objectIndex)
           (fun obj => bind (attempt (executePick robot obj)) recordPick)
           (detected st clouds w').
Proof.
  intros c objects Hvalid Hclusters.
  unfold handlePick, bind at 1 2 3, attempt. simpl.
  erewrite detectObjects_ok; [|exact Hvalid|exact Hclusters]. simpl.
  fold c. fold objects.
  unfold bind at 1. simpl.
  now destruct (len objects <=? objectIndex)%Z.
Qed.

(** [handlePickDetected] when there is a last detection. *)
Lemma handlePickDetected_after_detection (objectIndex : Z) (st : St F W) objects :
  lastDetection (svc st) = Some objects ->
  handlePickDetected robot objectIndex st =
    if (len (Some objects) <=? objectIndex)%Z
    then (Err (ErrIndexOutOfRange objectIndex (len (Some objects))), st)
    else bind (index (Some objects) objectIndex)
           (fun obj => bind (attempt (executePick robot obj)) recordPick) st.
Proof.
  intros Hlast. unfold handlePickDetected, bind at 1, get. simpl. rewrite Hlast.
  now destruct (len (Some objects) <=? objectIndex)%Z.
Qed.

(** What [recordPick] does after a pick that ended in an error. *)
Lemma recordPick_error e (st : St F W) :
  recordPick (Fails e) st =
  (Err e, {| svc := withLastResult None (withStatus "idle" (svc st));
             world := world st; trace := trace st |}).
Proof. reflexivity. Qed.

(** The snapshot [handleStatus] returns. *)
Lemma handleStatus_fields (st : St F W) :
  exists m, handleStatus st = (Ok m, st) /\
    m !! "status" = Some (VString (currentStatus (svc st))) /\
    m !! "last_result" =
      match lastResult (svc st) with
      | Some r => Some (VMap r)
      | None => None
      end /\
    m !! "detected_objects" =
      match lastDetection (svc st) with
      | Some objects => Some (VInt (len (Some objects)))
      | None => None
      end.
Proof.
  unfold handleStatus, bind, get, ret. simpl.
  destruct (lastResult (svc st)), (lastDetection (svc st));
    eexists; (split; [reflexivity|]); repeat split.
Qed.

(** C7. When the detection of [handlePick] answers with a set of [n] objects
    and the index is at least [n], the call fails with the out-of-range error,
    [lastResult] is what it was, and the detection is the only call that was
    made: the pick sequence is not entered. *)
Theorem handlePick_out_of_range (objectIndex : Z) (st : St F W) clouds w' :
  let c := cfg (svc st) in
  let n := len (detectedOf c clouds) in
  segmentation_CheckValid robot (segCfgOf c) = Returns tt ->
  segmentation_RadiusClustering robot (segCfgOf c) (world st) = (Returns clouds, w') ->
  (n <= objectIndex)%Z ->
  fst (handlePick robot objectIndex st) = Err (ErrIndexOutOfRange objectIndex n) /\
  lastResult (svc (snd (handlePick robot objectIndex st))) = lastResult (svc st) /\
  callsDuring (handlePick robot objectIndex) st =
    [(Detection, RadiusClustering (Returns clouds))].
Proof.
  intros c n Hvalid Hclusters Hrange.
  unfold callsDuring.
  rewrite (handlePick_after_detection objectIndex st clouds w' Hvalid Hclusters).
  fold c. fold n.
  destruct (Z.leb_spec n objectIndex) as [_|Hlt]; [|lia].
  simpl. rewrite drop_app_length. auto.
Qed.

(** C8. Only the upper bound of the index is checked: for a negative index
    [handlePick] (once its detection has answered) and [handlePickDetected]
    (when there is a last detection) pass the range check and panic on the
    slice access, instead of returning the out-of-range error. *)
Theorem negative_index_panics (objectIndex : Z) (st : St F W) :
  (objectIndex < 0)%Z ->
  (forall clouds w',
     let c := cfg (svc st) in
     segmentation_CheckValid robot (segCfgOf c) = Returns tt ->
     segmentation_RadiusClustering robot (segCfgOf c) (world st) = (Returns clouds, w') ->
     fst (handlePick robot objectIndex st) =
       Panic (IndexOutOfRange objectIndex (len (detectedOf c clouds)))) /\
  (forall objects,
     lastDetection (svc st) = Some objects ->
     fst (handlePickDetected robot objectIndex st) =
       Panic (IndexOutOfRange objectIndex (len (Some objects)))).
Proof.
  intros Hneg. split.
  - intros clouds w' c Hvalid Hclusters.
    rewrite (handlePick_after_detection objectIndex st clouds w' Hvalid Hclusters).
    fold c.
    pose proof (len_nonneg (detectedOf c clouds)) as Hlen.
    destruct (Z.leb_spec (len (detectedOf c clouds)) objectIndex) as [Hle|_]; [lia|].
    erewrite bind_Panic; [reflexivity|]. now apply index_negative.
  - intros objects Hlast.
    rewrite (handlePickDetected_after_detection objectIndex st objects Hlast).
    pose proof (len_nonneg (Some objects)) as Hlen.
    destruct (Z.leb_spec (len (Some objects)) objectIndex) as [Hle|_]; [lia|].
    erewrite bind_Panic; [reflexivity|]. now apply index_negative.
Qed.

(** C9. When [executePick] ends in an error, [handlePick] and
    [handlePickDetected] still assign its nil result to [lastResult]: whatever
    was recorded before is gone, and the status snapshot taken next has no
    [last_result]. *)
Theorem fatal_pick_erases_lastResult (objectIndex : Z) (st : St F W)
  (obj : DetectedObject F) (e : error) :
  (0 <= objectIndex)%Z ->
  (forall clouds w' st2,
     let c := cfg (svc st) in
     segmentation_CheckValid robot (segCfgOf c) = Returns tt ->
     segmentation_RadiusClustering robot (segCfgOf c) (world st) = (Returns clouds, w') ->
     default [] (detectedOf c clouds) !! Z.to_nat objectIndex = Some obj ->
     executePick robot obj (detected st clouds w') = (Err e, st2) ->
     let st' := snd (handlePick robot objectIndex st) in
     fst (handlePick robot objectIndex st) = Err e /\
     lastResult (svc st') = None /\
     exists m, fst (handleStatus st') = Ok m /\ m !! "last_result" = None) /\
  (forall objects st2,
     lastDetection (svc st) = Some objects ->
     objects !! Z.to_nat objectIndex = Some obj ->
     executePick robot obj st = (Err e, st2) ->
     let st' := snd (handlePickDetected robot objectIndex st) in
     fst (handlePickDetected robot objectIndex st) = Err e /\
     lastResult (svc st') = None /\
     exists m, fst (handleStatus st') = Ok m /\ m !! "last_result" = None).
Proof.
  intros Hpos. split.
  - intros clouds w' st2 c Hvalid Hclusters Hobj Hpick st'. subst st'.
    rewrite (handlePick_after_detection objectIndex st clouds w' Hvalid Hclusters).
    fold c.
    assert (Hlt : (objectIndex < len (detectedOf c clouds))%Z).
    { apply lookup_lt_Some in Hobj. unfold len. lia. }
    destruct (Z.leb_spec (len (detectedOf c clouds)) objectIndex) as [Hle|_]; [lia|].
    erewrite bind_Ok; [|apply index_in_range; [exact Hpos|exact Hobj]].
    erewrite bind_Ok; [|unfold attempt; now rewrite Hpick].
    rewrite recordPick_error. cbn [fst snd]. repeat split.
    match goal with
    | |- context [handleStatus ?st'] =>
        destruct (handleStatus_fields st') as (m & Hm & _ & Hlast' & _)
    end.
    exists m. now rewrite Hm, Hlast'.
  - intros objects st2 Hlast Hobj Hpick st'. subst st'.
    rewrite (handlePickDetected_after_detection objectIndex st objects Hlast).
    assert (Hlt : (objectIndex < len (Some objects))%Z).
    { apply lookup_lt_Some in Hobj. unfold len. simpl. lia. }
    destruct (Z.leb_spec (len (Some objects)) objectIndex) as [Hle|_]; [lia|].
    erewrite bind_Ok; [|apply index_in_range; [exact Hpos|exact Hobj]].
    erewrite bind_Ok; [|unfold attempt; now rewrite Hpick].
    rewrite recordPick_error. cbn [fst snd]. repeat split.
    match goal with
    | |- context [handleStatus ?st'] =>
        destruct (handleStatus_fields st') as (m & Hm & _ & Hlast' & _)
    end.
    exists m. now rewrite Hm, Hlast'.
Qed.

(** C10. A detection that succeeds with no object kept stores the nil slice
    as [lastDetection]: [handleDetect] returns a count of 0, the next
    [handlePickDetected] fails with the no-previous-detection error, and the
    status snapshot has no [detected_objects]. *)
Theorem empty_detection_is_nil (st : St F W) clouds w' :
  let c := cfg (svc st) in
  segmentation_CheckValid robot (segCfgOf c) = Returns tt ->
  segmentation_RadiusClustering robot (segCfgOf c) (world st) = (Returns clouds, w') ->
  len (detectedOf c clouds) = 0%Z ->
  let st' := snd (handleDetect robot st) in
  (exists m, fst (handleDetect robot st) = Ok m /\ m !! "count" = Some (VInt 0)) /\
  lastDetection (svc st') = None /\
  (forall objectIndex,
     fst (handlePickDetected robot objectIndex st') = Err ErrNoPreviousDetection) /\
  (exists m, fst (handleStatus st') = Ok m /\ m !! "detected_objects" = None).
Proof.
  intros c Hvalid Hclusters Hempty st'.
  assert (Hnil : detectedOf c clouds = None) by now apply detectedOf_len_zero.
  assert (Hrun : handleDetect robot st =
    (Ok (<["objects" := VList (imap detectedToValue (default [] (detectedOf c clouds)))]>
        (<["count" := VInt (len (detectedOf c clouds))]> ∅)),
     idle (detected st clouds w'))).
  { unfold handleDetect, bind at 1 2 3, attempt. simpl.
    erewrite detectObjects_ok; [|exact Hvalid|exact Hclusters]. reflexivity. }
  subst st'. rewrite Hrun. cbn [fst snd].
  split; [eexists; split; [reflexivity|now rewrite Hempty]|].
  split; [simpl; fold c; exact Hnil|].
  split.
  { intros objectIndex. unfold handlePickDetected, bind, get. simpl. fold c.
    now rewrite Hnil. }
  destruct (handleStatus_fields (idle (detected st clouds w')))
    as (m & Hm & _ & _ & Hdet).
  exists m. rewrite Hm, Hdet. simpl. fold c. now rewrite Hnil.
Qed.

(** *** The handlers, case by case *)

(** [executePick] overwrites the status it finds. *)
Lemma executePick_status (obj : DetectedObject F) (st : St F W) status :
  executePick robot obj
    {| svc := withStatus status (svc st); world := world st; trace := trace st |} =
  executePick robot obj st.
Proof.
  unfold executePick, pickSequence.
  erewrite !bind_Ok by reflexivity.
  reflexivity.
Qed.

Lemma detectObjects_invalid site c (st : St F W) e :
  segmentation_CheckValid robot (segCfgOf c) = Fails e ->
  detectObjects robot site c st = (Err (ErrInvalidSegmentationConfig e), st).
Proof.
  intros Hvalid. unfold detectObjects, try, bind, raise. now rewrite Hvalid.
Qed.

Lemma detectObjects_failed site c (st : St F W) e w' :
  segmentation_CheckValid robot (segCfgOf c) = Returns tt ->
  segmentation_RadiusClustering robot (segCfgOf c) (world st) = (Fails e, w') ->
  detectObjects robot site c st =
    (Err (ErrSegmentationFailed e),
     after st (svc st) w' [(site, RadiusClustering (Fails e))]).
Proof.
  intros Hvalid Hclusters.
  unfold detectObjects, radiusClustering, call, try, bind, ret, raise.
  now rewrite Hvalid, Hclusters.
Qed.

(** How the detection of a handler ends: an error after at most one call,
    or the objects kept from the clusters. The service is not touched. *)
Lemma detectObjects_cases site c (st : St F W) :
  (exists e w evs,
     detectObjects robot site c st = (Err e, after st (svc st) w evs) /\
     (length evs <= 1)%nat) \/
  (exists clouds w',
     segmentation_CheckValid robot (segCfgOf c) = Returns tt /\
     segmentation_RadiusClustering robot (segCfgOf c) (world st) = (Returns clouds, w') /\
     detectObjects robot site c st =
       (Ok (detectedOf c clouds),
        after st (svc st) w' [(site, RadiusClustering (Returns clouds))])).
Proof.
  destruct (segmentation_CheckValid robot (segCfgOf c)) as [[]|e] eqn:Hvalid.
  - destruct (segmentation_RadiusClustering robot (segCfgOf c) (world st))
      as [[clouds|e] w'] eqn:Hclusters.
    + right. exists clouds, w'. split; [reflexivity|]. split; [reflexivity|].
      now apply detectObjects_ok.
    + left. exists (ErrSegmentationFailed e), w', [(site, RadiusClustering (Fails e))].
      split; [apply detectObjects_failed; [exact Hvalid|exact Hclusters]|]. simpl. lia.
  - left. exists (ErrInvalidSegmentationConfig e), (world st), [].
    split; [|simpl; lia].
    rewrite (detectObjects_invalid _ _ _ _ Hvalid). unfold after.
    rewrite app_nil_r. now destruct st.
Qed.

(** [handleDetect] around its detection. *)
Lemma handleDetect_run (st : St F W) :
  let c := cfg (svc st) in
  let st0 := {| svc := withStatus "detecting" (svc st); world := world st;
                trace := trace st |} in
  handleDetect robot st =
  match detectObjects robot Detection c st0 with
  | (Ok objects, st1) =>
      (Ok (<["objects" := VList (imap detectedToValue (default [] objects))]>
             (<["count" := VInt (len objects)]> ∅)),
       {| svc := withStatus "idle" (withLastDetection objects (svc st1));
          world := world st1; trace := trace st1 |})
  | (Err e, st1) =>
      (Err (ErrDetectionFailed e),
       {| svc := withStatus "idle" (svc st1); world := world st1; trace := trace st1 |})
  | (Panic p, st1) => (Panic p, st1)
  end.
Proof.
  intros c st0. unfold handleDetect, bind at 1 2 3, attempt, get.
  cbn [setCurrentStatus withSvc modify fst snd svc]. fold st0.
  change (cfg (withStatus "detecting" (svc st))) with c.
  now destruct (detectObjects robot Detection c st0) as [[objects|e|p] st1].
Qed.

(** [handlePick] around its detection. *)
Lemma handlePick_run (objectIndex : Z) (st : St F W) :
  let c := cfg (svc st) in
  let st0 := {| svc := withStatus "detecting" (svc st); world := world st;
                trace := trace st |} in
  handlePick robot objectIndex st =
  match detectObjects robot Detection c st0 with
  | (Ok objects, st1) =>
      let st2 := {| svc := withLastDetection objects (svc st1);
                    world := world st1; trace := trace st1 |} in
      if (len objects <=? objectIndex)%Z
      then (Err (ErrIndexOutOfRange objectIndex (len objects)), idle st2)
      else bind (index objects objectIndex)
             (fun obj => bind (attempt (executePick robot obj)) recordPick) st2
  | (Err e, st1) => (Err (ErrDetectionFailed e), idle st1)
  | (Panic p, st1) => (Panic p, st1)
  end.
Proof.
  intros c st0. unfold handlePick, bind at 1 2 3, attempt, get.
  cbn [setCurrentStatus withSvc modify fst snd svc]. fold st0.
  change (cfg (withStatus "detecting" (svc st))) with c.
  destruct (detectObjects robot Detection c st0) as [[objects|e|p] st1];
    try reflexivity.
  unfold bind at 1. cbn [setLastDetection withSvc modify].
  now destruct (len objects <=? objectIndex)%Z.
Qed.

(** A pick and the bookkeeping after it: the status is back to idle and
    [lastResult] is what the pick returned, nil after an error. *)
Lemma pick_and_record (obj : DetectedObject F) (st : St F W) :
  exists r w,
    fst (executePick robot obj st) =
      match r with Returns m => Ok m | Fails e => Err e end /\
    bind (attempt (executePick robot obj)) recordPick st =
      (match r with Returns m => Ok m | Fails e => Err e end,
       {| svc := withLastResult (match r with Returns m => Some m | Fails _ => None end)
                   (withStatus "idle" (svc st));
          world := w;
          trace := trace st ++ callsDuring (executePick robot obj) st |}).
Proof.
  destruct (executePick_run robot obj st) as (o & evs & f & _ & Htr & Hsvc & Hout).
  rewrite (callsDuring_app _ _ _ Htr).
  unfold bind, attempt.
  destruct (executePick robot obj st) as [out st'] eqn:Hrun. cbn [fst snd] in *.
  destruct o as [[]|e|p]; [| |contradiction]; subst out.
  - eexists (Returns _), (world st'). split; [reflexivity|].
    unfold recordPick, bind, setCurrentStatus, setLastResult, withSvc, modify, ret.
    cbn [fst snd svc world trace]. now rewrite Hsvc, Htr.
  - exists (Fails e), (world st'). split; [reflexivity|].
    rewrite recordPick_error. now rewrite Hsvc, Htr.
Qed.

(** How [handlePick] ends once its detection has answered with [clouds]. *)
Lemma handlePick_cases (objectIndex : Z) (st : St F W) clouds w' :
  let c := cfg (svc st) in
  let objects := detectedOf c clouds in
  let seen := withLastDetection objects (svc st) in
  segmentation_CheckValid robot (segCfgOf c) = Returns tt ->
  segmentation_RadiusClustering robot (segCfgOf c) (world st) = (Returns clouds, w') ->
  ((len objects <= objectIndex)%Z /\
   fst (handlePick robot objectIndex st) = Err (ErrIndexOutOfRange objectIndex (len objects)) /\
   svc (snd (handlePick robot objectIndex st)) = withStatus "idle" seen) \/
  ((objectIndex < 0)%Z /\
   fst (handlePick robot objectIndex st) = Panic (IndexOutOfRange objectIndex (len objects)) /\
   svc (snd (handlePick robot objectIndex st)) = withStatus "detecting" seen) \/
  (exists obj r,
     default [] objects !! Z.to_nat objectIndex = Some obj /\
     (0 <= objectIndex)%Z /\
     fst (executePick robot obj (detected st clouds w')) =
       match r with Returns m => Ok m | Fails e => Err e end /\
     fst (handlePick robot objectIndex st) =
       match r with Returns m => Ok m | Fails e => Err e end /\
     svc (snd (handlePick robot objectIndex st)) =
       withLastResult (match r with Returns m => Some m | Fails _ => None end)
         (withStatus "idle" seen)).
Proof.
  intros c objects seen Hvalid Hclusters.
  rewrite (handlePick_after_detection objectIndex st clouds w' Hvalid Hclusters).
  fold c. fold objects.
  destruct (Z.leb_spec (len objects) objectIndex) as [Hrange|Hrange].
  { left. split; [exact Hrange|]. split; reflexivity. }
  right.
  destruct (Z.ltb_spec objectIndex 0) as [Hneg|Hpos].
  { left. split; [exact Hneg|].
    rewrite (bind_Panic _ _ _ _ _ (index_negative objects objectIndex _ Hneg)).
    split; reflexivity. }
  right.
  destruct (default [] objects !! Z.to_nat objectIndex) as [obj|] eqn:Hobj.
  2:{ apply lookup_ge_None in Hobj. unfold len in Hrange. lia. }
  rewrite (bind_Ok _ _ _ _ _ (index_in_range objects objectIndex obj _ Hpos Hobj)).
  destruct (pick_and_record obj (detected st clouds w')) as (r & w & Hpick & Hrun).
  rewrite Hrun. exists obj, r.
  split; [reflexivity|]. split; [exact Hpos|]. split; [exact Hpick|].
  split; reflexivity.
Qed.

(** How [handlePickDetected] ends. *)
Lemma handlePickDetected_cases (objectIndex : Z) (st : St F W) :
  let objects := lastDetection (svc st) in
  (objects = None /\
   handlePickDetected robot objectIndex st = (Err ErrNoPreviousDetection, st)) \/
  (objects <> None /\ (len objects <= objectIndex)%Z /\
   handlePickDetected robot objectIndex st =
     (Err (ErrIndexOutOfRange objectIndex (len objects)), st)) \/
  (objects <> None /\ (objectIndex < 0)%Z /\
   handlePickDetected robot objectIndex st =
     (Panic (IndexOutOfRange objectIndex (len objects)), st)) \/
  (exists obj r,
     default [] objects !! Z.to_nat objectIndex = Some obj /\
     (0 <= objectIndex)%Z /\
     fst (executePick robot obj st) =
       match r with Returns m => Ok m | Fails e => Err e end /\
     fst (handlePickDetected robot objectIndex st) =
       match r with Returns m => Ok m | Fails e => Err e end /\
     svc (snd (handlePickDetected robot objectIndex st)) =
       withLastResult (match r with Returns m => Some m | Fails _ => None end)
         (withStatus "idle" (svc st))).
Proof.
  intros objects. subst objects.
  destruct (lastDetection (svc st)) as [objects|] eqn:Hlast.
  2:{ left. split; [reflexivity|].
      unfold handlePickDetected, bind, get. simpl. now rewrite Hlast. }
  right.
  rewrite (handlePickDetected_after_detection objectIndex st objects Hlast).
  destruct (Z.leb_spec (len (Some objects)) objectIndex) as [Hrange|Hrange].
  { left. split; [discriminate|]. split; [exact Hrange|reflexivity]. }
  right.
  destruct (Z.ltb_spec objectIndex 0) as [Hneg|Hpos].
  { left. split; [discriminate|]. split; [exact Hneg|].
    now rewrite (bind_Panic _ _ _ _ _ (index_negative (Some objects) objectIndex _ Hneg)). }
  right.
  destruct (default [] (Some objects) !! Z.to_nat objectIndex) as [obj|] eqn:Hobj.
  2:{ apply lookup_ge_None in Hobj. unfold len in Hrange. lia. }
  rewrite (bind_Ok _ _ _ _ _ (index_in_range (Some objects) objectIndex obj _ Hpos Hobj)).
  destruct (pick_and_record obj st) as (r & w & Hpick & Hrun).
  rewrite Hrun. exists obj, r.
  split; [reflexivity|]. split; [exact Hpos|]. split; [exact Hpick|].
  split; reflexivity.
Qed.

(** X4. For an index that is not negative, and a detection that fails or
    keeps at least one object, [handlePick] is [handleDetect] followed by
    [handlePickDetected]: the same result or error, the same calls, the
    same state of the service afterwards. *)
Theorem handlePick_is_detect_then_pick_detected (objectIndex : Z) (st : St F W) :
  let c := cfg (svc st) in
  (0 <= objectIndex)%Z ->
  (forall clouds w',
     segmentation_RadiusClustering robot (segCfgOf c) (world st) = (Returns clouds, w') ->
     detectedOf c clouds <> None) ->
  handlePick robot objectIndex st =
  bind (handleDetect robot) (fun _ => handlePickDetected robot objectIndex) st.
Proof.
  intros c Hindex Hsome. subst c.
  unfold bind at 1. rewrite handleDetect_run. cbv zeta.
  destruct (segmentation_CheckValid robot (segCfgOf (cfg (svc st)))) as [[]|e] eqn:Hvalid.
  - destruct (segmentation_RadiusClustering robot (segCfgOf (cfg (svc st))) (world st))
      as [[clouds|e] w'] eqn:Hclusters.
    + rewrite (handlePick_after_detection objectIndex st clouds w' Hvalid Hclusters).
      erewrite detectObjects_ok; [|exact Hvalid|exact Hclusters].
      unfold idle, detected, after. cbn [svc world trace cfg withStatus].
      destruct (detectedOf (cfg (svc st)) clouds) as [objects|] eqn:Hobjects;
        [|now destruct (Hsome clouds w' eq_refl)].
      erewrite handlePickDetected_after_detection by reflexivity.
      destruct (len (Some objects) <=? objectIndex)%Z eqn:Hrange; [reflexivity|].
      apply Z.leb_gt in Hrange.
      destruct (default [] (Some objects) !! Z.to_nat objectIndex) as [obj|] eqn:Hobj.
      2:{ apply lookup_ge_None in Hobj. unfold len in Hrange. lia. }
      rewrite !(bind_Ok _ _ _ _ _ (index_in_range (Some objects) objectIndex obj _ Hindex Hobj)).
      unfold bind, attempt.
      rewrite <- (executePick_status obj
                   {| svc := withStatus "idle" (withLastDetection (Some objects)
                                (withStatus "detecting" (svc st)));
                      world := w';
                      trace := trace st ++ [(Detection, RadiusClustering (Returns clouds))] |}
                   "detecting").
      reflexivity.
    + unfold handlePick, bind at 1 2 3, attempt, get.
      cbn [setCurrentStatus withSvc modify fst snd svc].
      change (cfg (withStatus "detecting" (svc st))) with (cfg (svc st)).
      erewrite detectObjects_failed; [|exact Hvalid|exact Hclusters].
      reflexivity.
  - unfold handlePick, bind at 1 2 3, attempt, get.
    cbn [setCurrentStatus withSvc modify fst snd svc].
    change (cfg (withStatus "detecting" (svc st))) with (cfg (svc st)).
    rewrite !(detectObjects_invalid _ _ _ _ Hvalid).
    reflexivity.
Qed.

(** X5. No command changes the configuration, and a command that is given
    to an idle service and does not panic leaves it idle: whatever is in
    the command map, and however the detection or the pick went. *)
Theorem DoCommand_returns_idle (cmd : gmap string (Value F)) (st : St F W) :
  currentStatus (svc st) = "idle" ->
  cfg (svc (snd (DoCommand robot cmd st))) = cfg (svc st) /\
  match fst (DoCommand robot cmd st) with
  | Panic _ => True
  | _ => currentStatus (svc (snd (DoCommand robot cmd st))) = "idle"
  end.
Proof.
  intros Hidle. unfold DoCommand.
  destruct (asString (cmd !! "command")) as [command|]; [|now split].
  rewrite (dispatch command (handleDetect robot) (handlePick robot (objectIndexOf cmd))
             (handlePickDetected robot (objectIndexOf cmd)) handleStatus
             (fun command => raise (ErrUnknownCommand command))).
  destruct (String.eqb command "detect").
  { rewrite handleDetect_run. cbv zeta.
    match goal with
    | |- context [detectObjects robot Detection ?c ?st0] =>
        destruct (detectObjects_cases Detection c st0)
          as [(e' & w & evs & Hrun & _)|(clouds & w' & _ & _ & Hrun)];
        rewrite Hrun
    end; now split. }
  destruct (String.eqb command "pick").
  { rewrite handlePick_run. cbv zeta.
    match goal with
    | |- context [detectObjects robot Detection ?c ?st0] =>
        destruct (detectObjects_cases Detection c st0)
          as [(e' & w & evs & Hrun & _)|(clouds & w' & Hvalid & Hclusters & Hrun)]
    end.
    { rewrite Hrun. now split. }
    rewrite <- handlePick_run.
    destruct (handlePick_cases (objectIndexOf cmd) st clouds w' Hvalid Hclusters)
      as [(_ & -> & ->)|[(_ & -> & ->)|(obj & r & _ & _ & _ & -> & ->)]];
      [now split|now split|now destruct r]. }
  destruct (String.eqb command "pick_detected").
  { destruct (handlePickDetected_cases (objectIndexOf cmd) st)
      as [(_ & ->)|[(_ & _ & ->)|[(_ & _ & ->)|(obj & r & _ & _ & _ & -> & ->)]]];
      [now split|now split|now split|now destruct r]. }
  destruct (String.eqb command "status").
  { destruct (handleStatus_fields st) as (m & -> & _). now split. }
  now split.
Qed.

(** X6. [DoCommand] reads two entries of the command map, [command] and
    [object_index]: two maps that agree on them are the same command,
    whatever else they hold. *)
Theorem DoCommand_reads_two_keys (cmd cmd' : gmap string (Value F)) (st : St F W) :
  cmd !! "command" = cmd' !! "command" ->
  cmd !! "object_index" = cmd' !! "object_index" ->
  DoCommand robot cmd st = DoCommand robot cmd' st.
Proof.
  intros Hcommand Hindex. unfold DoCommand, objectIndexOf.
  now rewrite Hcommand, Hindex.
Qed.

(** X7. When [handleDetect] fails, the error is the detection error around
    its cause, the status is idle again, at most one call was made, and the
    stored detection and the stored result are what they were. *)
Theorem handleDetect_failure (st : St F W) e :
  fst (handleDetect robot st) = Err e ->
  (exists cause, e = ErrDetectionFailed cause) /\
  svc (snd (handleDetect robot st)) = withStatus "idle" (svc st) /\
  (length (callsDuring (handleDetect robot) st) <= 1)%nat.
Proof.
  unfold callsDuring. rewrite handleDetect_run. cbv zeta.
  match goal with
  | |- context [detectObjects robot Detection ?c ?st0] =>
      destruct (detectObjects_cases Detection c st0)
        as [(e' & w & evs & Hrun & Hlen)|(clouds & w' & _ & _ & Hrun)];
      rewrite Hrun
  end; [|discriminate].
  cbn [fst snd]. intros [= <-].
  split; [now exists e'|]. split; [reflexivity|].
  cbn [trace after]. now rewrite drop_app_length.
Qed.

(** X8. Once its detection has answered, [handlePick] has replaced the
    stored detection by the new one, however the call ends: with a result,
    with an error of the pick, with the out-of-range error, or in the
    panic of a negative index. *)
Theorem handlePick_stores_detection (objectIndex : Z) (st : St F W) clouds w' :
  let c := cfg (svc st) in
  segmentation_CheckValid robot (segCfgOf c) = Returns tt ->
  segmentation_RadiusClustering robot (segCfgOf c) (world st) = (Returns clouds, w') ->
  lastDetection (svc (snd (handlePick robot objectIndex st))) = detectedOf c clouds.
Proof.
  intros c Hvalid Hclusters.
  destruct (handlePick_cases objectIndex st clouds w' Hvalid Hclusters)
    as [(_ & _ & Hsvc)|[(_ & _ & Hsvc)|(obj & r & _ & _ & _ & _ & Hsvc)]];
    now rewrite Hsvc.
Qed.

(** X9. The index of [handleDetect]'s reply is the index [handlePickDetected]
    takes: the entry listed at position [i] has [index] [i], and a pick of
    index [i] right after the detection reports as its detected position
    the centre that entry gave. *)
Theorem detect_then_pick_detected (st : St F W) (i : nat)
    (m reported m' : gmap string (Value F)) :
  let st1 := snd (handleDetect robot st) in
  fst (handleDetect robot st) = Ok m ->
  (exists listed, m !! "objects" = Some (VList listed) /\
                  listed !! i = Some (VMap reported)) ->
  fst (handlePickDetected robot (Z.of_nat i) st1) = Ok m' ->
  reported !! "index" = Some (VInt (Z.of_nat i)) /\
  entry "x_mm" (m' !! "detected_position") = reported !! "center_x_mm" /\
  entry "y_mm" (m' !! "detected_position") = reported !! "center_y_mm" /\
  entry "z_mm" (m' !! "detected_position") = reported !! "center_z_mm".
Proof.
  intros st1. subst st1. rewrite handleDetect_run. cbv zeta.
  match goal with
  | |- context [detectObjects robot Detection ?c ?st0] =>
      destruct (detectObjects_cases Detection c st0)
        as [(e' & w & evs & Hrun & _)|(clouds & w' & _ & _ & Hrun)];
      rewrite Hrun
  end; [discriminate|].
  cbn [fst snd]. intros [= <-] (listed & Hlisted & Hreported) Hpick.
  rewrite lookup_insert in Hlisted. injection Hlisted as <-.
  rewrite list_lookup_imap in Hreported.
  match type of Hreported with
  | context [default [] ?objs !! i] => destruct (default [] objs !! i) as [obj|] eqn:Hobj
  end; [|discriminate].
  injection Hreported as <-.
  match type of Hpick with
  | fst (handlePickDetected robot _ ?st1) = _ =>
      destruct (handlePickDetected_cases (Z.of_nat i) st1)
        as [(_ & Hrun')|[(_ & _ & Hrun')|[(_ & _ & Hrun')|
            (obj' & r & Hobj' & _ & Hexec & Hrun' & _)]]];
      rewrite Hrun' in Hpick; try discriminate Hpick
  end.
  cbn [svc lastDetection withStatus withLastDetection after] in Hobj'.
  rewrite Nat2Z.id, Hobj in Hobj'. injection Hobj' as <-.
  destruct r as [m''|e]; [|discriminate]. injection Hpick as ->.
  rewrite (executePick_detected_position robot obj _ m' Hexec).
  repeat split.
Qed.

(** X10. [handlePickDetected] never changes the stored detection, however
    it ends: a second pick of the same index is given the same object. *)
Theorem handlePickDetected_keeps_detection (objectIndex : Z) (st : St F W) :
  lastDetection (svc (snd (handlePickDetected robot objectIndex st))) =
  lastDetection (svc st).
Proof.
  destruct (handlePickDetected_cases objectIndex st)
    as [(_ & ->)|[(_ & _ & ->)|[(_ & _ & ->)|(obj & r & _ & _ & _ & _ & ->)]]];
    reflexivity.
Qed.

(** X11. When [handlePick] or [handlePickDetected] returns a result, that
    result is the stored one, and a status query right after it reports
    the status idle and that result as [last_result]. *)
Theorem pick_result_is_recorded (objectIndex : Z) (st : St F W)
    (m : gmap string (Value F)) :
  let recorded (st' : St F W) :=
    lastResult (svc st') = Some m /\
    exists status, fst (handleStatus st') = Ok status /\
      status !! "status" = Some (VString "idle") /\
      status !! "last_result" = Some (VMap m) in
  (fst (handlePick robot objectIndex st) = Ok m ->
   recorded (snd (handlePick robot objectIndex st))) /\
  (fst (handlePickDetected robot objectIndex st) = Ok m ->
   recorded (snd (handlePickDetected robot objectIndex st))).
Proof.
  intros recorded.
  assert (Hrecorded : forall st' : St F W,
            currentStatus (svc st') = "idle" -> lastResult (svc st') = Some m ->
            recorded st').
  { intros st' Hidle Hlast. split; [exact Hlast|].
    destruct (handleStatus_fields st') as (status & Hrun & Hstatus & Hresult & _).
    exists status. rewrite Hrun. split; [reflexivity|].
    rewrite Hstatus, Hresult, Hidle, Hlast. now split. }
  split.
  - pose proof (handlePick_run objectIndex st) as Hrun. cbv zeta in Hrun.
    match type of Hrun with
    | context [detectObjects robot Detection ?c ?st0] =>
        destruct (detectObjects_cases Detection c st0)
          as [(e' & w & evs & Hdet & _)|(clouds & w' & Hvalid & Hclusters & _)]
    end.
    { rewrite Hdet in Hrun. rewrite Hrun. discriminate. }
    clear Hrun.
    destruct (handlePick_cases objectIndex st clouds w' Hvalid Hclusters)
      as [(_ & -> & _)|[(_ & -> & _)|(obj & r & _ & _ & _ & -> & Hsvc)]];
      try discriminate.
    destruct r as [m'|e]; [|discriminate]. intros [= ->].
    apply Hrecorded; now rewrite Hsvc.
  - destruct (handlePickDetected_cases objectIndex st)
      as [(_ & ->)|[(_ & _ & ->)|[(_ & _ & ->)|(obj & r & _ & _ & _ & -> & Hsvc)]]];
      try discriminate.
    destruct r as [m'|e]; [|discriminate]. intros [= ->].
    apply Hrecorded; now rewrite Hsvc.
Qed.

(** X24. In a reply of [handleDetect], [count] is the number of entries of
    [objects], and a status query right after it leaves the state as it is
    and reports that number as [detected_objects], or no such entry when
    the number is zero. *)
Theorem handleDetect_count (st : St F W) (m : gmap string (Value F)) :
  fst (handleDetect robot st) = Ok m ->
  let st1 := snd (handleDetect robot st) in
  exists listed status,
    m !! "objects" = Some (VList listed) /\
    m !! "count" = Some (VInt (Z.of_nat (length listed))) /\
    handleStatus st1 = (Ok status, st1) /\
    status !! "detected_objects" =
      (if (Z.of_nat (length listed) =? 0)%Z then None
       else Some (VInt (Z.of_nat (length listed)))).
Proof.
  intros Hm st1. subst st1. revert Hm. rewrite handleDetect_run. cbv zeta.
  match goal with
  | |- context [detectObjects robot Detection ?c ?st0] =>
      destruct (detectObjects_cases Detection c st0)
        as [(e' & w & evs & Hrun & _)|(clouds & w' & _ & _ & Hrun)];
      rewrite Hrun
  end; [discriminate|].
  cbn [fst snd]. intros [= <-].
  match goal with
  | |- context [handleStatus ?st1] =>
      destruct (handleStatus_fields st1) as (status & Hstatus & _ & _ & Hcount)
  end.
  eexists _, status. split; [reflexivity|].
  rewrite length_imap.
  split; [reflexivity|]. split; [exact Hstatus|].
  rewrite Hcount. cbn [svc lastDetection withStatus withLastDetection after].
  destruct (detectedOf_nil_or_nonempty (cfg (svc st)) clouds)
    as [Hnil|(y & ys & Hsome)].
  - cbn [cfg withStatus]. rewrite Hnil. reflexivity.
  - cbn [cfg withStatus]. rewrite Hsome. reflexivity.
Qed.

End Handlers.

(** ** The move loop *)

Section MoveLoop.
Context {F : Type} `{Float64 F} {W : Type} (robot : Robot F W).

(** One more round of the loop, for each reply it can get. *)
Lemma moveLoop_step (remaining : nat) (steps : Z) c target stepSize (st : St F W) :
  moveLoop robot (S remaining) steps c target stepSize st =
  match motion_GetPose robot (Gripper c) "world" (world st) with
  | (Fails e, w1) =>
      (Err (ErrGetGripperPose e),
       {| svc := svc st; world := w1;
          trace := trace st ++ [(MoveLoop, MotionGetPose (Gripper c) "world" (Fails e))] |})
  | (Returns gripperPose, w1) =>
      let st1 := {| svc := svc st; world := w1;
                    trace := trace st ++
                      [(MoveLoop, MotionGetPose (Gripper c) "world" (Returns gripperPose))] |} in
      if (vecNorm (vecSub target (Point gripperPose)) <=? fone)%f64 then (Ok steps, st1)
      else
        let dest := NewPoseInFrame "world"
                      (NewPose (nextWaypoint target (Point gripperPose) stepSize)
                               (Orientation gripperPose)) in
        match motion_Move robot (Gripper c) dest w1 with
        | (Fails e, w2) =>
            (Err (ErrStepMoveFailed steps e),
             {| svc := svc st; world := w2;
                trace := trace st1 ++ [(MoveLoop, MotionMove (Gripper c) dest (Fails e))] |})
        | (Returns false, w2) =>
            (Err (ErrStepNoPath steps),
             {| svc := svc st; world := w2;
                trace := trace st1 ++
                  [(MoveLoop, MotionMove (Gripper c) dest (Returns false))] |})
        | (Returns true, w2) =>
            moveLoop robot remaining (steps + 1)%Z c target stepSize
              {| svc := svc st; world := w2;
                 trace := trace st1 ++
                   [(MoveLoop, MotionMove (Gripper c) dest (Returns true))] |}
        end
  end.
Proof.
  simpl. unfold bind, motionGetPose, motionMove, call, try, ret, raise.
  destruct (motion_GetPose robot (Gripper c) "world" (world st)) as [[p|e] w1];
    [|reflexivity].
  simpl. destruct (_ <=? _)%f64; [reflexivity|]. simpl.
  now destruct (motion_Move robot _ _ w1) as [[[]|e] w2].
Qed.

(** The loop only adds calls, and leaves the service fields alone. *)
Lemma moveLoop_trace (remaining : nat) (steps : Z) c target stepSize (st : St F W) :
  exists evs,
    trace (snd (moveLoop robot remaining steps c target stepSize st)) = trace st ++ evs /\
    svc (snd (moveLoop robot remaining steps c target stepSize st)) = svc st /\
    Forall (fun ev => fst ev = MoveLoop) evs /\
    (Forall (fun ev => keepsAway target ev = true) evs ->
     fst (moveLoop robot remaining steps c target stepSize st) =
       Ok (steps + Z.of_nat remaining)%Z /\
     exists iterations,
       length iterations = remaining /\ evs = flat_map (iterationCalls c) iterations).
Proof.
  revert steps st. induction remaining as [|remaining IH]; intros steps st.
  - exists []. simpl. rewrite app_nil_r, Z.add_0_r.
    split; [reflexivity|]. split; [reflexivity|]. split; [constructor|].
    intros _. split; [reflexivity|]. exists []. now split.
  - rewrite moveLoop_step.
    destruct (motion_GetPose robot (Gripper c) "world" (world st)) as [[p|e] w1].
    2:{ eexists. simpl. split; [reflexivity|]. split; [reflexivity|].
        split; [repeat constructor|].
        intros Hfar. apply Forall_cons in Hfar as [Hev _]. discriminate Hev. }
    cbv zeta.
    destruct (vecNorm (vecSub target (Point p)) <=? fone)%f64 eqn:Hdist.
    { eexists. simpl. split; [reflexivity|]. split; [reflexivity|].
      split; [repeat constructor|].
      intros Hfar. apply Forall_cons in Hfar as [Hev _]. simpl in Hev.
      rewrite Hdist in Hev. discriminate Hev. }
    destruct (motion_Move robot (Gripper c) _ w1) as [[[]|e] w2] eqn:Hmove.
    + match goal with
      | |- context [moveLoop robot remaining ?s' c target stepSize ?st'] =>
          set (st2 := st'); destruct (IH s' st2) as (evs & Htr & Hsvc & Hsites & Hrun)
      end.
      set (dest := NewPoseInFrame "world"
                     (NewPose (nextWaypoint target (Point p) stepSize) (Orientation p))).
      exists ((MoveLoop, MotionGetPose (Gripper c) "world" (Returns p))
              :: (MoveLoop, MotionMove (Gripper c) dest (Returns true)) :: evs).
      rewrite Htr, Hsvc.
      split; [subst st2; simpl; now rewrite <- !app_assoc|].
      split; [reflexivity|].
      split; [repeat constructor; exact Hsites|].
      intros Hfar. apply Forall_cons in Hfar as [_ Hfar].
      apply Forall_cons in Hfar as [_ Hfar].
      destruct (Hrun Hfar) as (Hout & iterations & Hlen & Hevs).
      split; [rewrite Hout; f_equal; lia|].
      exists ((p, dest) :: iterations).
      split; [simpl; now rewrite Hlen|]. simpl. now rewrite Hevs.
    + eexists. simpl. rewrite <- app_assoc.
      split; [reflexivity|]. split; [reflexivity|]. split; [repeat constructor|].
      intros Hfar. apply Forall_cons in Hfar as [_ Hfar].
      apply Forall_cons in Hfar as [Hev _]. discriminate Hev.
    + eexists. simpl. rewrite <- app_assoc.
      split; [reflexivity|]. split; [reflexivity|]. split; [repeat constructor|].
      intros Hfar. apply Forall_cons in Hfar as [_ Hfar].
      apply Forall_cons in Hfar as [Hev _]. discriminate Hev.
Qed.

(** [handleMoveTo] around its loop. *)
Lemma handleMoveTo_unfold (target : r3.Vector F) (stepSize : F) (st : St F W) :
  let c := cfg (svc st) in
  handleMoveTo robot target stepSize st =
  match moveLoop robot (Z.to_nat maxSteps) 0 c target stepSize (moving st) with
  | (Ok steps, st2) =>
      if (maxSteps <=? steps)%Z then (Err (ErrDidNotReach maxSteps), idle st2)
      else
        match motion_GetPose robot (Gripper c) "world" (world st2) with
        | (r, w3) =>
            (Ok (<["success" := VBool true]>
                (<["steps" := VInt steps]>
                (<["final_position" :=
                     vectorToValue
                       match r with
                       | Returns finalPose => Point finalPose
                       | Fails _ => zeroVector
                       end]>
                (<["target" := vectorToValue target]> ∅)))),
             idle {| svc := svc st2; world := w3;
                     trace := trace st2 ++
                       [(MoveFinal, MotionGetPose (Gripper c) "world" r)] |})
        end
  | (Err e, st2) => (Err e, idle st2)
  | (Panic p, st2) => (Panic p, idle st2)
  end.
Proof.
  intros c. unfold handleMoveTo, defer, bind at 1 2 3, get.
  cbn [setCurrentStatus withSvc modify fst snd svc]. fold (moving st).
  change (cfg (withStatus "moving" (svc st))) with c.
  generalize (moveLoop robot (Z.to_nat maxSteps) 0 c target stepSize (moving st)).
  intros [[steps|e|p] st2]; try reflexivity.
  destruct (maxSteps <=? steps)%Z; [reflexivity|].
  unfold bind, motionGetPose, call, ret.
  now destruct (motion_GetPose robot (Gripper c) "world" (world st2)) as [r w3].
Qed.

(** C5. In a run of [handleMoveTo] in which every pose query answers with a
    pose farther than 1mm from the target and every move is accepted, the
    loop makes exactly 200 iterations, each a pose query followed by one
    move, and the call fails with the did-not-reach error; the status is
    back to idle. *)
Theorem handleMoveTo_exhausted (target : r3.Vector F) (stepSize : F) (st : St F W) :
  let c := cfg (svc st) in
  let evs := callsDuring (handleMoveTo robot target stepSize) st in
  Forall (fun ev => keepsAway target ev = true) evs ->
  fst (handleMoveTo robot target stepSize st) = Err (ErrDidNotReach 200) /\
  (exists iterations,
     length iterations = 200%nat /\ evs = flat_map (iterationCalls c) iterations) /\
  currentStatus (svc (snd (handleMoveTo robot target stepSize st))) = "idle".
Proof.
  intros c evs. subst evs.
  destruct (moveLoop_trace (Z.to_nat maxSteps) 0 c target stepSize (moving st))
    as (evs & Htr & Hsvc & Hsites & Hrun).
  unfold callsDuring. rewrite handleMoveTo_unfold. fold c.
  destruct (moveLoop robot (Z.to_nat maxSteps) 0 c target stepSize (moving st))
    as [[steps|e|p] st2]; cbn [fst snd] in *.
  - destruct (Z.leb_spec maxSteps steps) as [Hcap|Hcap].
    + cbn [fst snd idle trace]. rewrite Htr. cbn [moving trace].
      rewrite drop_app_length. intros Hfar.
      destruct (Hrun Hfar) as (_ & Hiter). repeat split; trivial.
    + destruct (motion_GetPose robot (Gripper c) "world" (world st2)) as [r w3].
      cbn [fst snd idle trace]. rewrite Htr. cbn [moving trace].
      rewrite <- app_assoc, drop_app_length. intros Hfar.
      apply Forall_app in Hfar as [Hfar _].
      destruct (Hrun Hfar) as (Hout & _). injection Hout as ->.
      change maxSteps with 200%Z in Hcap. simpl in Hcap. lia.
  - cbn [fst snd idle trace]. rewrite Htr. cbn [moving trace].
    rewrite drop_app_length. intros Hfar.
    destruct (Hrun Hfar) as (Hout & _). discriminate Hout.
  - cbn [fst snd idle trace]. rewrite Htr. cbn [moving trace].
    rewrite drop_app_length. intros Hfar.
    destruct (Hrun Hfar) as (Hout & _). discriminate Hout.
Qed.
(** *** Every run of the loop *)

(** Complete iterations, then the test of the loop fails or an iteration
    is cut short. *)
Lemma moveLoop_run (remaining : nat) (steps : Z) c target stepSize (st : St F W) :
  exists its tail,
    trace (snd (moveLoop robot remaining steps c target stepSize st)) =
      trace st ++ flat_map (iterationCalls c) its ++ tail /\
    Forall (iterated target stepSize) its /\
    (length its <= remaining)%nat /\
    ((length its = remaining /\ tail = [] /\
      fst (moveLoop robot remaining steps c target stepSize st) =
        Ok (steps + Z.of_nat remaining)%Z) \/
     ((length its < remaining)%nat /\
      LoopExit c target stepSize (steps + Z.of_nat (length its))
        (fst (moveLoop robot remaining steps c target stepSize st)) tail)).
Proof.
  revert steps st. induction remaining as [|remaining IH]; intros steps st.
  - exists [], []. simpl. rewrite app_nil_r, Z.add_0_r.
    split; [reflexivity|]. split; [constructor|]. split; [lia|]. now left.
  - rewrite moveLoop_step.
    destruct (motion_GetPose robot (Gripper c) "world" (world st)) as [[p|e] w1].
    2:{ exists [], [(MoveLoop, MotionGetPose (Gripper c) "world" (Fails e))].
        simpl. split; [reflexivity|]. split; [constructor|]. split; [lia|].
        right. split; [lia|]. rewrite Z.add_0_r. constructor. }
    cbv zeta.
    destruct (vecNorm (vecSub target (Point p)) <=? fone)%f64 eqn:Hdist.
    { exists [], [(MoveLoop, MotionGetPose (Gripper c) "world" (Returns p))].
      simpl. split; [reflexivity|]. split; [constructor|]. split; [lia|].
      right. split; [lia|]. rewrite Z.add_0_r. constructor.
      unfold awayFrom. now rewrite Hdist. }
    assert (Haway : awayFrom target p = true) by (unfold awayFrom; now rewrite Hdist).
    fold (waypointFrom target stepSize p).
    destruct (motion_Move robot (Gripper c) _ w1) as [[[]|e] w2] eqn:Hmove.
    + match goal with
      | |- context [moveLoop robot remaining ?s' c target stepSize ?st'] =>
          set (st2 := st'); destruct (IH s' st2) as (its & tail & Htr & Hits & Hlen & Hend)
      end.
      exists ((p, waypointFrom target stepSize p) :: its), tail.
      rewrite Htr.
      split; [subst st2; simpl; now rewrite <- !app_assoc|].
      split; [constructor; [now split|exact Hits]|].
      split; [simpl; lia|].
      destruct Hend as [(Hfull & Htail & Hout)|(Hshort & Hexit)].
      * left. split; [simpl; lia|]. split; [exact Htail|]. rewrite Hout. f_equal. lia.
      * right. split; [simpl; lia|].
        replace (steps + Z.of_nat (length ((p, waypointFrom target stepSize p) :: its)))%Z
          with (steps + 1 + Z.of_nat (length its))%Z by (simpl length; lia).
        exact Hexit.
    + exists [], [(MoveLoop, MotionGetPose (Gripper c) "world" (Returns p));
                  (MoveLoop, MotionMove (Gripper c) (waypointFrom target stepSize p)
                               (Returns false))].
      simpl. rewrite <- app_assoc.
      split; [reflexivity|]. split; [constructor|]. split; [lia|].
      right. split; [lia|]. rewrite Z.add_0_r. now constructor.
    + exists [], [(MoveLoop, MotionGetPose (Gripper c) "world" (Returns p));
                  (MoveLoop, MotionMove (Gripper c) (waypointFrom target stepSize p)
                               (Fails e))].
      simpl. rewrite <- app_assoc.
      split; [reflexivity|]. split; [constructor|]. split; [lia|].
      right. split; [lia|]. rewrite Z.add_0_r. now constructor.
Qed.

Lemma moveLoop_svc (remaining : nat) (steps : Z) c target stepSize (st : St F W) :
  svc (snd (moveLoop robot remaining steps c target stepSize st)) = svc st.
Proof.
  destruct (moveLoop_trace remaining steps c target stepSize st) as (evs & _ & Hsvc & _).
  exact Hsvc.
Qed.

(** X12. When [handleMoveTo] succeeds, its calls are complete iterations (a
    pose farther than 1mm from the target, then an accepted move to the
    waypoint computed from that pose), one pose query that found the
    gripper within 1mm, and one last pose query. [steps] is the number of
    moves, fewer than 200; [final_position] is what the last query
    answered, the zero vector if it failed; [target] is the target. *)
Theorem handleMoveTo_success (target : r3.Vector F) (stepSize : F) (st : St F W) m :
  fst (handleMoveTo robot target stepSize st) = Ok m ->
  let c := cfg (svc st) in
  exists its p r,
    callsDuring (handleMoveTo robot target stepSize) st =
      flat_map (iterationCalls c) its ++
      [(MoveLoop, MotionGetPose (Gripper c) "world" (Returns p));
       (MoveFinal, MotionGetPose (Gripper c) "world" r)] /\
    Forall (iterated target stepSize) its /\
    awayFrom target p = false /\
    (length its < 200)%nat /\
    m = <["success" := VBool true]>
        (<["steps" := VInt (Z.of_nat (length its))]>
        (<["final_position" :=
             vectorToValue match r with
                           | Returns finalPose => Point finalPose
                           | Fails _ => zeroVector
                           end]>
        (<["target" := vectorToValue target]> ∅))).
Proof.
  intros Hm c. unfold callsDuring. revert Hm.
  rewrite handleMoveTo_unfold. fold c.
  destruct (moveLoop_run (Z.to_nat maxSteps) 0 c target stepSize (moving st))
    as (its & tail & Htr & Hits & Hlen & Hend).
  destruct (moveLoop robot (Z.to_nat maxSteps) 0 c target stepSize (moving st))
    as [o st2].
  cbn [fst snd] in *.
  destruct Hend as [(Hfull & Htail & Hout)|(Hshort & Hexit)].
  { subst o. rewrite Z.leb_refl. discriminate. }
  inversion Hexit as [p Hnear Ho Htail|e Ho|p e Haway Ho|p Haway Ho]; subst o;
    try discriminate.
  destruct (Z.leb_spec maxSteps (0 + Z.of_nat (length its))) as [Hle|Hlt];
    [discriminate|].
  destruct (motion_GetPose robot (Gripper c) "world" (world st2)) as [r w3].
  cbn [fst snd]. intros [= <-].
  exists its, p, r.
  split.
  { cbn [idle trace]. rewrite Htr. subst tail. cbn [moving trace].
    rewrite <- !app_assoc, drop_app_length. reflexivity. }
  split; [exact Hits|]. split; [exact Hnear|].
  split; [change (Z.to_nat maxSteps) with 200%nat in Hshort; exact Hshort|].
  reflexivity.
Qed.

(** X13. When [handleMoveTo] fails, its calls are complete iterations
    followed by nothing else or by the iteration that was cut short: either
    200 iterations and the did-not-reach error; or fewer, then a failed pose
    query, or a pose query and a move that failed or found no path. The
    step number in the error of a move is the number of moves accepted
    before it, and no pose is queried after the failure. *)
Theorem handleMoveTo_failure (target : r3.Vector F) (stepSize : F) (st : St F W) e :
  fst (handleMoveTo robot target stepSize st) = Err e ->
  let c := cfg (svc st) in
  let evs := callsDuring (handleMoveTo robot target stepSize) st in
  exists its,
    Forall (iterated target stepSize) its /\
    ((e = ErrDidNotReach 200 /\ length its = 200%nat /\
      evs = flat_map (iterationCalls c) its) \/
     ((length its < 200)%nat /\
      exists tail,
        evs = flat_map (iterationCalls c) its ++ tail /\
        LoopExit c target stepSize (Z.of_nat (length its)) (Err e) tail)).
Proof.
  intros He c evs. subst evs. unfold callsDuring. revert He.
  rewrite handleMoveTo_unfold. fold c.
  destruct (moveLoop_run (Z.to_nat maxSteps) 0 c target stepSize (moving st))
    as (its & tail & Htr & Hits & Hlen & Hend).
  destruct (moveLoop robot (Z.to_nat maxSteps) 0 c target stepSize (moving st))
    as [o st2].
  cbn [fst snd] in *. intros He. exists its. split; [exact Hits|].
  destruct Hend as [(Hfull & Htail & Hout)|(Hshort & Hexit)].
  { subst o tail. rewrite Z.leb_refl in He. cbn [fst snd] in He. injection He as <-.
    left. split; [reflexivity|]. split; [exact Hfull|].
    rewrite Z.leb_refl. cbn [fst snd idle trace]. rewrite Htr. cbn [moving trace].
    now rewrite app_nil_r, drop_app_length. }
  change (Z.to_nat maxSteps) with 200%nat in Hshort.
  rewrite Z.add_0_l in Hexit.
  destruct o as [steps|e'|p'].
  - exfalso. inversion Hexit; subst.
    destruct (Z.leb_spec maxSteps (Z.of_nat (length its))) as [Hle|Hlt].
    { change maxSteps with 200%Z in Hle. lia. }
    destruct (motion_GetPose robot (Gripper c) "world" (world st2)) as [r w3].
    discriminate He.
  - cbn [fst snd] in He. injection He as <-. right. split; [exact Hshort|].
    exists tail. split; [|exact Hexit].
    cbn [fst snd idle trace]. rewrite Htr. cbn [moving trace].
    now rewrite drop_app_length.
  - inversion Hexit.
Qed.

(** X14. [handleMoveTo] never panics, and however it ends the status is
    idle and no other field of the service has changed: the stored
    detection, the stored result and the configuration are what they
    were. *)
Theorem handleMoveTo_leaves_idle (target : r3.Vector F) (stepSize : F) (st : St F W) :
  svc (snd (handleMoveTo robot target stepSize st)) = withStatus "idle" (svc st) /\
  forall p, fst (handleMoveTo robot target stepSize st) <> Panic p.
Proof.
  rewrite handleMoveTo_unfold.
  pose proof (moveLoop_svc (Z.to_nat maxSteps) 0 (cfg (svc st)) target stepSize (moving st))
    as Hsvc.
  destruct (moveLoop_run (Z.to_nat maxSteps) 0 (cfg (svc st)) target stepSize (moving st))
    as (its & tail & _ & _ & _ & Hend).
  destruct (moveLoop robot (Z.to_nat maxSteps) 0 (cfg (svc st)) target stepSize (moving st))
    as [o st2].
  cbn [fst snd] in *.
  destruct o as [steps|e|p].
  - destruct (maxSteps <=? steps)%Z.
    + cbn [fst snd idle svc]. rewrite Hsvc. split; [reflexivity|discriminate].
    + destruct (motion_GetPose robot _ "world" (world st2)) as [r w3].
      cbn [fst snd idle svc]. rewrite Hsvc. split; [reflexivity|discriminate].
  - cbn [fst snd idle svc]. rewrite Hsvc. split; [reflexivity|discriminate].
  - exfalso. destruct Hend as [(_ & _ & Hout)|(_ & Hexit)]; [discriminate|inversion Hexit].
Qed.

(** *** Moves that land exactly *)




End MoveLoop.

(** ** The constructor and the command line *)

Section CommandLineFacts.
Context {F : Type} `{Float64 F} {W : Type} (robot : Robot F W) (platform : Platform F W).

Lemma NewHandEyeTest_fresh deps (c : Config F) s :
  NewHandEyeTest deps c = inr s -> s = newService c.
Proof.
  unfold NewHandEyeTest.
  destruct (arm_FromDependencies deps _); [|discriminate].
  destruct (camera_FromDependencies deps _); [|discriminate].
  destruct (gripper_FromDependencies deps _); [|discriminate].
  destruct (motion_FromDependencies deps _); [|discriminate].
  now intros [= <-].
Qed.

(** X21. The status subcommand of the command line builds a service of its
    own and asks that one: whatever [runCLI "status"] prints is the encoding
    of the map with the one entry [status] = idle, with no last result and
    no count of detected objects, and no call is made on the machine. *)
Theorem runCLI_status_is_fresh (fl : Flags F) (output : string) :
  fst (runCLI robot platform "status" fl) = Printed output ->
  MarshalIndent platform (<["status" := VString "idle"]> ∅) = Returns output /\
  snd (runCLI robot platform "status" fl) = [].
Proof.
  unfold runCLI. cbn [commandOf].
  destruct (String.eqb (flag_host fl) ""); [discriminate|].
  destruct (ConnectToHostFromCLIToken platform (flag_host fl)) as [machine|e];
    [|discriminate].
  destruct (MachineToDependencies platform machine) as [deps|e]; [|discriminate].
  destruct (NewHandEyeTest deps (componentsOnly fl)) as [e|s] eqn:Hnew; [discriminate|].
  apply NewHandEyeTest_fresh in Hnew. subst s.
  change (DoCommand robot (<["command" := VString "status"]> ∅)) with (@handleStatus F W).
  match goal with
  | |- context [handleStatus ?st] =>
      destruct (handleStatus_fields st) as (m & Hrun & _); rewrite Hrun
  end.
  unfold handleStatus, bind, get, ret in Hrun. cbn in Hrun. injection Hrun as <-.
  destruct (MarshalIndent platform _) as [out|e]; [|discriminate].
  cbn [fst snd trace]. now intros [= ->].
Qed.

(** X22. The move-to subcommand of the command line never moves the arm:
    [runCLI "move-to"] always ends in an error and makes no call on the
    machine; once the machine is reached and the service is built, the
    error is the unknown-command error of [DoCommand] for "move_to". *)
Theorem runCLI_move_to_never_moves (fl : Flags F) :
  snd (runCLI robot platform "move-to" fl) = [] /\
  (exists e, fst (runCLI robot platform "move-to" fl) = Failed e) /\
  (forall machine, connected platform fl (componentsOnly fl) machine ->
     fst (runCLI robot platform "move-to" fl) =
       Failed (ErrCommand (ErrUnknownCommand "move_to"))).
Proof.
  unfold connected, runCLI. cbn [commandOf].
  destruct (String.eqb_spec (flag_host fl) "") as [Hhost|Hhost].
  { split; [reflexivity|]. split; [eauto|]. now intros machine [Hne _]. }
  destruct (ConnectToHostFromCLIToken platform (flag_host fl)) as [machine|e] eqn:Hconnect.
  2:{ split; [reflexivity|]. split; [eauto|]. now intros machine (_ & Hc & _). }
  destruct (MachineToDependencies platform machine) as [deps|e] eqn:Hdeps.
  2:{ split; [reflexivity|]. split; [eauto|].
      intros machine' (_ & [= <-] & deps & Hdeps' & _).
      rewrite Hdeps in Hdeps'. discriminate Hdeps'. }
  destruct (NewHandEyeTest deps (componentsOnly fl)) as [e|s] eqn:Hnew.
  { split; [reflexivity|]. split; [eauto|].
    intros machine' (_ & [= <-] & deps' & Hdeps' & Hnew').
    rewrite Hdeps in Hdeps'. injection Hdeps' as <-.
    rewrite Hnew in Hnew'. discriminate Hnew'. }
  match goal with
  | |- context [DoCommand robot ?cmd ?st] =>
      assert (Hrun : DoCommand robot cmd st = (Err (ErrUnknownCommand "move_to"), st))
        by reflexivity;
      rewrite Hrun
  end.
  cbn [fst snd trace].
  split; [reflexivity|]. split; [eauto|]. reflexivity.
Qed.

(** X23. When [main] runs the command line, the subcommand and the
    arguments are the second argument of the process and what follows it,
    and the subcommand is one [runCLI] knows: for every value of the flags
    the switch of [runCLI] builds a command, and the unknown-subcommand
    error is not what [runCLI] returns. *)
Theorem main_subcommands_known (osArgs : list string) (subcommand : string)
    (args : list string) (fl : Flags F) :
  main osArgs = CLIMode subcommand args ->
  (exists program, osArgs = program :: subcommand :: args) /\
  commandOf subcommand fl <> None /\
  fst (runCLI robot platform subcommand fl) <> Failed (ErrUnknownSubcommand subcommand).
Proof.
  intros Hmode.
  destruct (main_subcommand osArgs subcommand args Hmode) as [Hknown Hargs].
  split; [exact Hargs|].
  assert (Hcommand : commandOf subcommand fl <> None).
  { simpl in Hknown. destruct Hknown as [<-|[<-|[<-|[<-|[]]]]]; discriminate. }
  split; [exact Hcommand|].
  unfold runCLI.
  destruct (commandOf subcommand fl) as [[c cmdMap]|]; [|contradiction].
  destruct (String.eqb (flag_host fl) ""); [discriminate|].
  destruct (ConnectToHostFromCLIToken platform (flag_host fl)); [|discriminate].
  destruct (MachineToDependencies platform _); [|discriminate].
  destruct (NewHandEyeTest _ c); [discriminate|].
  destruct (DoCommand robot cmdMap _) as [[m|e|p] st]; try discriminate.
  destruct (MarshalIndent platform m); discriminate.
Qed.

End CommandLineFacts.


(** * The service on the bench *)

Lemma forallb_Forall {A} (f : A -> bool) (l : list A) :
  forallb f l = true -> Forall (fun x => f x = true) l.
Proof.
  induction l as [|x l IH]; simpl; [constructor|].
  intros Hall. apply andb_prop in Hall as [Hx Hl]. constructor; auto.
Qed.


(** ** A pick in which everything succeeds (C2) *)

Lemma benchHappy_steps :
  returned "steps_completed" (fst (executePick benchHappy benchObject (benchStart ""))) =
  Some (VList (VString <$> stepNames)).
Proof. vm_compute. reflexivity. Qed.

(** C2, as stated, fails on the bench: every step of the pick succeeds and
    the hold check answers true, and [steps_completed] has seven names, not
    nine. *)
Lemma nine_names_counterexample :
  ~ pickReports benchHappy 9 benchObject (benchStart "").
Proof.
  unfold pickReports. intros Hclaim.
  destruct Hclaim as (m & names & Hm & _ & _ & Hnames & Hlen).
  - vm_compute. repeat constructor.
  - vm_compute. tauto.
  - pose proof benchHappy_steps as Hsteps.
    rewrite Hm in Hsteps. unfold stepsCompletedOf in Hnames.
    simpl in Hsteps. rewrite Hsteps in Hnames.
    injection Hnames as <-. discriminate Hlen.
Qed.

(** [executePick_success] on the same run. *)
Lemma executePick_success_witness :
  exists m, fst (executePick benchHappy benchObject (benchStart "")) = Ok m /\
    m !! "success" = Some (VBool true) /\
    m !! "is_holding" = Some (VBool true) /\
    m !! "steps_completed" = Some (VList (VString <$> stepNames)).
Proof.
  apply (executePick_success benchHappy benchObject (benchStart "")).
  - vm_compute. repeat constructor.
  - vm_compute. tauto.
Defined.

(** ** A pick with the camera offline at re-detection (C3) *)

(** C3, as stated, fails on the bench: the segmentation call of step 4 fails
    and [re_detect] is in [StepsCompleted] all the same. *)
Lemma re_detect_counterexample :
  ~ namesOnlyOnSuccess
      (pickResult.StepsCompleted
         (result (snd (pickSequence benchBlind benchObject benchPickStart))))
      (pickCalls (pickSequence benchBlind benchObject) benchPickStart).
Proof.
  intros Hclaim.
  apply (Hclaim Step4_ReDetect "re_detect"
           (RadiusClustering (Fails (External "camera offline")))).
  - reflexivity.
  - vm_compute. tauto.
  - reflexivity.
  - vm_compute. tauto.
Qed.

(** [pick_names] on the same run, at the advisory step 4. *)
Lemma pick_names_witness :
  stepName Step4_ReDetect = Some "re_detect" /\
  (exists call,
     In (Step4_ReDetect, call)
        (pickCalls (pickSequence benchBlind benchObject) benchPickStart)) /\
  In "re_detect"
     (pickResult.StepsCompleted
        (result (snd (pickSequence benchBlind benchObject benchPickStart)))).
Proof.
  split; [reflexivity|].
  assert (Hcall : exists call,
     In (Step4_ReDetect, call)
        (pickCalls (pickSequence benchBlind benchObject) benchPickStart)).
  { exists (RadiusClustering (Fails (External "camera offline"))).
    vm_compute. tauto. }
  split; [exact Hcall|].
  exact (pick_names benchBlind benchObject benchPickStart
           Step4_ReDetect "re_detect" eq_refl Hcall).
Defined.

(** ** Moving ten millimetres in steps of three (C4) *)




(** Nor is the count the ceiling of [(D - 1) / stepSize], [D] being the
    initial distance: towards (0, 6, 8) in steps of 1, [D] is 10 and that
    ceiling is 9, but the rounding of the waypoints leaves the gripper
    farther than 1mm after nine moves, and the loop returns [steps = 10]. *)
Lemma idealRun_rounded :
  let target := (r3.mk 0 6 8)%float in
  let D := vecNorm (vecSub target (Point (world idealStart))) in
  D = 10%float /\
  isCeilOf 9 ((D - 1) / 1)%float = true /\
  returned "steps" (fst (handleMoveTo idealRobot target 1%float idealStart)) =
    Some (VInt 10).
Proof. vm_compute. repeat split; reflexivity. Qed.

(** ** An arm that never moves (C5) *)

Lemma benchStuck_keeps_away :
  forallb (keepsAway (r3.mk 10 0 0)%float)
    (callsDuring (handleMoveTo benchStuck (r3.mk 10 0 0)%float 3%float) (benchStart "")) =
  true.
Proof. vm_compute. reflexivity. Qed.

(** [handleMoveTo_exhausted] for an arm that accepts every move and stays
    where it is. *)
Lemma handleMoveTo_exhausted_witness :
  fst (handleMoveTo benchStuck (r3.mk 10 0 0)%float 3%float (benchStart "")) =
    Err (ErrDidNotReach 200) /\
  (exists iterations,
     length iterations = 200%nat /\
     callsDuring (handleMoveTo benchStuck (r3.mk 10 0 0)%float 3%float) (benchStart "") =
       flat_map (iterationCalls (benchConfig "")) iterations) /\
  currentStatus
    (svc (snd (handleMoveTo benchStuck (r3.mk 10 0 0)%float 3%float (benchStart "")))) =
    "idle".
Proof.
  apply (handleMoveTo_exhausted benchStuck (r3.mk 10 0 0)%float 3%float (benchStart "")).
  apply forallb_Forall. exact benchStuck_keeps_away.
Defined.

(** ** Offsets of a pick with world-frame detection (C6) *)







(** ** An index past the detected objects (C7) *)

Lemma benchHappy_detects :
  detectedOf (benchConfig "") [benchCluster] = Some [benchRedetected].
Proof. vm_compute. reflexivity. Qed.

(** [handlePick_out_of_range] with one detected object and index 1. *)
Lemma handlePick_out_of_range_witness :
  fst (handlePick benchHappy 1 (benchStart "")) = Err (ErrIndexOutOfRange 1 1) /\
  lastResult (svc (snd (handlePick benchHappy 1 (benchStart "")))) = None /\
  callsDuring (handlePick benchHappy 1) (benchStart "") =
    [(Detection, RadiusClustering (Returns [benchCluster]))].
Proof.
  pose proof (handlePick_out_of_range benchHappy 1 (benchStart "") [benchCluster] tt
                eq_refl eq_refl) as Hrange.
  cbv zeta in Hrange. cbn [benchStart svc cfg benchService] in Hrange.
  rewrite benchHappy_detects in Hrange.
  apply Hrange. vm_compute. discriminate.
Defined.

(** ** A negative index (C8) *)

(** [negative_index_panics] with one detected object and index -1, in both
    handlers. *)
Lemma negative_index_panics_witness :
  fst (handlePick benchHappy (-1) (benchStart "")) = Panic (IndexOutOfRange (-1) 1) /\
  fst (handlePickDetected benchHappy (-1) benchRecorded) = Panic (IndexOutOfRange (-1) 1).
Proof.
  split.
  - destruct (negative_index_panics benchHappy (-1) (benchStart "") ltac:(lia))
      as [Hpick _].
    specialize (Hpick [benchCluster] tt eq_refl eq_refl).
    cbv zeta in Hpick. cbn [benchStart svc cfg benchService] in Hpick.
    rewrite benchHappy_detects in Hpick. exact Hpick.
  - destruct (negative_index_panics benchHappy (-1) benchRecorded ltac:(lia))
      as [_ Hdetected].
    exact (Hdetected [benchRedetected] eq_refl).
Defined.

(** ** A gripper that fails to open (C9) *)

Lemma benchJammed_pick (st : St float unit) :
  fst (executePick benchJammed benchRedetected st) =
    Err (ErrOpenGripper (External "gripper jammed")).
Proof.
  unfold executePick, pickSequence, bind at 1 2 3. simpl.
  reflexivity.
Qed.

(** [fatal_pick_erases_lastResult] from a state that holds the result of an
    earlier pick. *)
Lemma fatal_pick_erases_lastResult_witness :
  lastResult (svc benchRecorded) = Some (<["success" := VBool true]> ∅) /\
  (fst (handlePick benchJammed 0 benchRecorded) =
     Err (ErrOpenGripper (External "gripper jammed")) /\
   lastResult (svc (snd (handlePick benchJammed 0 benchRecorded))) = None /\
   exists m, fst (handleStatus (snd (handlePick benchJammed 0 benchRecorded))) = Ok m /\
             m !! "last_result" = None) /\
  (fst (handlePickDetected benchJammed 0 benchRecorded) =
     Err (ErrOpenGripper (External "gripper jammed")) /\
   lastResult (svc (snd (handlePickDetected benchJammed 0 benchRecorded))) = None /\
   exists m, fst (handleStatus (snd (handlePickDetected benchJammed 0 benchRecorded))) = Ok m /\
             m !! "last_result" = None).
Proof.
  destruct (fatal_pick_erases_lastResult benchJammed 0 benchRecorded benchRedetected
              (ErrOpenGripper (External "gripper jammed")) (Z.le_refl 0))
    as [Hpick Hdetected].
  split; [reflexivity|]. split.
  - apply (Hpick [benchCluster] tt
             (snd (executePick benchJammed benchRedetected
                     (detected benchRecorded [benchCluster] tt)))).
    + reflexivity.
    + reflexivity.
    + vm_compute. reflexivity.
    + rewrite <- (benchJammed_pick (detected benchRecorded [benchCluster] tt)).
      apply surjective_pairing.
  - apply (Hdetected [benchRedetected]
             (snd (executePick benchJammed benchRedetected benchRecorded))).
    + reflexivity.
    + reflexivity.
    + rewrite <- (benchJammed_pick benchRecorded).
      apply surjective_pairing.
Defined.

(** ** A scene without objects (C10) *)

(** [empty_detection_is_nil] with a segmentation that answers no cluster. *)
Lemma empty_detection_is_nil_witness :
  (exists m, fst (handleDetect benchEmpty (benchStart "")) = Ok m /\
             m !! "count" = Some (VInt 0)) /\
  lastDetection (svc (snd (handleDetect benchEmpty (benchStart "")))) = None /\
  (forall objectIndex,
     fst (handlePickDetected benchEmpty objectIndex
            (snd (handleDetect benchEmpty (benchStart "")))) =
     Err ErrNoPreviousDetection) /\
  (exists m, fst (handleStatus (snd (handleDetect benchEmpty (benchStart "")))) = Ok m /\
             m !! "detected_objects" = None).
Proof.
  apply (empty_detection_is_nil benchEmpty (benchStart "") [] tt eq_refl eq_refl).
  reflexivity.
Defined.

(** ** A pick that holds nothing (X2) *)

Lemma benchSlippery_returns :
  isOk (fst (executePick benchSlippery benchObject (benchStart ""))) = true.
Proof. vm_compute. reflexivity. Qed.

(** [executePick_verdict] on a pick whose hold check answers false. *)
Lemma executePick_verdict_witness :
  exists m, fst (executePick benchSlippery benchObject (benchStart "")) = Ok m /\
    m !! "steps_completed" = Some (VList (VString <$> stepNames)) /\
    exists holding : bool,
      m !! "success" = Some (VBool holding) /\
      m !! "is_holding" = Some (VBool holding) /\
      (holding = true <->
       In (Step9_Verify, GripperIsHoldingSomething (Returns true))
          (callsDuring (executePick benchSlippery benchObject) (benchStart ""))).
Proof.
  pose proof benchSlippery_returns as Hok.
  destruct (fst (executePick benchSlippery benchObject (benchStart "")))
    as [m|e|p] eqn:Hm; try discriminate Hok.
  exists m. split; [reflexivity|].
  exact (executePick_verdict benchSlippery benchObject (benchStart "") m Hm).
Defined.

(** ** Picks without the frame system (X3) *)

Lemma benchNoFrames_returns :
  isOk (fst (executePick benchNoFrames benchObject (benchStart ""))) = true.
Proof. vm_compute. reflexivity. Qed.

Lemma benchNoFrames_calls :
  callsAt Step6_WorldFrame
    (callsDuring (executePick benchNoFrames benchObject) (benchStart "")) =
  [(Step6_WorldFrame,
    MotionGetPose "gripper" "world" (Fails (External "no such frame")))].
Proof. vm_compute. reflexivity. Qed.

Lemma benchNoCamera_returns :
  isOk (fst (executePick benchNoCamera benchObject (benchStart ""))) = true.
Proof. vm_compute. reflexivity. Qed.

Lemma benchNoCamera_calls :
  callsAt Step6_WorldFrame
    (callsDuring (executePick benchNoCamera benchObject) (benchStart "")) =
  [(Step6_WorldFrame, MotionGetPose "gripper" "world" (Returns (benchPose 1 2 3)));
   (Step6_WorldFrame,
    MotionGetPose "camera" "world" (Fails (External "no such frame")))].
Proof. vm_compute. reflexivity. Qed.

Lemma zeroVector_is_zero : vecIsZero (zeroVector : r3.Vector float) = true.
Proof. vm_compute. reflexivity. Qed.

(** [executePick_positions] with no frame known, and with the gripper's
    frame alone. *)
Lemma executePick_positions_witness :
  (exists m, fst (executePick benchNoFrames benchObject (benchStart "")) = Ok m /\
     m !! "detected_position" = Some (position (Center benchObject) "camera") /\
     m !! "gripper_position_world_frame" = Some (position zeroVector "world") /\
     m !! "object_position_world_frame" = Some (position zeroVector "world") /\
     m !! "world_frame_offset_mm" = Some (offset zeroVector)) /\
  (exists m, fst (executePick benchNoCamera benchObject (benchStart "")) = Ok m /\
     m !! "gripper_position_world_frame" =
       Some (position (Point (benchPose 1 2 3)) "world") /\
     m !! "object_position_world_frame" = Some (position zeroVector "world") /\
     m !! "world_frame_offset_mm" = Some (offset zeroVector)).
Proof.
  split.
  - pose proof benchNoFrames_returns as Hok.
    destruct (fst (executePick benchNoFrames benchObject (benchStart "")))
      as [m|e|p] eqn:Hm; try discriminate Hok.
    exists m. split; [reflexivity|].
    destruct (executePick_positions benchNoFrames benchObject (benchStart "") m Hm)
      as (Hdetected & Hblind & _).
    split; [exact Hdetected|].
    exact (Hblind (External "no such frame") benchNoFrames_calls).
  - pose proof benchNoCamera_returns as Hok.
    destruct (fst (executePick benchNoCamera benchObject (benchStart "")))
      as [m|e|p] eqn:Hm; try discriminate Hok.
    exists m. split; [reflexivity|].
    destruct (executePick_positions benchNoCamera benchObject (benchStart "") m Hm)
      as (_ & _ & Hcamera).
    exact (Hcamera (benchPose 1 2 3) (External "no such frame") benchNoCamera_calls
             zeroVector_is_zero).
Defined.

(** ** Detect, then pick (X4, X9) *)

(** [handlePick_is_detect_then_pick_detected] for the first object. *)
Lemma handlePick_is_detect_then_pick_detected_witness :
  handlePick benchHappy 0 (benchStart "") =
  bind (handleDetect benchHappy) (fun _ => handlePickDetected benchHappy 0) (benchStart "").
Proof.
  apply (handlePick_is_detect_then_pick_detected benchHappy 0 (benchStart "")).
  - lia.
  - intros clouds w' Hclouds. injection Hclouds as <- _.
    change (cfg (svc (benchStart ""))) with (benchConfig "").
    rewrite benchHappy_detects. discriminate.
Defined.

(** ** Commands on the bench (X5, X6) *)

(** [DoCommand_returns_idle] for a pick on the idle bench service. *)
Lemma DoCommand_returns_idle_witness :
  cfg (svc (snd (DoCommand benchHappy (<["command" := VString "pick"]> ∅) (benchStart "")))) =
    benchConfig "" /\
  match fst (DoCommand benchHappy (<["command" := VString "pick"]> ∅) (benchStart "")) with
  | Panic _ => True
  | _ =>
      currentStatus
        (svc (snd (DoCommand benchHappy (<["command" := VString "pick"]> ∅) (benchStart ""))))
      = "idle"
  end.
Proof.
  exact (DoCommand_returns_idle benchHappy (<["command" := VString "pick"]> ∅)
           (benchStart "") eq_refl).
Defined.

(** [DoCommand_reads_two_keys]: a pick command with a target and without. *)
Lemma DoCommand_reads_two_keys_witness :
  DoCommand benchHappy
    (<["command" := VString "pick"]> (<["x" := VFloat 413%float]> ∅)) (benchStart "") =
  DoCommand benchHappy (<["command" := VString "pick"]> ∅) (benchStart "").
Proof.
  apply (DoCommand_reads_two_keys benchHappy
           (<["command" := VString "pick"]> (<["x" := VFloat 413%float]> ∅))
           (<["command" := VString "pick"]> ∅) (benchStart "")).
  - reflexivity.
  - reflexivity.
Defined.

(** ** A detection that fails (X7) *)

Lemma benchBlind_detect :
  fst (handleDetect benchBlind benchRecorded) =
  Err (ErrDetectionFailed (ErrSegmentationFailed (External "camera offline"))).
Proof. vm_compute. reflexivity. Qed.

(** [handleDetect_failure] with the camera offline, on a service that has
    detected and picked before. *)
Lemma handleDetect_failure_witness :
  (exists cause,
     ErrDetectionFailed (ErrSegmentationFailed (External "camera offline")) =
     ErrDetectionFailed cause) /\
  svc (snd (handleDetect benchBlind benchRecorded)) = withStatus "idle" (svc benchRecorded) /\
  (length (callsDuring (handleDetect benchBlind) benchRecorded) <= 1)%nat.
Proof.
  exact (handleDetect_failure benchBlind benchRecorded _ benchBlind_detect).
Defined.

(** ** What the handlers store (X8, X9, X11) *)

(** [handlePick_stores_detection] for an index past the one object. *)
Lemma handlePick_stores_detection_witness :
  lastDetection (svc (snd (handlePick benchHappy 5 (benchStart "")))) =
  detectedOf (benchConfig "") [benchCluster].
Proof.
  exact (handlePick_stores_detection benchHappy 5 (benchStart "") [benchCluster] tt
           eq_refl eq_refl).
Defined.

Lemma benchHappy_detect_reply :
  exists m, fst (handleDetect benchHappy (benchStart "")) = Ok m /\
    m !! "objects" = Some (VList [detectedToValue 0 benchRedetected]).
Proof. eexists. split; [vm_compute; reflexivity|]. vm_compute. reflexivity. Qed.

Lemma benchHappy_pick_detected :
  isOk (fst (handlePickDetected benchHappy 0
               (snd (handleDetect benchHappy (benchStart ""))))) = true.
Proof. vm_compute. reflexivity. Qed.

Lemma benchReported_centre :
  benchReported !! "center_x_mm" = Some (VFloat 121.3%float) /\
  benchReported !! "center_y_mm" = Some (VFloat (-45.5)%float) /\
  benchReported !! "center_z_mm" = Some (VFloat 311.2%float).
Proof. vm_compute. repeat split. Qed.

(** [detect_then_pick_detected] for the one object of the bench. *)
Lemma detect_then_pick_detected_witness :
  exists m', fst (handlePickDetected benchHappy 0
                    (snd (handleDetect benchHappy (benchStart "")))) = Ok m' /\
    entry "x_mm" (m' !! "detected_position") = Some (VFloat 121.3%float) /\
    entry "y_mm" (m' !! "detected_position") = Some (VFloat (-45.5)%float) /\
    entry "z_mm" (m' !! "detected_position") = Some (VFloat 311.2%float).
Proof.
  destruct benchHappy_detect_reply as (m & Hm & Hobjects).
  pose proof benchHappy_pick_detected as Hok.
  destruct (fst (handlePickDetected benchHappy 0
                   (snd (handleDetect benchHappy (benchStart "")))))
    as [m'|e|p] eqn:Hm'; try discriminate Hok.
  exists m'. split; [reflexivity|].
  destruct benchReported_centre as (HX' & HY' & HZ').
  destruct (detect_then_pick_detected benchHappy (benchStart "") 0 m benchReported m' Hm)
    as (_ & HX & HY & HZ).
  - eexists. split; [exact Hobjects|]. reflexivity.
  - exact Hm'.
  - rewrite HX, HY, HZ. split; [exact HX'|]. split; [exact HY'|exact HZ'].
Defined.

Lemma benchHappy_pick_returns :
  isOk (fst (handlePick benchHappy 0 (benchStart ""))) = true.
Proof. vm_compute. reflexivity. Qed.

(** [pick_result_is_recorded] for a pick of the first object. *)
Lemma pick_result_is_recorded_witness :
  exists m, fst (handlePick benchHappy 0 (benchStart "")) = Ok m /\
    lastResult (svc (snd (handlePick benchHappy 0 (benchStart "")))) = Some m /\
    exists status,
      fst (handleStatus (snd (handlePick benchHappy 0 (benchStart "")))) = Ok status /\
      status !! "status" = Some (VString "idle") /\
      status !! "last_result" = Some (VMap m).
Proof.
  pose proof benchHappy_pick_returns as Hok.
  destruct (fst (handlePick benchHappy 0 (benchStart ""))) as [m|e|p] eqn:Hm;
    try discriminate Hok.
  exists m. split; [reflexivity|].
  destruct (pick_result_is_recorded benchHappy 0 (benchStart "") m) as [Hpick _].
  exact (Hpick Hm).
Defined.

(** ** Runs of the move loop (X12, X13) *)

Lemma idealRun_returns :
  isOk (fst (handleMoveTo idealRobot (r3.mk 10 0 0)%float 3%float idealStart)) = true.
Proof. vm_compute. reflexivity. Qed.

(** [handleMoveTo_success] for the move of ten millimetres in steps of
    three. *)
Lemma handleMoveTo_success_witness :
  exists m its p r,
    fst (handleMoveTo idealRobot (r3.mk 10 0 0)%float 3%float idealStart) = Ok m /\
    callsDuring (handleMoveTo idealRobot (r3.mk 10 0 0)%float 3%float) idealStart =
      flat_map (iterationCalls (benchConfig "")) its ++
      [(MoveLoop, MotionGetPose "gripper" "world" (Returns p));
       (MoveFinal, MotionGetPose "gripper" "world" r)] /\
    (length its < 200)%nat /\
    m !! "steps" = Some (VInt (Z.of_nat (length its))).
Proof.
  pose proof idealRun_returns as Hok.
  destruct (fst (handleMoveTo idealRobot (r3.mk 10 0 0)%float 3%float idealStart))
    as [m|e|p] eqn:Hm; try discriminate Hok.
  destruct (handleMoveTo_success idealRobot (r3.mk 10 0 0)%float 3%float idealStart m Hm)
    as (its & p & r & Hcalls & _ & _ & Hlen & ->).
  eexists _, its, p, r. split; [reflexivity|]. split; [exact Hcalls|].
  split; [exact Hlen|]. reflexivity.
Defined.

Lemma benchBlocked_fails :
  fst (handleMoveTo benchBlocked (r3.mk 10 0 0)%float 3%float (benchStart "")) =
  Err (ErrStepNoPath 0).
Proof. vm_compute. reflexivity. Qed.

(** [handleMoveTo_failure] with a planner that finds no path. *)
Lemma handleMoveTo_failure_witness :
  exists its,
    Forall (iterated (r3.mk 10 0 0)%float 3%float) its /\
    ((ErrStepNoPath 0 = ErrDidNotReach 200 /\ length its = 200%nat /\
      callsDuring (handleMoveTo benchBlocked (r3.mk 10 0 0)%float 3%float) (benchStart "") =
        flat_map (iterationCalls (benchConfig "")) its) \/
     ((length its < 200)%nat /\
      exists tail,
        callsDuring (handleMoveTo benchBlocked (r3.mk 10 0 0)%float 3%float) (benchStart "") =
          flat_map (iterationCalls (benchConfig "")) its ++ tail /\
        LoopExit (benchConfig "") (r3.mk 10 0 0)%float 3%float (Z.of_nat (length its))
          (Err (ErrStepNoPath 0)) tail)).
Proof.
  exact (handleMoveTo_failure benchBlocked (r3.mk 10 0 0)%float 3%float (benchStart "")
           _ benchBlocked_fails).
Defined.

(** ** Clusters (X17) *)

(** [detectedOf_without_limits] for the bench configuration, which sets no
    limit. *)
Lemma detectedOf_without_limits_witness :
  detectedOf (benchConfig "") [benchCluster] = Some (objectOf <$> [benchCluster]).
Proof.
  apply (detectedOf_without_limits (benchConfig "") [benchCluster]).
  - reflexivity.
  - simpl. lia.
  - discriminate.
Defined.

(** ** The command line on the bench (X21, X22, X23) *)

Lemma benchStatus_prints :
  fst (runCLI benchHappy benchPlatform "status" benchFlags) = Printed "status".
Proof. vm_compute. reflexivity. Qed.

(** [runCLI_status_is_fresh] on the bench. *)
Lemma runCLI_status_is_fresh_witness :
  MarshalIndent benchPlatform (<["status" := VString "idle"]> ∅) = Returns "status" /\
  snd (runCLI benchHappy benchPlatform "status" benchFlags) = [].
Proof.
  exact (runCLI_status_is_fresh benchHappy benchPlatform benchFlags "status"
           benchStatus_prints).
Defined.

(** [runCLI_move_to_never_moves] on the bench, where the machine answers. *)
Lemma runCLI_move_to_never_moves_witness :
  fst (runCLI benchHappy benchPlatform "move-to" benchFlags) =
  Failed (ErrCommand (ErrUnknownCommand "move_to")).
Proof.
  destruct (runCLI_move_to_never_moves benchHappy benchPlatform benchFlags)
    as (_ & _ & Hconnected).
  apply (Hconnected tt).
  split; [discriminate|]. split; [reflexivity|].
  exists benchDependencies. split; reflexivity.
Defined.

(** [main_subcommands_known] for a move-to run. *)
Lemma main_subcommands_known_witness :
  (exists program,
     ["hand-eye-test"; "move-to"; "--host"; "my-robot.viam.cloud"] =
     program :: "move-to" :: ["--host"; "my-robot.viam.cloud"]) /\
  commandOf "move-to" benchFlags <> None /\
  fst (runCLI benchHappy benchPlatform "move-to" benchFlags) <>
    Failed (ErrUnknownSubcommand "move-to").
Proof.
  exact (main_subcommands_known benchHappy benchPlatform
           ["hand-eye-test"; "move-to"; "--host"; "my-robot.viam.cloud"]
           "move-to" ["--host"; "my-robot.viam.cloud"] benchFlags eq_refl).
Defined.

(** ** The count of a detection (X24) *)

Lemma benchHappy_detect_returns :
  isOk (fst (handleDetect benchHappy (benchStart ""))) = true.
Proof. vm_compute. reflexivity. Qed.

(** [handleDetect_count] on the bench. *)
Lemma handleDetect_count_witness :
  exists m listed status,
    fst (handleDetect benchHappy (benchStart "")) = Ok m /\
    m !! "objects" = Some (VList listed) /\
    m !! "count" = Some (VInt (Z.of_nat (length listed))) /\
    handleStatus (snd (handleDetect benchHappy (benchStart ""))) =
      (Ok status, snd (handleDetect benchHappy (benchStart ""))) /\
    status !! "detected_objects" =
      (if (Z.of_nat (length listed) =? 0)%Z then None
       else Some (VInt (Z.of_nat (length listed)))).
Proof.
  pose proof benchHappy_detect_returns as Hok.
  destruct (fst (handleDetect benchHappy (benchStart ""))) as [m|e|p] eqn:Hm;
    try discriminate Hok.
  destruct (handleDetect_count benchHappy (benchStart "") m Hm)
    as (listed & status & Hlisted & Hcount & Hstatus & Hdetected).
  exists m, listed, status. split; [reflexivity|].
  split; [exact Hlisted|]. split; [exact Hcount|]. split; [exact Hstatus|exact Hdetected].
Defined.
